(* ===== verification/_CoqProject ===== *)
-Q . S2P
Prelude.v
PyStr.v
UrlParse.v
Sql.v
SqlParse.v
World.v
Pandas.v
Credentials.v
Executor.v
Schema.v
Broker.v
Selection.v
App.v
Frame.v
Pages.v
