(* ===== verification/Prelude.v ===== *)
(** * A verification development for the Data Analysis Bot

    The repository is a Streamlit application (Python, five files under
    src/).  A signup/login page (src/BOT/main.py, with the table created
    by src/BOT/init_db.py) guards a query page (src/BOT/pages/app.py)
    that connects to a SQLite, MySQL, PostgreSQL or MongoDB database
    ([connect_to_database]), lists the columns of a table
    ([get_column_names]), asks a language model to translate a question
    into SQL or a MongoDB filter ([get_response]), runs the answer
    ([read_sql_query], [read_query]) and shows the rows.  Two older pages
    (src/connection.py, src/database_selection.py) hold their own copies
    of [connect_to_database] and a database-selection form that stores
    the choice in [st.session_state].  The pages share state only through
    [st.session_state] and the files and servers they open.

    ** Files, in dependency order

    - [Prelude] (this file): Python exceptions ([exc]), the outcome of a
      Python computation, the state-and-exception monad [PyM] (stdpp's
      [MBind]/[MRet]/[MThrow] instances, so [x ← c; k] is Python's
      statement sequencing), [try_except] and [try_finally], Python
      truthiness, and the rewriting lemmas that run a bind pointwise.
    - [PyStr]: the [str] methods the sources call ([replace], [strip],
      [lower], [in], [endswith], [join], slicing) over [String.string],
      [replace] by well-founded recursion (Equations).  Proved: [replace]
      of an absent needle is the identity; removing code fences leaves no
      fence ([replace_fence_no_fence]); a fence at either end vanishes;
      [strip] is idempotent and returns an infix.
    - [Sql]: the relational engines behind sqlite3, mysql.connector and
      psycopg2 (not repository code): values, tables with a primary-key
      flag, the statements the sources send, [exec_stmt] with each
      dialect's errors, and the SQL front end as an interface: the class
      [SqlParser] with the laws [SqlParserLaws] for the texts the sources
      build from a table name.
    - [SqlParse]: one parser meeting those laws (a structural tokenizer and
      a reader), used by the examples; the laws are proved for it.
    - [World]: the whole state a script run sees, as one record: files,
      MySQL/PostgreSQL databases, MongoDB servers, a heap of Python objects
      (connections, cursors, Mongo clients; a connection passed around is
      one heap object, so [close] is seen by every holder), the session
      dict, the displayed output and the environment.  The DB-API calls
      ([connect], [cursor], [execute], [fetchone], [fetchall], [commit],
      [close]) follow each driver's transaction rules; Streamlit's calls
      append to the output or raise [StopException]/[RerunException].
    - [Credentials] (Module [Credentials]): init_db.py's [create_db] and
      main.py's [create_connection], [add_user], [login_user] and the
      signup/login form, with the SQL text of the sources.  The abstract
      store is a [gmap] from usernames to passwords with [spec_signup]
      (insert if absent) and [spec_login] (exact match); [cred_state]
      relates a world to it (the [users] rows spell the map, usernames
      distinct).  Theorems: [add_user] and [login_user] refine the spec
      (C1, C2); [create_db] creates the table on a fresh install and is
      idempotent (C3, C4); without [init_db.py] the INSERT error escapes
      [add_user] (C5); the spec's two examples (C6, C7); the login form
      redirects exactly on a stored pair (C8).
    - [Executor] (Module [Executor]): app.py's fence removal
      [clean_query], [read_sql_query] (dispatch on the connection's class,
      commit on SQLite, [eval] of the text for MongoDB, every exception
      turned into a message and []) and [read_query].  [eval] is a
      parameter [py_eval : string -> Py evalue] that may do anything to
      the world.  Theorems: cleaning is idempotent (C9); a fenced query
      runs as the bare one (C10); the executor never raises an
      [Exception] (C11); [read_query] is [read_sql_query] (C12); a
      [CMySQLConnection] silently gets [] (C13); a rejected query shows an
      error, returns [] and leaves the file (C14); [SELECT *] returns the
      stored rows (C15).  A concrete example shows that a
      language-tagged fence keeps its tag, which the engine rejects.
    - [UrlParse]: [urllib.parse.urlparse] (CPython's [urlsplit],
      [_splitparams], the [hostname]/[username]/[password] properties),
      library code modelled from CPython's source.  Proved:
      [urlparse_roundtrip]: a well-formed [scheme://user:pw@host/db] gives
      back its fields (host lower-cased); a port is parsed and dropped.
    - [Pandas]: [read_csv] (split, header, type inference, tokenizer
      errors), [to_dict(orient="records")] and [to_sql] through pandas'
      SQLite code path, library code modelled from pandas' behaviour.
    - [Broker] (Module [Broker]): the three copies of
      [connect_to_database] as one [dispatch] given each copy's CSV
      loaders.  Theorems: loading a CSV into MySQL or PostgreSQL drops the
      table and then fails in [to_sql], whose [?] query the [%s] drivers
      refuse (C16, C17); MongoDB replaces the collection by the records
      (C18), and an empty CSV drops it and raises (C19); a MySQL URL opens
      the named database of the lower-cased host whatever the port (C20);
      invalid input is shown, never raised (C21).
    - [Schema] (Module [Schema]): app.py's [get_column_names].  Theorems:
      it never raises (C22); on SQLite it returns the declared columns
      (C23); on MongoDB an absent collection gives [] silently and an
      empty one an error (C24).
    - [Selection] (Module [Selection]): database_selection.py's [main]
      (gate, form, [Continue]) and connection.py's [main].  Theorems: the
      gate (C25); a run never stores both a string and a path (C26); a
      valid string is stored and the page reruns (C27); connection.py
      opens the stored SQLite choice and never closes it (C28).
    - [App] (Module [App]): the script of app.py (lines 172-241) composed
      from [Broker], [Schema], [Executor] and [Selection.save_upload];
      the language model is the class [LanguageModel] (any computation,
      which may raise).  Theorems: with the C extension nothing is asked
      or shown (C29); an exception of the model leaves the connection
      open (C30); on a SQLite upload the model gets the declared columns
      and the page shows query, rows and explanation and closes the
      connection (C31).
    - [Pages] (Module [Pages]): a browser session of the selection and
      connection scripts as the relation [step] (one run, any input) and
      [reachable] (its [rtc]).  Theorems, by induction on [rtc]: from an
      empty session nothing is ever stored, saved or opened (C32), so the
      selection form is never reached (C33).
    - [Frame] (Module [Frame]): [keeps_key k c], the unary property that
      [c] leaves session key [k] as it was, its rules for sequencing,
      [try]/[except]/[finally] and branches (tactic [keeps_auto], hint
      database [keeps]), and its instances for every driver, pandas,
      pymongo and Streamlit call and for the four scripts, for every key
      they do not write ([written_keys]).
    - [Pages], second part: a session of all four scripts
      ([session_step]: main.py, pages/app.py, database_selection.py,
      connection.py, in any order, any input).  By induction on the runs
      with [Frame]: nobody ever sets [database_selection], so even after
      a successful login the selection page stops at its gate (C34).
      The model and [eval] are assumed not to write that key.

    ** Modelling choices

    - Strings are [String.string]; the sources only inspect ASCII.
    - A Python exception is a value of [exc]; side effects made before it
      stay (no rollback), as in Python.  [except Exception] catches
      everything but Streamlit's control exceptions ([is_exception]).
    - No fuel is needed: every loop of the sources is over a finite list
      or string and is modelled by structural recursion, [str.replace] by
      well-founded recursion on the length of the text (Equations), so
      every definition is total and termination holds by construction.
    - Hypotheses on the SQL front end are stated once per group of
      theorems (Section [Hypothesis] or the class [SqlParserLaws]) and
      discharged in the witnesses by the concrete parser, by computation.
    - Each Streamlit run is one [Py] computation whose input is the
      widget values of the run; widgets with a [key] write their value to
      the session during the run.

    ** Not modelled, and why

    - The language model's behaviour: an external service, only its
      signature is assumed ([App.LanguageModel]).
    - Python's [eval] of a model's answer on the MongoDB path: a parameter
      [py_eval] that may do anything, which is what the code allows.
    - Page layout and styling ([st.markdown] CSS, [st.set_page_config]),
      [load_dotenv] and [genai.configure]: presentation and configuration
      only.
    - Credentials of the database servers (user, password): the servers
      are keyed by host and database name.
    - The multipage navigation of main.py and pages/app.py (Streamlit's
      page switching): [st.switch_page] is modelled as the exception that
      ends the run. *)

From stdpp Require Import base list gmap strings.
From stdpp Require Import options.

(** ** Python exceptions

    The exception classes that the sources raise, catch or let escape.
    Each carries the message Python would attach to it. *)
Inductive exc :=
| IntegrityError (msg : string)       (** sqlite3.IntegrityError *)
| OperationalError (msg : string)     (** sqlite3 / mysql OperationalError *)
| ProgrammingError (msg : string)     (** DB-API ProgrammingError *)
| DatabaseError (msg : string)        (** pandas.errors.DatabaseError *)
| InterfaceError (msg : string)       (** a driver failing to connect *)
| ConfigurationError (msg : string)   (** pymongo.errors.ConfigurationError *)
| InvalidOperation (msg : string)     (** pymongo.errors.InvalidOperation *)
| AttributeError (msg : string)       (** e.g. [None.keys()] *)
| EvalError (msg : string)            (** anything [eval] raises *)
| OperationFailure (msg : string)     (** pymongo.errors.OperationFailure *)
| ServerSelectionTimeoutError (msg : string)
| TypeError (msg : string)
| FileNotFoundError (msg : string)
| EmptyDataError (msg : string)      (** pandas.errors.EmptyDataError *)
| ParserError (msg : string)         (** pandas.errors.ParserError *)
| UnicodeDecodeError (msg : string)
| ValueError (msg : string)
| IndexError (msg : string)
| StopException                       (** raised by [st.stop()] *)
| RerunException (page : option string).
                                      (** raised by [st.rerun()] and
                                          [st.switch_page(page)] *)

(** [str(e)] *)
Definition exc_str (e : exc) : string :=
  match e with
  | IntegrityError m | OperationalError m | ProgrammingError m | DatabaseError m
  | InterfaceError m | ConfigurationError m | InvalidOperation m | AttributeError m
  | EvalError m | OperationFailure m | ServerSelectionTimeoutError m | TypeError m
  | FileNotFoundError m | EmptyDataError m | ParserError m | UnicodeDecodeError m
  | ValueError m | IndexError m => m
  | StopException | RerunException _ => ""
  end.

(** [except Exception] catches everything but Streamlit's script-control
    exceptions, which derive from [BaseException] only. *)
Definition is_exception (e : exc) : bool :=
  match e with StopException | RerunException _ => false | _ => true end.

(** ** The outcome of a Python computation *)
Inductive outcome (A : Type) :=
| Ret (a : A)
| Throw (e : exc).
Arguments Ret {A} a.
Arguments Throw {A} e.

(** ** A state-and-exception monad

    A Python statement sequence runs against an explicit state [S] and
    either returns a value or raises an exception; side effects made
    before the exception are kept (Python has no rollback), so the state
    is returned in both cases. *)
Definition PyM (S A : Type) : Type := S -> S * outcome A.

Section Monad.
Context {S : Type}.

#[export] Instance pym_ret : MRet (PyM S) := fun A a s => (s, Ret a).

#[export] Instance pym_bind : MBind (PyM S) := fun A B f c s =>
  match c s with
  | (s', Ret a) => f a s'
  | (s', Throw e) => (s', Throw e)
  end.

#[export] Instance pym_throw : MThrow exc (PyM S) := fun A e s => (s, Throw e).

Definition get : PyM S S := fun s => (s, Ret s).
Definition put (s : S) : PyM S unit := fun _ => (s, Ret ()).
Definition modify (f : S -> S) : PyM S unit := fun s => (f s, Ret ()).
Definition gets {A} (f : S -> A) : PyM S A := fun s => (s, Ret (f s)).

(** [try: c except ...]: the handler returns [None] for an exception
    that its [except] clauses do not name, which then propagates. *)
Definition try_except {A} (c : PyM S A) (h : exc -> option (PyM S A)) : PyM S A :=
  fun s =>
    match c s with
    | (s', Ret a) => (s', Ret a)
    | (s', Throw e) =>
        match h e with
        | Some k => k s'
        | None => (s', Throw e)
        end
    end.

(** [try: c finally: fin]: [fin] runs on both paths; an exception it
    raises replaces the pending one. *)
Definition try_finally {A} (c : PyM S A) (fin : PyM S unit) : PyM S A :=
  fun s =>
    let '(s', o) := c s in
    match fin s' with
    | (s'', Ret _) => (s'', o)
    | (s'', Throw e) => (s'', Throw e)
    end.

(** Run a computation and keep only its final state / outcome. *)
Definition exec_state {A} (c : PyM S A) (s : S) : S := fst (c s).
Definition eval_outcome {A} (c : PyM S A) (s : S) : outcome A := snd (c s).

(** *** Running a bind, pointwise in the state *)
Lemma run_bind_ret {A B} (c : PyM S A) (f : A -> PyM S B) s s' a :
  c s = (s', Ret a) -> (c ≫= f) s = f a s'.
Proof. intros Hc. unfold mbind, pym_bind. by rewrite Hc. Qed.

Lemma run_bind_throw {A B} (c : PyM S A) (f : A -> PyM S B) s s' e :
  c s = (s', Throw e) -> (c ≫= f) s = (s', Throw e).
Proof. intros Hc. unfold mbind, pym_bind. by rewrite Hc. Qed.

Lemma run_try_except_ret {A} (c : PyM S A) h s s' a :
  c s = (s', Ret a) -> try_except c h s = (s', Ret a).
Proof. intros Hc. unfold try_except. by rewrite Hc. Qed.

Lemma run_try_except_caught {A} (c : PyM S A) h k s s' e :
  c s = (s', Throw e) -> h e = Some k -> try_except c h s = k s'.
Proof. intros Hc Hh. unfold try_except. by rewrite Hc, Hh. Qed.

Lemma run_try_except_uncaught {A} (c : PyM S A) h s s' e :
  c s = (s', Throw e) -> h e = None -> try_except c h s = (s', Throw e).
Proof. intros Hc Hh. unfold try_except. by rewrite Hc, Hh. Qed.
(** A [try] whose handler catches every [Exception] with a handler
    that returns lets only the script-control exceptions escape. *)
Lemma try_except_escapes {A} (c : PyM S A) h s s' e :
  (forall e, is_exception e = true ->
     exists k, h e = Some k /\ forall s, exists s' a, k s = (s', Ret a)) ->
  (forall e, is_exception e = false -> h e = None) ->
  try_except c h s = (s', Throw e) -> is_exception e = false.
Proof.
  intros Hcatch Hpass. unfold try_except. destruct (c s) as [s1 [a|e1]]; [congruence|].
  destruct (is_exception e1) eqn:E.
  - destruct (Hcatch e1 E) as (k & -> & Hk). destruct (Hk s1) as (s2 & a & ->). congruence.
  - rewrite (Hpass e1 E). congruence.
Qed.

(** *** Which exceptions a computation can raise

    [raises_exception_only c]: whatever [c] raises is an [Exception], never
    one of Streamlit's script-control exceptions; [never_raises c]: [c]
    always returns.  A [try] whose handler catches every [Exception] with
    a handler that returns turns the first into the second. *)
Definition raises_exception_only {A} (c : PyM S A) : Prop :=
  forall s s' e, c s = (s', Throw e) -> is_exception e = true.

Definition never_raises {A} (c : PyM S A) : Prop :=
  forall s, exists s' a, c s = (s', Ret a).

Lemma exc_only_ret {A} (a : A) : raises_exception_only (mret a).
Proof. by intros s s' e [=]. Qed.

Lemma exc_only_throw {A} e : is_exception e = true -> raises_exception_only (A:=A) (mthrow e).
Proof. by intros He s s' e' [= _ <-]. Qed.

Lemma exc_only_bind {A B} (c : PyM S A) (f : A -> PyM S B) :
  raises_exception_only c -> (forall a, raises_exception_only (f a)) ->
  raises_exception_only (c ≫= f).
Proof.
  intros Hc Hf s s' e. unfold mbind, pym_bind.
  destruct (c s) as [s1 [a|e1]] eqn:E; [apply Hf|]. intros [= <- <-]. by eapply Hc.
Qed.

Lemma exc_only_never {A} (c : PyM S A) : never_raises c -> raises_exception_only c.
Proof. intros Hc s s' e He. destruct (Hc s) as (? & ? & ?). congruence. Qed.

Lemma never_raises_try_except {A} (c : PyM S A) h :
  raises_exception_only c ->
  (forall e, is_exception e = true -> exists k, h e = Some k /\ never_raises k) ->
  never_raises (try_except c h).
Proof.
  intros Hc Hh s. unfold try_except. destruct (c s) as [s1 [a|e]] eqn:E; [by eauto|].
  destruct (Hh e (Hc _ _ _ E)) as (k & -> & Hk). apply Hk.
Qed.
End Monad.

Create HintDb pyexc.
#[export] Hint Resolve exc_only_ret exc_only_bind exc_only_never : pyexc.

Create Rewrite HintDb pyrun.
#[export] Hint Rewrite @run_bind_ret @run_bind_throw
  @run_try_except_ret using (assumption || reflexivity) : pyrun.

(** ** Python truthiness

    [if x:] on the values the sources test: [None] and [""] are false,
    every other string is true. *)
Inductive pyval :=
| PNone
| PStr (s : string)
| PBool (b : bool).

#[export] Instance pyval_eq_dec : EqDecision pyval.
Proof. solve_decision. Defined.

Definition truthy (v : pyval) : bool :=
  match v with
  | PNone => false
  | PStr s => negb (String.eqb s "")
  | PBool b => b
  end.

(** An optional string argument ([connection_string=None]). *)
Definition opt_truthy (o : option string) : bool :=
  match o with
  | None => false
  | Some s => negb (String.eqb s "")
  end.

Definition pyval_of_opt (o : option string) : pyval :=
  match o with None => PNone | Some s => PStr s end.

Definition opt_of_pyval (v : pyval) : option string :=
  match v with PStr s => Some s | _ => None end.

Lemma opt_truthy_Some o : opt_truthy o = true -> exists s, o = Some s /\ s <> "".
Proof.
  destruct o as [s|]; simpl; [|done]. intros H. exists s. split; [done|].
  intros ->. done.
Qed.

Lemma opt_truthy_Some_ne s : s <> "" -> opt_truthy (Some s) = true.
Proof. intros Hs. simpl. destruct (String.eqb_spec s ""); [done|]. done. Qed.

Lemma truthy_pyval_of_opt o : truthy (pyval_of_opt o) = opt_truthy o.
Proof. by destruct o. Qed.
