(* ===== verification/PyStr.v ===== *)
(** * Python [str] methods used by the sources

    [str.replace], [str.strip], [str.lower], [in], [str.endswith],
    [str.join] and slicing [s[n:]], over Rocq's [String.string] (one
    [ascii] per character: the sources only ever handle ASCII text in the
    positions these functions inspect).  The lemmas at the end are the
    facts the components use: fence removal leaves no fence behind,
    [strip] is idempotent and returns an infix of its argument. *)

From stdpp Require Import base list strings.
From Equations Require Import Equations.
From Stdlib Require Import Ascii.
From S2P Require Import Prelude.
From stdpp Require Import options.



(** ** Character classes *)

(** [str.isspace] on ASCII: tab, newline, vertical tab, form feed,
    carriage return, the four information separators 0x1c..0x1f, and
    space. *)
Definition is_space (c : ascii) : bool :=
  let n := nat_of_ascii c in
  ((9 <=? n) && (n <=? 13)) || ((28 <=? n) && (n <=? 32)).

Definition ascii_lower (c : ascii) : ascii :=
  let n := nat_of_ascii c in
  if (65 <=? n) && (n <=? 90) then ascii_of_nat (n + 32) else c.

(** ** Slicing, prefix and containment *)

(** [s[n:]]: never raises, empty past the end. *)
Fixpoint str_drop (n : nat) (s : string) : string :=
  match n, s with
  | 0, _ => s
  | S _, EmptyString => EmptyString
  | S n', String _ s' => str_drop n' s'
  end.

(** [sub in s] *)
Fixpoint py_in (sub s : string) : bool :=
  String.prefix sub s ||
  match s with
  | EmptyString => false
  | String _ s' => py_in sub s'
  end.

(** [s.endswith(suf)] *)
Definition py_endswith (suf s : string) : bool :=
  (String.length suf <=? String.length s) &&
  String.eqb (str_drop (String.length s - String.length suf) s) suf.

(** [s.lower()] *)
Fixpoint py_lower (s : string) : string :=
  match s with
  | EmptyString => EmptyString
  | String c s' => String (ascii_lower c) (py_lower s')
  end.

(** [sep.join(xs)] *)
Fixpoint py_join (sep : string) (xs : list string) : string :=
  match xs with
  | [] => ""
  | [x] => x
  | x :: xs' => x +:+ sep +:+ py_join sep xs'
  end.

(** ** [str.strip()] *)
Fixpoint lstrip (s : string) : string :=
  match s with
  | EmptyString => EmptyString
  | String c s' => if is_space c then lstrip s' else s
  end.

Fixpoint rstrip (s : string) : string :=
  match s with
  | EmptyString => EmptyString
  | String c s' =>
      let r := rstrip s' in
      if is_space c && String.eqb r "" then "" else String c r
  end.

Definition py_strip (s : string) : string := rstrip (lstrip s).

(** ** [str.replace(old, new)]

    Left to right, non-overlapping.  With an empty [old], Python inserts
    [new] before every character and at the end. *)
Fixpoint replace_empty (new s : string) : string :=
  match s with
  | EmptyString => new
  | String d s' => new +:+ String d (replace_empty new s')
  end.

Lemma str_drop_length_le n s : String.length (str_drop n s) <= String.length s.
Proof.
  revert s; induction n as [|n IH]; intros [|c s]; simpl; try lia.
  specialize (IH s). lia.
Qed.

Equations? py_replace (old new s : string) : string by wf (String.length s) lt :=
  py_replace EmptyString new s := replace_empty new s;
  py_replace (String c old') new EmptyString := EmptyString;
  py_replace (String c old') new (String d s')
    with String.prefix (String c old') (String d s') => {
    | true := new +:+ py_replace (String c old') new (str_drop (String.length old') s');
    | false := String d (py_replace (String c old') new s') }.
Proof.
  all: simpl; pose proof (str_drop_length_le (String.length old') s'); lia.
Qed.

(** ** Lemmas *)

Create HintDb pystr.

Lemma str_length_append x y :
  String.length (x +:+ y) = String.length x + String.length y.
Proof. induction x as [|c x IH]; simpl; [done|]. by rewrite IH. Qed.

Lemma str_app_cons c x y : String c x +:+ y = String c (x +:+ y).
Proof. reflexivity. Qed.

Lemma str_app_nil_l y : "" +:+ y = y.
Proof. reflexivity. Qed.

Lemma str_app_nil_r x : x +:+ "" = x.
Proof. induction x as [|c x IH]; [done|]. rewrite str_app_cons. by rewrite IH. Qed.

Lemma str_app_assoc x y z : x +:+ y +:+ z = (x +:+ y) +:+ z.
Proof. induction x as [|c x IH]; [done|]. rewrite !str_app_cons. by rewrite IH. Qed.

Lemma string_len_ind (P : string -> Prop) :
  (forall s, (forall t, String.length t < String.length s -> P t) -> P s) ->
  forall s, P s.
Proof.
  intros Hstep s. remember (String.length s) as n eqn:Hn.
  revert s Hn. induction (lt_wf n) as [n _ IH]; intros s Hn.
  apply Hstep. intros t Ht. subst n. by apply (IH (String.length t)).
Qed.

Lemma py_replace_cons c old' new d s' :
  py_replace (String c old') new (String d s') =
  if String.prefix (String c old') (String d s')
  then new +:+ py_replace (String c old') new (str_drop (String.length old') s')
  else String d (py_replace (String c old') new s').
Proof. simp py_replace. by destruct (String.prefix _ _). Qed.

Lemma py_in_cons sub d s' :
  py_in sub (String d s') = String.prefix sub (String d s') || py_in sub s'.
Proof. reflexivity. Qed.

(** Replacing a non-empty substring that does not occur changes nothing. *)
Lemma py_replace_absent c old' new s :
  py_in (String c old') s = false -> py_replace (String c old') new s = s.
Proof.
  induction s as [|d s' IH]; intros Hin; [by simp py_replace|].
  rewrite py_in_cons in Hin. apply orb_false_iff in Hin as [Hp Hin].
  rewrite py_replace_cons, Hp. by rewrite IH.
Qed.

Lemma prefix_app t x y :
  String.prefix t x = true -> String.prefix t (x +:+ y) = true.
Proof.
  revert x; induction t as [|a t IH]; intros [|b x] H; simpl in *; try done;
    [by destruct y|].
  destruct (ascii_dec a b); [by apply IH | done].
Qed.

Lemma py_in_app_l t x y : py_in t x = true -> py_in t (x +:+ y) = true.
Proof.
  induction x as [|c x IH]; simpl.
  - intros Hp. destruct t; [by destruct y | done].
  - intros [Hp|Hin]%orb_true_iff; apply orb_true_iff; [left|right].
    + by apply (prefix_app t (String c x) y).
    + by apply IH.
Qed.

Lemma py_in_app_r t x y : py_in t y = true -> py_in t (x +:+ y) = true.
Proof.
  induction x as [|c x IH]; simpl; [done|].
  intros Hin. apply orb_true_iff. right. by apply IH.
Qed.

Lemma py_in_app_false t x y :
  py_in t (x +:+ y) = false -> py_in t x = false /\ py_in t y = false.
Proof.
  intros H. destruct (py_in t x) eqn:Ex; [by rewrite (py_in_app_l t x y Ex) in H|].
  destruct (py_in t y) eqn:Ey; [by rewrite (py_in_app_r t x y Ey) in H|]. done.
Qed.

(** *** [strip] *)

Lemma lstrip_infix s : exists a, s = a +:+ lstrip s.
Proof.
  induction s as [|c s [a Ha]]; simpl; [by exists ""|].
  destruct (is_space c).
  - exists (String c a). rewrite Ha at 1. reflexivity.
  - exists "". reflexivity.
Qed.

Lemma rstrip_infix s : exists b, s = rstrip s +:+ b.
Proof.
  induction s as [|c s [b Hb]]; simpl; [by exists ""|].
  destruct (is_space c && String.eqb (rstrip s) "") eqn:E.
  - apply andb_true_iff in E as [_ E%String.eqb_eq].
    exists (String c s). done.
  - exists b. rewrite Hb at 1. reflexivity.
Qed.

Lemma py_strip_infix s : exists a b, s = a +:+ py_strip s +:+ b.
Proof.
  unfold py_strip. destruct (lstrip_infix s) as [a Ha].
  destruct (rstrip_infix (lstrip s)) as [b Hb].
  exists a, b. rewrite Ha at 1. by rewrite Hb at 1.
Qed.

Lemma py_in_strip_false t s : py_in t s = false -> py_in t (py_strip s) = false.
Proof.
  intros H. destruct (py_strip_infix s) as (a & b & Hs). rewrite Hs in H.
  apply py_in_app_false in H as [_ H]. by apply py_in_app_false in H as [H _].
Qed.

Lemma rstrip_idem s : rstrip (rstrip s) = rstrip s.
Proof.
  induction s as [|c s IH]; simpl; [done|].
  destruct (is_space c && String.eqb (rstrip s) "") eqn:E; [done|].
  simpl. rewrite IH. by rewrite E.
Qed.

(** [rstrip] keeps a first character that is not a space. *)
Lemma lstrip_rstrip s : lstrip s = s -> lstrip (rstrip s) = rstrip s.
Proof.
  destruct s as [|c s]; simpl; [done|].
  destruct (is_space c) eqn:Hc.
  - intros H. pose proof (f_equal String.length H) as Hl. simpl in Hl.
    pose proof (lstrip_infix s) as [a Ha]. apply (f_equal String.length) in Ha.
    rewrite str_length_append in Ha. lia.
  - intros _. simpl. by rewrite Hc.
Qed.

Lemma lstrip_idem s : lstrip (lstrip s) = lstrip s.
Proof. induction s as [|c s IH]; simpl; [done|]. destruct (is_space c) eqn:E; [done|]. simpl. by rewrite E. Qed.

Lemma py_strip_idem s : py_strip (py_strip s) = py_strip s.
Proof.
  unfold py_strip. rewrite (lstrip_rstrip (lstrip s)) by apply lstrip_idem.
  apply rstrip_idem.
Qed.

(** *** Removing code fences: [s.replace("```", "")]

    The pieces left between two removed fences never end in a backtick
    (otherwise an earlier fence would have matched), so no new fence can
    form across a cut: the result contains no fence at all. *)

Lemma prefix_cons_inv c t d s :
  String.prefix (String c t) (String d s) = true -> c = d /\ String.prefix t s = true.
Proof. simpl. by destruct (ascii_dec c d). Qed.

Lemma prefix_fence x :
  String.prefix "```" (String "`" (String "`" (String "`" x))) = true.
Proof. exact (prefix_app "```" "```" x eq_refl). Qed.

Lemma prefix_two_ticks x :
  String.prefix (String "`" (String "`" "")) x = true ->
  exists r, x = String "`" (String "`" r).
Proof.
  destruct x as [|a [|b r]]; [done|..].
  - by intros [_ ?]%prefix_cons_inv.
  - intros [-> [-> _]%prefix_cons_inv]%prefix_cons_inv. by exists r.
Qed.

Lemma replace_fence_head s r :
  py_replace "```" "" s = String "`" r -> exists s', s = String "`" s'.
Proof.
  destruct s as [|d s']; [by simp py_replace|].
  rewrite py_replace_cons. destruct (String.prefix _ _) eqn:Hp.
  - apply prefix_cons_inv in Hp as [<- _]. by exists s'.
  - intros [= -> _]. by exists s'.
Qed.

Lemma replace_fence_head2 s r :
  py_replace "```" "" s = String "`" (String "`" r) ->
  exists s', s = String "`" (String "`" s').
Proof.
  destruct s as [|d s']; [by simp py_replace|].
  rewrite py_replace_cons. destruct (String.prefix _ _) eqn:Hp.
  - apply prefix_cons_inv in Hp as [<- Hp].
    destruct s' as [|e s'']; [done|]. apply prefix_cons_inv in Hp as [<- _].
    by exists s''.
  - intros [= -> Hr]. destruct (replace_fence_head s' _ Hr) as [s'' ->].
    by exists s''.
Qed.

Lemma replace_fence_no_fence s : py_in "```" (py_replace "```" "" s) = false.
Proof.
  induction s as [s IH] using string_len_ind.
  destruct s as [|d s']; [by simp py_replace|].
  rewrite py_replace_cons. destruct (String.prefix _ (String d s')) eqn:Hp.
  - apply IH. eapply Nat.le_lt_trans; [apply str_drop_length_le | simpl; lia].
  - rewrite py_in_cons. apply orb_false_iff. split.
    + apply not_true_iff_false. intros Hq.
      apply prefix_cons_inv in Hq as [<- Hq].
      destruct (prefix_two_ticks _ Hq) as [r Hr].
      destruct (replace_fence_head2 s' r Hr) as [s'' ->].
      by rewrite prefix_fence in Hp.
    + apply IH. simpl. lia.
Qed.

Lemma replace_fence_idem s :
  py_replace "```" "" (py_replace "```" "" s) = py_replace "```" "" s.
Proof. apply py_replace_absent, replace_fence_no_fence. Qed.

(** A fence at either end of a text disappears without a trace: a
    leading one is the first match, and a trailing one joins the last run
    of backticks, whose length only matters modulo three. *)
Lemma replace_fence_cons_fence x :
  py_replace "```" "" ("```" +:+ x) = py_replace "```" "" x.
Proof.
  rewrite !str_app_cons, str_app_nil_l, py_replace_cons, prefix_fence. reflexivity.
Qed.

Lemma replace_fence_snoc_fence x :
  py_replace "```" "" (x +:+ "```") = py_replace "```" "" x.
Proof.
  induction x as [x IH] using string_len_ind.
  destruct x as [|d x']; [reflexivity|].
  rewrite str_app_cons, !py_replace_cons.
  destruct (String.prefix "```" (String d x')) eqn:Hp.
  - assert (String.prefix "```" (String d (x' +:+ "```")) = true) as ->
      by exact (prefix_app _ (String d x') "```" Hp).
    apply prefix_cons_inv in Hp as [<- Hp].
    destruct x' as [|a [|b x'']];
      [discriminate Hp | apply prefix_cons_inv in Hp as [_ Hp]; discriminate Hp |].
    apply prefix_cons_inv in Hp as [<- Hp]. apply prefix_cons_inv in Hp as [<- _].
    rewrite !str_app_cons. simpl. apply IH. simpl. lia.
  - destruct (String.prefix "```" (String d (x' +:+ "```"))) eqn:Hq.
    + apply prefix_cons_inv in Hq as [<- Hq].
      destruct x' as [|a [|b x'']]; [reflexivity|..].
      * rewrite str_app_cons in Hq. apply prefix_cons_inv in Hq as [<- _]. reflexivity.
      * rewrite !str_app_cons in Hq.
        apply prefix_cons_inv in Hq as [<- Hq]. apply prefix_cons_inv in Hq as [<- _].
        by rewrite prefix_fence in Hp.
    + rewrite IH; [done|]. simpl. lia.
Qed.

