(* ===== verification/UrlParse.v ===== *)
(** * [urllib.parse.urlparse] and the accessors the broker reads

    The broker (app.py, connection.py and database_selection.py,
    [connect_to_database]) parses a MySQL or PostgreSQL connection string
    with [urllib.parse.urlparse] and passes [hostname], [username],
    [password] and [path[1:]] to the driver.  This file models CPython's
    [urlsplit]/[urlparse] (Lib/urllib/parse.py) on ASCII text: leading
    C0-control-or-space characters are stripped, tab/CR/LF removed, the
    scheme recognised, the network location cut at the first [/], [?] or
    [#], the fragment and query split off, and [;params] split for the
    schemes of [uses_params].  The bracket check of the network location
    raises [ValueError] as CPython does; the address inside brackets is
    not validated (CPython's [ipaddress] check is not modelled).

    The theorems: a URL assembled from a scheme, user, password, host and
    database gives them back through the accessors when none of them
    contains a delimiter; the port is parsed into the network location but
    never reaches [hostname]. *)

From stdpp Require Import base list strings.
From Stdlib Require Import Ascii.
From S2P Require Import Prelude PyStr.
From stdpp Require Import options.

Module UrlParse.

(** ** String helpers: [str.partition], [str.rpartition] for a
    one-character separator *)

Fixpoint str_forall (f : ascii -> bool) (s : string) : bool :=
  match s with
  | EmptyString => true
  | String c s' => f c && str_forall f s'
  end.

(** [sep in s] *)
Definition has_char (c : ascii) (s : string) : bool :=
  negb (str_forall (fun x => negb (Ascii.eqb x c)) s).

(** [s.partition(sep)]: the part before the first [sep], and the part
    after it when [sep] occurs ([None] stands for the empty separator
    slot of Python's triple). *)
Fixpoint partition (c : ascii) (s : string) : string * option string :=
  match s with
  | EmptyString => (EmptyString, None)
  | String x s' =>
      if Ascii.eqb x c then (EmptyString, Some s')
      else let '(a, b) := partition c s' in (String x a, b)
  end.

(** [s.rpartition(sep)]: the part before the last [sep] when [sep]
    occurs, and the part after it (all of [s] when it does not). *)
Fixpoint rpartition (c : ascii) (s : string) : option string * string :=
  match s with
  | EmptyString => (None, EmptyString)
  | String x s' =>
      match rpartition c s' with
      | (Some a, b) => (Some (String x a), b)
      | (None, b) => if Ascii.eqb x c then (Some EmptyString, s') else (None, String x b)
      end
  end.

(** ** [urlsplit] *)

(** [_WHATWG_C0_CONTROL_OR_SPACE]: the characters 0x00 .. 0x20. *)
Definition is_c0_or_space (c : ascii) : bool := nat_of_ascii c <=? 32.

Fixpoint lstrip_c0 (s : string) : string :=
  match s with
  | EmptyString => EmptyString
  | String c s' => if is_c0_or_space c then lstrip_c0 s' else s
  end.

(** [_UNSAFE_URL_BYTES_TO_REMOVE]: tab, CR and LF, removed anywhere. *)
Definition unsafe_chars : string := String "009" (String "013" (String "010" "")).

Definition is_unsafe (c : ascii) : bool := has_char c unsafe_chars.

Fixpoint remove_unsafe (s : string) : string :=
  match s with
  | EmptyString => EmptyString
  | String c s' => if is_unsafe c then remove_unsafe s' else String c (remove_unsafe s')
  end.

Definition is_ascii_alpha (c : ascii) : bool :=
  let n := nat_of_ascii c in ((65 <=? n) && (n <=? 90)) || ((97 <=? n) && (n <=? 122)).

Definition is_digit (c : ascii) : bool :=
  let n := nat_of_ascii c in (48 <=? n) && (n <=? 57).

(** [scheme_chars]: letters, digits, [+], [-] and [.]. *)
Definition is_scheme_char (c : ascii) : bool :=
  is_ascii_alpha c || is_digit c || Ascii.eqb c "+"%char || Ascii.eqb c "-"%char
  || Ascii.eqb c "."%char.

(** The text before the first [:] when it consists of scheme characters
    only, and the text after that [:]. *)
Fixpoint scheme_prefix (s : string) : option (string * string) :=
  match s with
  | EmptyString => None
  | String c s' =>
      if Ascii.eqb c ":"%char then Some (EmptyString, s')
      else if is_scheme_char c then
        match scheme_prefix s' with
        | Some (a, b) => Some (String c a, b)
        | None => None
        end
      else None
  end.

(** [i = url.find(':'); if i > 0 and url[0].isascii() and url[0].isalpha():
    ... scheme, url = url[:i].lower(), url[i+1:]] *)
Definition split_scheme (url : string) : string * string :=
  match url with
  | String c _ =>
      if is_ascii_alpha c then
        match scheme_prefix url with
        | Some (sch, rest) => (py_lower sch, rest)
        | None => (EmptyString, url)
        end
      else (EmptyString, url)
  | EmptyString => (EmptyString, url)
  end.

Definition is_netloc_delim (c : ascii) : bool := has_char c "/?#".

(** [_splitnetloc(url, 2)], on the text after [//]: up to the first [/],
    [?] or [#], and the rest from that delimiter on. *)
Fixpoint split_netloc (s : string) : string * string :=
  match s with
  | EmptyString => (EmptyString, EmptyString)
  | String c s' =>
      if is_netloc_delim c then (EmptyString, s)
      else let '(a, b) := split_netloc s' in (String c a, b)
  end.

Definition invalid_ipv6 : exc := ValueError "Invalid IPv6 URL".

(** The bracket checks of [urlsplit] and [_check_bracketed_netloc]. *)
Definition check_netloc (netloc : string) : outcome unit :=
  let o := has_char "["%char netloc in
  let cl := has_char "]"%char netloc in
  if xorb o cl then Throw invalid_ipv6
  else if o then
    match partition "["%char (snd (rpartition "@"%char netloc)) with
    | (before, Some bracketed) =>
        if negb (String.eqb before "") then Throw invalid_ipv6 else
        let port := default "" (snd (partition "]"%char bracketed)) in
        if negb (String.eqb port "") && negb (String.prefix ":" port) then Throw invalid_ipv6
        else Ret ()
    | (_, None) => Ret ()
    end
  else Ret ().

Record parse_result := mk_parse_result {
  pr_scheme : string;
  pr_netloc : string;
  pr_path : string;
  pr_params : string;
  pr_query : string;
  pr_fragment : string
}.

Definition urlsplit (url0 : string) : outcome parse_result :=
  let url1 := remove_unsafe (lstrip_c0 url0) in
  let '(scheme, url2) := split_scheme url1 in
  let '(netloc, url3) :=
    if String.prefix "//" url2 then split_netloc (str_drop 2 url2) else (EmptyString, url2) in
  match check_netloc netloc with
  | Throw e => Throw e
  | Ret _ =>
      let '(url4, fragment) := partition "#"%char url3 in
      let '(path, query) := partition "?"%char url4 in
      Ret (mk_parse_result scheme netloc path "" (default "" query) (default "" fragment))
  end.

(** ** [urlparse]: [urlsplit] and the [;params] of the last path segment *)

Definition uses_params : list string :=
  [""; "ftp"; "hdl"; "prospero"; "http"; "imap"; "https"; "shttp"; "rtsp"; "rtsps";
   "rtspu"; "sip"; "sips"; "mms"; "sftp"; "tel"].

(** [_splitparams] *)
Definition splitparams (url : string) : string * string :=
  match rpartition "/"%char url with
  | (Some before, after) =>
      let '(p, prm) := partition ";"%char after in (before +:+ "/" +:+ p, default "" prm)
  | (None, _) => let '(p, prm) := partition ";"%char url in (p, default "" prm)
  end.

Definition urlparse (url : string) : outcome parse_result :=
  match urlsplit url with
  | Throw e => Throw e
  | Ret r =>
      if bool_decide (pr_scheme r ∈ uses_params) && has_char ";"%char (pr_path r) then
        let '(path, prm) := splitparams (pr_path r) in
        Ret (mk_parse_result (pr_scheme r) (pr_netloc r) path prm (pr_query r) (pr_fragment r))
      else Ret r
  end.

(** ** The accessors *)

(** [username] and [password] ([_userinfo]). *)
Definition userinfo (netloc : string) : option string * option string :=
  match rpartition "@"%char netloc with
  | (Some ui, _) => let '(u, p) := partition ":"%char ui in (Some u, p)
  | (None, _) => (None, None)
  end.

Definition username (r : parse_result) : option string := fst (userinfo (pr_netloc r)).
Definition password (r : parse_result) : option string := snd (userinfo (pr_netloc r)).

(** The host part of [_hostinfo]. *)
Definition hostinfo_name (netloc : string) : string :=
  let hi := snd (rpartition "@"%char netloc) in
  match partition "["%char hi with
  | (_, Some br) => fst (partition "]"%char br)
  | (_, None) => fst (partition ":"%char hi)
  end.

(** [hostname]: lower-cased, the zone of a scoped address kept as is. *)
Definition hostname (r : parse_result) : option string :=
  let h := hostinfo_name (pr_netloc r) in
  if String.eqb h "" then None else
  let '(a, z) := partition "%"%char h in
  Some (py_lower a +:+ match z with Some z' => "%" +:+ z' | None => "" end).

(** ** Lemmas *)

(** A property of every character, decided by enumerating the 256 of
    them. *)
Lemma ascii_forall (f : ascii -> bool) :
  forallb f (map ascii_of_nat (seq 0 256)) = true -> forall x, f x = true.
Proof.
  intros H x. rewrite forallb_forall in H. rewrite <- (ascii_nat_embedding x).
  apply H, in_map, in_seq. pose proof (nat_ascii_bounded x). lia.
Qed.

Lemma str_forall_app f s t : str_forall f (s +:+ t) = str_forall f s && str_forall f t.
Proof.
  induction s as [|c s IH]; [done|]. rewrite str_app_cons. simpl. rewrite IH.
  by rewrite andb_assoc.
Qed.

Lemma str_forall_impl (f g : ascii -> bool) s :
  (forall x, f x = true -> g x = true) -> str_forall f s = true -> str_forall g s = true.
Proof.
  intros Hfg. induction s as [|c s IH]; simpl; [done|].
  intros [Hc Hs]%andb_prop. by rewrite Hfg, IH.
Qed.

(** [s] contains none of the characters of [cs]. *)
Definition avoids (cs s : string) : bool := str_forall (fun x => negb (has_char x cs)) s.

Lemma avoids_app cs s t : avoids cs (s +:+ t) = avoids cs s && avoids cs t.
Proof. apply str_forall_app. Qed.

Lemma avoids_cons cs c s : avoids cs (String c s) = negb (has_char c cs) && avoids cs s.
Proof. reflexivity. Qed.

(** Avoiding a set of characters avoids each of its subsets; the subset
    condition is closed and decided by computation. *)
Lemma avoids_sub cs1 cs2 s :
  forallb (fun x => implb (has_char x cs1) (has_char x cs2)) (map ascii_of_nat (seq 0 256)) = true ->
  avoids cs2 s = true -> avoids cs1 s = true.
Proof.
  intros Hsub. pose proof (ascii_forall _ Hsub) as Hall.
  apply (str_forall_impl (fun x => negb (has_char x cs2))).
  intros x Hx. specialize (Hall x). simpl in Hall. destruct (has_char x cs1), (has_char x cs2); simpl in *; done.
Qed.

Lemma avoids_single c s : avoids (String c "") s = negb (has_char c s).
Proof.
  induction s as [|x s IH]; [done|]. rewrite avoids_cons, IH. unfold has_char. simpl.
  rewrite (Ascii.eqb_sym c x). by destruct (Ascii.eqb x c).
Qed.

Lemma partition_prefix c s t :
  has_char c s = false -> partition c (s +:+ t) = let '(a, b) := partition c t in (s +:+ a, b).
Proof.
  unfold has_char. induction s as [|x s IH]; intros H.
  { rewrite !str_app_nil_l. by destruct (partition c t). }
  simpl in H. apply negb_false_iff, andb_prop in H as [Hx Hs]. apply negb_true_iff in Hx.
  rewrite str_app_cons. simpl. rewrite Hx, IH by (by rewrite Hs). by destruct (partition c t).
Qed.

Lemma partition_absent c s : has_char c s = false -> partition c s = (s, None).
Proof.
  intros H. rewrite <- (str_app_nil_r s) at 1. rewrite partition_prefix by done.
  simpl. by rewrite str_app_nil_r.
Qed.

Lemma partition_at c s t : has_char c s = false -> partition c (s +:+ String c t) = (s, Some t).
Proof.
  intros H. rewrite partition_prefix by done. simpl. rewrite Ascii.eqb_refl.
  by rewrite str_app_nil_r.
Qed.

Lemma rpartition_absent c s : has_char c s = false -> rpartition c s = (None, s).
Proof.
  unfold has_char. induction s as [|x s IH]; intros H; [done|].
  simpl in H. apply negb_false_iff, andb_prop in H as [Hx Hs]. apply negb_true_iff in Hx.
  simpl. rewrite IH by (by rewrite Hs). by rewrite Hx.
Qed.

Lemma rpartition_prefix c s t a b :
  rpartition c t = (Some a, b) -> rpartition c (s +:+ t) = (Some (s +:+ a), b).
Proof.
  intros Ht. induction s as [|x s IH]; [done|]. rewrite !str_app_cons. simpl. by rewrite IH.
Qed.

Lemma rpartition_at c t : has_char c t = false -> rpartition c (String c t) = (Some "", t).
Proof. intros H. simpl. by rewrite rpartition_absent, Ascii.eqb_refl. Qed.

Lemma split_netloc_prefix s t :
  avoids "/?#" s = true ->
  split_netloc (s +:+ t) = let '(a, b) := split_netloc t in (s +:+ a, b).
Proof.
  induction s as [|x s IH]; intros H.
  { rewrite !str_app_nil_l. by destruct (split_netloc t). }
  rewrite avoids_cons in H. apply andb_prop in H as [Hx Hs].
  rewrite str_app_cons. cbn [split_netloc]. rewrite IH by done. apply negb_true_iff in Hx.
  unfold is_netloc_delim. rewrite Hx.
  by destruct (split_netloc t).
Qed.

Lemma remove_unsafe_id s : avoids unsafe_chars s = true -> remove_unsafe s = s.
Proof.
  induction s as [|x s IH]; [done|]. rewrite avoids_cons. intros [Hx Hs]%andb_prop.
  cbn [remove_unsafe]. rewrite IH by done. unfold is_unsafe. apply negb_true_iff in Hx.
  by rewrite Hx.
Qed.

Lemma scheme_prefix_at sch t :
  str_forall is_scheme_char sch = true -> scheme_prefix (sch +:+ String ":" t) = Some (sch, t).
Proof.
  induction sch as [|x s IH]; [done|]. rewrite str_app_cons. simpl.
  intros [Hx Hs]%andb_prop. rewrite IH, Hx by done.
  by destruct (Ascii.eqb x ":") eqn:E; [apply Ascii.eqb_eq in E as ->|].
Qed.

Lemma rpartition_last c s t :
  has_char c t = false -> rpartition c (s +:+ String c t) = (Some s, t).
Proof.
  intros H. rewrite (rpartition_prefix c s (String c t) "" t) by (by apply rpartition_at).
  by rewrite str_app_nil_r.
Qed.

Lemma alpha_not_c0 c : is_ascii_alpha c = true -> is_c0_or_space c = false.
Proof.
  unfold is_ascii_alpha, is_c0_or_space. intros H. apply Nat.leb_gt.
  repeat match goal with
         | H : _ || _ = true |- _ => apply orb_prop in H as [H|H]
         | H : _ && _ = true |- _ => apply andb_prop in H as [H ?]
         end; apply Nat.leb_le in H; lia.
Qed.

Lemma split_scheme_at c r t :
  is_ascii_alpha c = true -> str_forall is_scheme_char (String c r) = true ->
  split_scheme (String c r +:+ String ":" t) = (py_lower (String c r), t).
Proof.
  intros Ha Hs. unfold split_scheme. rewrite str_app_cons. cbv iota beta.
  rewrite Ha, <- str_app_cons, scheme_prefix_at by done. done.
Qed.

(** [_userinfo] and [_hostinfo] of [user:password@host:port]: the port
    is split off the host and dropped. *)
Lemma userinfo_at u p h :
  has_char ":" u = false -> has_char "@" h = false ->
  userinfo (u +:+ ":" +:+ p +:+ "@" +:+ h) = (Some u, Some p).
Proof.
  intros Hu Hh. unfold userinfo. change ("@" +:+ h) with (String "@" h).
  rewrite (str_app_assoc u), (str_app_assoc (u +:+ ":")), rpartition_last by done.
  rewrite <- str_app_assoc. change (":" +:+ p) with (String ":" p). by rewrite partition_at.
Qed.

Lemma hostinfo_name_at ui h rest :
  has_char "@" h = false -> has_char "[" h = false -> has_char ":" h = false ->
  has_char "@" rest = false -> has_char "[" rest = false ->
  (rest = "" \/ exists port, rest = ":" +:+ port) ->
  hostinfo_name (ui +:+ "@" +:+ h +:+ rest) = h.
Proof.
  intros H1 H2 H3 H4 H5 Hr. unfold hostinfo_name.
  assert (Hat : has_char "@" (h +:+ rest) = false).
  { apply negb_true_iff. rewrite <- avoids_single, avoids_app, !avoids_single, H1, H4. done. }
  assert (Hbr : has_char "[" (h +:+ rest) = false).
  { apply negb_true_iff. rewrite <- avoids_single, avoids_app, !avoids_single, H2, H5. done. }
  change ("@" +:+ h +:+ rest) with (String "@" (h +:+ rest)).
  rewrite rpartition_last by done. simpl snd. rewrite partition_absent by done.
  rewrite partition_prefix by done.
  destruct Hr as [->|[port ->]]; simpl; by rewrite str_app_nil_r.
Qed.

(** ** Connection strings assembled from their parts *)

(** [f"{scheme}://{user}:{password}@{host}/{database}"] *)
Definition db_url (sch u p h d : string) : string :=
  sch +:+ "://" +:+ u +:+ ":" +:+ p +:+ "@" +:+ h +:+ "/" +:+ d.

(** A scheme [urlsplit] recognises, already in lower case, and without
    [;params] splitting. *)
Definition scheme_ok (sch : string) : bool :=
  match sch with String c _ => is_ascii_alpha c | EmptyString => false end &&
  str_forall is_scheme_char sch && String.eqb (py_lower sch) sch &&
  negb (bool_decide (sch ∈ uses_params)).

Definition user_ok (u : string) : bool := avoids (":@/?#[]" +:+ unsafe_chars) u.
Definition password_ok (p : string) : bool := avoids ("/?#[]" +:+ unsafe_chars) p.
Definition host_ok (h : string) : bool :=
  negb (String.eqb h "") && avoids (":@/?#[]%" +:+ unsafe_chars) h.
Definition database_ok (d : string) : bool := avoids ("?#" +:+ unsafe_chars) d.

(** A host with an optional [:port]. *)
Definition hostport_ok (hp : string) : bool := avoids ("@/?#[]" +:+ unsafe_chars) hp.

(** Closes [avoids cs x = true] from a hypothesis [avoids cs' x = true]
    with [cs] a subset of [cs'], and [has_char c x = false] likewise. *)
Ltac avoids_pieces :=
  match goal with
  | |- has_char _ _ = false => apply negb_true_iff; rewrite <- avoids_single
  | _ => idtac
  end;
  repeat (rewrite avoids_app || rewrite avoids_cons);
  repeat (apply andb_true_intro; split); try reflexivity;
  match goal with
  | H : avoids _ ?x = true |- avoids _ ?x = true =>
      refine (avoids_sub _ _ _ _ H); vm_compute; reflexivity
  end.

Lemma prefix_nil s : String.prefix "" s = true.
Proof. by destruct s. Qed.

Lemma scheme_avoids_unsafe sch :
  str_forall is_scheme_char sch = true -> avoids unsafe_chars sch = true.
Proof.
  apply str_forall_impl. intros x. pose proof (ascii_forall
    (fun x => implb (is_scheme_char x) (negb (has_char x unsafe_chars)))
    ltac:(vm_compute; reflexivity) x) as H. simpl in H. by destruct (is_scheme_char x).
Qed.

Lemma urlparse_db_url sch u p h d :
  scheme_ok sch = true -> user_ok u = true -> password_ok p = true ->
  hostport_ok h = true -> database_ok d = true ->
  urlparse (db_url sch u p h d) =
    Ret (mk_parse_result sch (u +:+ ":" +:+ p +:+ "@" +:+ h) (String "/" d) "" "" "").
Proof.
  unfold scheme_ok, user_ok, password_ok, hostport_ok, database_ok.
  intros Hs Hu Hp Hh Hd. destruct sch as [|c r]; [done|].
  apply andb_prop in Hs as [Hs Hup]. apply andb_prop in Hs as [Hs Hlow].
  apply andb_prop in Hs as [Ha Hsc].
  apply String.eqb_eq in Hlow.
  assert (Hurl : db_url (String c r) u p h d =
    String c r +:+ String ":" (String "/" (String "/"
      ((u +:+ ":" +:+ p +:+ "@" +:+ h) +:+ String "/" d)))).
  { unfold db_url. rewrite <- !str_app_assoc. reflexivity. }
  assert (Hsafe : avoids unsafe_chars (db_url (String c r) u p h d) = true).
  { rewrite Hurl, avoids_app, scheme_avoids_unsafe by done. avoids_pieces. }
  unfold urlparse, urlsplit.
  assert (Hl : lstrip_c0 (db_url (String c r) u p h d) = db_url (String c r) u p h d).
  { rewrite Hurl, str_app_cons. cbn [lstrip_c0]. by rewrite alpha_not_c0. }
  rewrite Hl, remove_unsafe_id, Hurl, split_scheme_at, Hlow by done. simpl String.prefix. rewrite prefix_nil. cbn [str_drop].
  rewrite split_netloc_prefix by avoids_pieces. simpl split_netloc. cbv beta iota. rewrite str_app_nil_r.
  cbv beta iota. unfold check_netloc.
  assert (Hb1 : has_char "[" (u +:+ ":" +:+ p +:+ "@" +:+ h) = false) by avoids_pieces.
  assert (Hb2 : has_char "]" (u +:+ ":" +:+ p +:+ "@" +:+ h) = false) by avoids_pieces.
  rewrite Hb1, Hb2.
  cbv iota beta. rewrite !partition_absent by avoids_pieces. simpl xorb. cbv beta iota. cbn [pr_scheme pr_path].
  apply negb_true_iff in Hup. by rewrite Hup.
Qed.


Lemma host_hostport h : host_ok h = true -> hostport_ok h = true.
Proof. unfold host_ok. intros [_ H]%andb_prop. unfold hostport_ok. avoids_pieces. Qed.

(** The fields of [f"{scheme}://{user}:{password}@{host}{rest}/{database}"]
    where [rest] is empty or a [:port]. *)
Lemma urlparse_fields sch u p h rest d :
  scheme_ok sch = true -> user_ok u = true -> password_ok p = true ->
  host_ok h = true -> hostport_ok rest = true -> database_ok d = true ->
  (rest = "" \/ exists port, rest = ":" +:+ port) ->
  exists r, urlparse (db_url sch u p (h +:+ rest) d) = Ret r /\
    hostname r = Some (py_lower h) /\ username r = Some u /\ password r = Some p /\
    str_drop 1 (pr_path r) = d.
Proof.
  intros Hs Hu Hp Hh Hr Hd Hrest. pose proof (host_hostport h Hh) as Hhp.
  eexists. split.
  { apply urlparse_db_url; try done. unfold hostport_ok in *. avoids_pieces. }
  unfold hostname, username, password. simpl.
  unfold user_ok, host_ok, hostport_ok in *. apply andb_prop in Hh as [Hne Hh].
  rewrite userinfo_at by avoids_pieces.
  replace (u +:+ ":" +:+ p +:+ "@" +:+ h +:+ rest) with ((u +:+ ":" +:+ p) +:+ "@" +:+ h +:+ rest)
    by (rewrite <- !str_app_assoc; reflexivity).
  rewrite hostinfo_name_at by (done || avoids_pieces).
  apply negb_true_iff in Hne. rewrite Hne, partition_absent by avoids_pieces.
  by rewrite str_app_nil_r.
Qed.

(** Round trip.  The connection string
    [f"{scheme}://{user}:{password}@{host}/{database}"] parses, and
    [hostname], [username], [password] and [path[1:]] give back the host
    (lower-cased), the user, the password and the database, provided the
    scheme is a lower-case scheme without [;params] splitting (mysql,
    postgresql), the user contains none of [:@/?#[]], the password none
    of [/?#[]], the host none of [:@/?#[]%] and is not empty, the
    database none of [?#], and none of them a tab, CR or LF. *)
Theorem urlparse_roundtrip sch u p h d :
  scheme_ok sch = true -> user_ok u = true -> password_ok p = true ->
  host_ok h = true -> database_ok d = true ->
  exists r, urlparse (db_url sch u p h d) = Ret r /\
    hostname r = Some (py_lower h) /\ username r = Some u /\ password r = Some p /\
    str_drop 1 (pr_path r) = d.
Proof.
  intros. replace (db_url sch u p h d) with (db_url sch u p (h +:+ "") d)
    by (by rewrite str_app_nil_r).
  apply urlparse_fields; auto.
Qed.

(** The port of a connection string is parsed into the network location
    and dropped by [hostname]: the accessors the broker reads are those
    of the same string without the port. *)
Lemma urlparse_port_dropped sch u p h port d :
  scheme_ok sch = true -> user_ok u = true -> password_ok p = true ->
  host_ok h = true -> hostport_ok port = true -> database_ok d = true ->
  exists r, urlparse (db_url sch u p (h +:+ ":" +:+ port) d) = Ret r /\
    hostname r = Some (py_lower h) /\ username r = Some u /\ password r = Some p /\
    str_drop 1 (pr_path r) = d.
Proof.
  intros. apply urlparse_fields; eauto.
Qed.

End UrlParse.
