(* ===== verification/Sql.v ===== *)
(** * The relational engines behind sqlite3, mysql.connector and psycopg2

    Not code of the repository: the database servers the sources talk to,
    modelled from their documented behaviour at the level the sources
    observe it.  A database is a map from table names to tables; a table
    keeps its columns (name, declared type, primary-key flag) and its rows
    in insertion order.  Statements are an abstract syntax for the
    statement forms the sources send; how SQL text becomes a statement is
    the interface [SqlParser] (a class with laws for the texts the
    sources build), so every theorem about the sources holds for any
    parser that meets the laws.  [Sql.concrete_parser] is one such parser,
    used to run the examples. *)

From stdpp Require Import base list gmap strings.
From Stdlib Require Import ZArith Ascii.
From S2P Require Import Prelude PyStr.
From stdpp Require Import options.

(** ** Values, rows, tables *)

Inductive value :=
| VNull
| VInt (z : Z)
| VText (s : string).

#[export] Instance value_eq_dec : EqDecision value.
Proof. solve_decision. Defined.

Abbreviation row := (list value).

Record column := mk_column {
  col_name : string;
  col_type : string;
  col_pk : bool
}.

#[export] Instance column_eq_dec : EqDecision column.
Proof.
  intros [n1 t1 p1] [n2 t2 p2].
  destruct (decide (n1 = n2)), (decide (t1 = t2)), (decide (p1 = p2));
    subst; try (right; intros [=]; done). by left.
Defined.

Record table := mk_table {
  tbl_cols : list column;
  tbl_rows : list row
}.

Abbreviation sqldb := (gmap string table).

(** The three SQL dialects, one per driver. *)
Inductive dialect := DSqlite | DMySQL | DPostgres.

#[export] Instance dialect_eq_dec : EqDecision dialect.
Proof. solve_decision. Defined.

(** ** Statements *)

Inductive expr :=
| EVal (v : value)
| EParam (i : nat).            (** the i-th [?] placeholder *)

Inductive stmt :=
| CreateTable (if_not_exists : bool) (name : string) (cols : list column)
| DropTable (if_exists : bool) (name : string)
| InsertInto (name : string) (cols : list string) (vals : list expr)
| SelectStar (name : string) (conds : list (string * expr))
    (** [SELECT * FROM name WHERE c1 = e1 AND ...] *)
| PragmaTableInfo (name : string)       (** SQLite only *)
| ShowColumns (name : string)           (** MySQL only *)
| InfoSchemaColumns (name : string).
    (** [SELECT column_name FROM INFORMATION_SCHEMA.COLUMNS
         WHERE table_name = 'name'] (MySQL, PostgreSQL) *)

(** ** Errors, per dialect *)

Definition no_such_table (d : dialect) (name : string) : exc :=
  match d with
  | DSqlite => OperationalError ("no such table: " +:+ name)
  | DMySQL => ProgrammingError ("1146 (42S02): Table " +:+ name +:+ " doesn't exist")
  | DPostgres => ProgrammingError ("relation " +:+ name +:+ " does not exist")
  end.

Definition already_exists (d : dialect) (name : string) : exc :=
  match d with
  | DSqlite => OperationalError ("table " +:+ name +:+ " already exists")
  | DMySQL => ProgrammingError ("1050 (42S01): Table " +:+ name +:+ " already exists")
  | DPostgres => ProgrammingError ("relation " +:+ name +:+ " already exists")
  end.

Definition unique_failed (d : dialect) (name col : string) : exc :=
  match d with
  | DSqlite => IntegrityError ("UNIQUE constraint failed: " +:+ name +:+ "." +:+ col)
  | DMySQL => IntegrityError ("1062 (23000): Duplicate entry for key " +:+ col)
  | DPostgres => IntegrityError ("duplicate key value violates unique constraint " +:+ col)
  end.

Definition syntax_error (d : dialect) : exc :=
  match d with
  | DSqlite => OperationalError "syntax error"
  | DMySQL => ProgrammingError "1064 (42000): You have an error in your SQL syntax"
  | DPostgres => ProgrammingError "syntax error"
  end.

Definition bad_column (d : dialect) (c : string) : exc :=
  match d with
  | DSqlite => OperationalError ("no such column: " +:+ c)
  | DMySQL => ProgrammingError ("1054 (42S22): Unknown column " +:+ c)
  | DPostgres => ProgrammingError ("column " +:+ c +:+ " does not exist")
  end.

Definition binding_error : exc := ProgrammingError "Incorrect number of bindings supplied".

(** ** Executing a statement

    [exec_stmt d db s ps] runs [s] with the parameters [ps] bound to its
    placeholders against [db]; it returns the result rows and the new
    database, or the exception the driver raises. *)

Definition eval_expr (ps : list value) (e : expr) : value :=
  match e with
  | EVal v => v
  | EParam i => default VNull (ps !! i)
  end.

Definition expr_nparams (e : expr) : nat :=
  match e with EParam _ => 1 | EVal _ => 0 end.

Definition stmt_nparams (s : stmt) : nat :=
  match s with
  | InsertInto _ _ vs => sum_list (map expr_nparams vs)
  | SelectStar _ conds => sum_list (map (expr_nparams ∘ snd) conds)
  | _ => 0
  end.

Fixpoint col_index (cols : list column) (c : string) : option nat :=
  match cols with
  | [] => None
  | k :: cols' =>
      if String.eqb (col_name k) c then Some 0 else S <$> col_index cols' c
  end.

Definition assoc_lookup (c : string) (kvs : list (string * value)) : option value :=
  snd <$> find (fun kv => String.eqb kv.1 c) kvs.

(** A new row: listed columns take their values, the others NULL. *)
Definition build_row (cols : list column) (kvs : list (string * value)) : row :=
  map (fun k => default VNull (assoc_lookup (col_name k) kvs)) cols.

(** [a = b] in a WHERE clause: NULL equals nothing; text compares
    byte for byte. *)
Definition sql_eq (a b : value) : bool :=
  match a, b with
  | VNull, _ | _, VNull => false
  | _, _ => bool_decide (a = b)
  end.

Definition pk_index (cols : list column) : option nat :=
  fst <$> list_find (fun k => col_pk k = true) cols.

(** The primary-key column whose value [r] repeats, if any. *)
Definition pk_conflict (cols : list column) (rows : list row) (r : row) : option string :=
  match pk_index cols with
  | None => None
  | Some i =>
      match r !! i with
      | Some v =>
          if existsb (fun r' => sql_eq (default VNull (r' !! i)) v) rows
          then col_name <$> cols !! i else None
      | None => None
      end
  end.

Definition row_matches (cols : list column) (ps : list value)
    (conds : list (string * expr)) (r : row) : bool :=
  forallb (fun ce =>
    match col_index cols ce.1 with
    | Some i => sql_eq (default VNull (r !! i)) (eval_expr ps ce.2)
    | None => false
    end) conds.

Definition unknown_column (cols : list column) (cs : list string) : option string :=
  find (fun c => negb (bool_decide (c ∈ map col_name cols))) cs.

(** [PRAGMA table_info(t)]: (cid, name, type, notnull, dflt_value, pk);
    no rows for a missing table. *)
Definition table_info_rows (db : sqldb) (name : string) : list row :=
  match db !! name with
  | None => []
  | Some t =>
      imap (fun i k => [VInt (Z.of_nat i); VText (col_name k); VText (col_type k);
                        VInt 0; VNull; VInt (if col_pk k then 1 else 0)]) (tbl_cols t)
  end.

(** [SHOW COLUMNS FROM t]: (Field, Type, Null, Key, Default, Extra). *)
Definition show_columns_rows (t : table) : list row :=
  map (fun k => [VText (col_name k); VText (col_type k);
                 VText (if col_pk k then "NO" else "YES");
                 VText (if col_pk k then "PRI" else ""); VNull; VText ""]) (tbl_cols t).

(** [INFORMATION_SCHEMA.COLUMNS] rows for one table: its column names;
    none for a missing table. *)
Definition info_schema_rows (db : sqldb) (name : string) : list row :=
  match db !! name with
  | None => []
  | Some t => map (fun k => [VText (col_name k)]) (tbl_cols t)
  end.

Definition exec_stmt (d : dialect) (db : sqldb) (s : stmt) (ps : list value)
    : outcome (list row * sqldb) :=
  if negb (Nat.eqb (stmt_nparams s) (length ps)) then Throw binding_error else
  match s with
  | CreateTable if_not_exists name cols =>
      match db !! name with
      | Some _ => if if_not_exists then Ret ([], db) else Throw (already_exists d name)
      | None => Ret ([], <[name := mk_table cols []]> db)
      end
  | DropTable if_exists name =>
      match db !! name with
      | Some _ => Ret ([], delete name db)
      | None => if if_exists then Ret ([], db) else Throw (no_such_table d name)
      end
  | InsertInto name cs vs =>
      match db !! name with
      | None => Throw (no_such_table d name)
      | Some t =>
          match unknown_column (tbl_cols t) cs with
          | Some c => Throw (bad_column d c)
          | None =>
              if negb (Nat.eqb (length cs) (length vs)) then Throw (syntax_error d) else
              let r := build_row (tbl_cols t) (zip cs (map (eval_expr ps) vs)) in
              match pk_conflict (tbl_cols t) (tbl_rows t) r with
              | Some c => Throw (unique_failed d name c)
              | None => Ret ([], <[name := mk_table (tbl_cols t) (tbl_rows t ++ [r])]> db)
              end
          end
      end
  | SelectStar name conds =>
      match db !! name with
      | None => Throw (no_such_table d name)
      | Some t =>
          match unknown_column (tbl_cols t) (map fst conds) with
          | Some c => Throw (bad_column d c)
          | None => Ret (filter (fun r => row_matches (tbl_cols t) ps conds r = true)
                           (tbl_rows t), db)
          end
      end
  | PragmaTableInfo name =>
      match d with
      | DSqlite => Ret (table_info_rows db name, db)
      | _ => Throw (syntax_error d)
      end
  | ShowColumns name =>
      match d with
      | DMySQL =>
          match db !! name with
          | Some t => Ret (show_columns_rows t, db)
          | None => Throw (no_such_table d name)
          end
      | _ => Throw (syntax_error d)
      end
  | InfoSchemaColumns name =>
      match d with
      | DSqlite => Throw (no_such_table d "INFORMATION_SCHEMA.COLUMNS")
      | _ => Ret (info_schema_rows db name, db)
      end
  end.

(** Statements that open a transaction in Python's sqlite3 (DML) and
    statements that change the schema (DDL). *)
Definition is_dml (s : stmt) : bool :=
  match s with InsertInto _ _ _ => true | _ => false end.

Definition is_ddl (s : stmt) : bool :=
  match s with CreateTable _ _ _ | DropTable _ _ => true | _ => false end.

(** ** SQL text: the parser interface

    [sql_parse d text] is the statement the server of dialect [d] reads
    in [text], or [None] when it rejects the text (a syntax error). *)
Class SqlParser := sql_parse : dialect -> string -> option stmt.

(** A table name the sources splice into SQL text with an f-string is
    read back as that name when it is a plain identifier. *)
Definition is_word_char (c : Ascii.ascii) : bool :=
  let n := Ascii.nat_of_ascii c in
  ((48 <=? n) && (n <=? 57)) || ((65 <=? n) && (n <=? 90)) ||
  ((97 <=? n) && (n <=? 122)) || (n =? 95).

Fixpoint all_chars (p : Ascii.ascii -> bool) (s : string) : bool :=
  match s with
  | EmptyString => true
  | String c s' => p c && all_chars p s'
  end.

Definition is_ident (t : string) : bool :=
  negb (String.eqb t "") && all_chars is_word_char t.

(** The laws: the statement forms the sources build from a table name. *)
Class SqlParserLaws `{SqlParser} : Prop := {
  parse_drop_table d t : is_ident t = true ->
    sql_parse d ("DROP TABLE IF EXISTS " +:+ t) = Some (DropTable true t);
  parse_pragma_table_info d t : is_ident t = true ->
    sql_parse d ("PRAGMA table_info(" +:+ t +:+ ")") = Some (PragmaTableInfo t);
  parse_show_columns d t : is_ident t = true ->
    sql_parse d ("SHOW COLUMNS FROM " +:+ t) = Some (ShowColumns t);
  parse_info_schema d t : is_ident t = true ->
    sql_parse d ("SELECT column_name FROM INFORMATION_SCHEMA.COLUMNS WHERE table_name = '"
                 +:+ t +:+ "'") = Some (InfoSchemaColumns t)
}.

(** ** Lemmas *)

(** Every error of the engine is an [Exception]. *)
Lemma exec_stmt_exc d db s ps e : exec_stmt d db s ps = Throw e -> is_exception e = true.
Proof.
  unfold exec_stmt, no_such_table, already_exists, unique_failed, syntax_error, bad_column,
    binding_error.
  intros H. by repeat (case_match; simplify_eq/=).
Qed.

(** A filter whose test holds everywhere (a [SELECT *] without WHERE)
    keeps every row. *)
Lemma filter_all {A} (P : A -> Prop) `{!forall x, Decision (P x)} (l : list A) :
  (forall x, P x) -> filter P l = l.
Proof.
  intros HP. induction l as [|x l IH]; [done|].
  rewrite filter_cons_True by apply HP. by rewrite IH.
Qed.
