(* ===== verification/SqlParse.v ===== *)
(** * A concrete SQL parser meeting [Sql.SqlParserLaws]

    A tokenizer (words, quoted strings, symbols) and a recursive-descent
    reader for the statement forms of [Sql.stmt].  Keywords are read
    case-insensitively; table names must be plain identifiers.  It is one
    model of the servers' SQL front end, used to evaluate the examples;
    the theorems about the sources hold for any parser meeting the laws. *)

From stdpp Require Import base list strings.
From Stdlib Require Import ZArith Ascii.
From S2P Require Import Prelude PyStr Sql.
From stdpp Require Import options.

Inductive token :=
| TWord (w : string)
| TStr (s : string)
| TSym (c : ascii).

#[export] Instance token_eq_dec : EqDecision token.
Proof. solve_decision. Defined.

(** ** Tokenizer, a structural state machine over the characters *)

Inductive lex_mode :=
| InWord (w : string)        (** reading a word, [w] so far *)
| InQuote (b : string).      (** inside ['...'], [b] so far *)

Definition is_quote (c : ascii) : bool := Ascii.eqb c "'"%char.

Definition word_char (c : ascii) : bool := is_word_char c || Ascii.eqb c "."%char.

Definition flush (w : string) (ts : list token) : list token :=
  if String.eqb w "" then ts else TWord w :: ts.

(** [w +:+ String c ""], written so that it computes under [simpl]. *)
Fixpoint str_snoc (w : string) (c : ascii) : string :=
  match w with
  | EmptyString => String c EmptyString
  | String d w' => String d (str_snoc w' c)
  end.

(** One character: the tokens it completes (prepended to what follows)
    and the next mode. *)
Definition lex_step (m : lex_mode) (c : ascii) : (list token -> list token) * lex_mode :=
  match m with
  | InQuote b =>
      if is_quote c then (cons (TStr b), InWord "") else (id, InQuote (str_snoc b c))
  | InWord w =>
      if word_char c then (id, InWord (str_snoc w c))
      else if is_space c then (flush w, InWord "")
      else if is_quote c then (flush w, InQuote "")
      else (fun ts => flush w (TSym c :: ts), InWord "")
  end.

Fixpoint lex (m : lex_mode) (s : string) : option (list token) :=
  match s with
  | EmptyString =>
      match m with InWord w => Some (flush w []) | InQuote _ => None end
  | String c s' => let '(f, m') := lex_step m c in f <$> lex m' s'
  end.

Definition tokenize (s : string) : option (list token) := lex (InWord "") s.

(** ** Reader *)

Definition kwd (w k : string) : bool := String.eqb (py_lower w) k.

Definition is_sym (c : ascii) (t : token) : bool :=
  match t with TSym c' => Ascii.eqb c c' | _ => false end.

Fixpoint digits_value (s : string) (acc : Z) : option Z :=
  match s with
  | EmptyString => Some acc
  | String c s' =>
      let n := nat_of_ascii c in
      if (48 <=? n) && (n <=? 57) then digits_value s' (10 * acc + Z.of_nat (n - 48))%Z
      else None
  end.

(** One value: a [?] placeholder (numbered from [k]), a string literal
    or an integer literal; returns the next placeholder number. *)
Definition read_value (k : nat) (t : token) : option (expr * nat) :=
  match t with
  | TSym c => if Ascii.eqb c "?"%char then Some (EParam k, S k) else None
  | TStr s => Some (EVal (VText s), k)
  | TWord w =>
      if String.eqb w "" then None
      else (fun z => (EVal (VInt z), k)) <$> digits_value w 0%Z
  end.

(** [c1 TYPE [PRIMARY KEY], ... )] *)
Fixpoint read_coldefs (ts : list token) : option (list column) :=
  match ts with
  | TWord n :: TWord ty :: TWord p :: TWord k :: TSym s :: ts' =>
      if kwd p "primary" && kwd k "key" && is_ident n then
        if Ascii.eqb s ","%char then cons (mk_column n ty true) <$> read_coldefs ts'
        else if Ascii.eqb s ")"%char && bool_decide (ts' = []) then Some [mk_column n ty true]
        else None
      else None
  | TWord n :: TWord ty :: TSym s :: ts' =>
      if is_ident n then
        if Ascii.eqb s ","%char then cons (mk_column n ty false) <$> read_coldefs ts'
        else if Ascii.eqb s ")"%char && bool_decide (ts' = []) then Some [mk_column n ty false]
        else None
      else None
  | _ => None
  end.

(** [c1, c2, ... )] followed by the rest *)
Fixpoint read_idents (ts : list token) : option (list string * list token) :=
  match ts with
  | TWord x :: TSym s :: ts' =>
      if is_ident x then
        if Ascii.eqb s ","%char then
          (fun '(xs, r) => (x :: xs, r)) <$> read_idents ts'
        else if Ascii.eqb s ")"%char then Some ([x], ts') else None
      else None
  | _ => None
  end.

(** [v1, v2, ... )] ending the statement *)
Fixpoint read_values (k : nat) (ts : list token) : option (list expr) :=
  match ts with
  | t :: TSym s :: ts' =>
      '(e, k') ← read_value k t;
      if Ascii.eqb s ","%char then cons e <$> read_values k' ts'
      else if Ascii.eqb s ")"%char && bool_decide (ts' = []) then Some [e] else None
  | _ => None
  end.

(** [c1 = v1 AND c2 = v2 ...] ending the statement *)
Fixpoint read_conds (k : nat) (ts : list token) : option (list (string * expr)) :=
  match ts with
  | [TWord c; TSym s; t] =>
      if is_ident c && Ascii.eqb s "="%char then
        (fun '(e, _) => [(c, e)]) <$> read_value k t
      else None
  | TWord c :: TSym s :: t :: TWord a :: ts' =>
      if is_ident c && Ascii.eqb s "="%char && kwd a "and" then
        '(e, k') ← read_value k t; cons (c, e) <$> read_conds k' ts'
      else None
  | _ => None
  end.

Definition read_create (ts : list token) : option stmt :=
  match ts with
  | TWord b :: TWord i :: TWord n :: TWord e :: TWord name :: TSym p :: r =>
      if kwd b "table" && kwd i "if" && kwd n "not" && kwd e "exists"
         && is_ident name && Ascii.eqb p "("%char
      then CreateTable true name <$> read_coldefs r else None
  | TWord b :: TWord name :: TSym p :: r =>
      if kwd b "table" && is_ident name && Ascii.eqb p "("%char
      then CreateTable false name <$> read_coldefs r else None
  | _ => None
  end.

Definition read_drop (ts : list token) : option stmt :=
  match ts with
  | [TWord b; TWord i; TWord e; TWord name] =>
      if kwd b "table" && kwd i "if" && kwd e "exists" && is_ident name
      then Some (DropTable true name) else None
  | [TWord b; TWord name] =>
      if kwd b "table" && is_ident name then Some (DropTable false name) else None
  | _ => None
  end.

Definition read_insert (ts : list token) : option stmt :=
  match ts with
  | TWord b :: TWord name :: TSym p :: r =>
      if kwd b "into" && is_ident name && Ascii.eqb p "("%char then
        match read_idents r with
        | Some (cols, TWord v :: TSym q :: r') =>
            if kwd v "values" && Ascii.eqb q "("%char then
              InsertInto name cols <$> read_values 0 r'
            else None
        | _ => None
        end
      else None
  | _ => None
  end.

Definition read_pragma (ts : list token) : option stmt :=
  match ts with
  | [TWord b; TSym p; TWord name; TSym q] =>
      if String.eqb b "table_info" && Ascii.eqb p "("%char
         && is_ident name && Ascii.eqb q ")"%char
      then Some (PragmaTableInfo name) else None
  | _ => None
  end.

Definition read_show (ts : list token) : option stmt :=
  match ts with
  | [TWord b; TWord f; TWord name] =>
      if kwd b "columns" && kwd f "from" && is_ident name
      then Some (ShowColumns name) else None
  | _ => None
  end.

Definition read_select (ts : list token) : option stmt :=
  match ts with
  | [TWord b; TWord f; TWord sch; TWord w; TWord tn; TSym q; TStr name] =>
      if kwd b "column_name" && kwd f "from"
         && kwd sch "information_schema.columns" && kwd w "where" && kwd tn "table_name"
         && Ascii.eqb q "="%char && is_ident name
      then Some (InfoSchemaColumns name) else None
  | TSym st :: TWord f :: TWord name :: r =>
      if Ascii.eqb st "*"%char && kwd f "from" && is_ident name then
        match r with
        | [] => Some (SelectStar name [])
        | TWord w :: r' => if kwd w "where" then SelectStar name <$> read_conds 0 r' else None
        | _ => None
        end
      else None
  | _ => None
  end.

Definition read_stmt (ts : list token) : option stmt :=
  match ts with
  | TWord a :: r =>
      if kwd a "create" then read_create r
      else if kwd a "drop" then read_drop r
      else if kwd a "insert" then read_insert r
      else if kwd a "pragma" then read_pragma r
      else if kwd a "show" then read_show r
      else if kwd a "select" then read_select r
      else None
  | _ => None
  end.

(** A trailing [;] is allowed. *)
Definition drop_semicolon (ts : list token) : list token :=
  match last ts with
  | Some (TSym c) => if Ascii.eqb c ";"%char then removelast ts else ts
  | _ => ts
  end.

#[export] Instance concrete_parser : SqlParser := fun _ text =>
  ts ← tokenize text; read_stmt (drop_semicolon ts).

(** ** The parser meets the laws *)

(** The tokens a prefix completes and the mode it leaves the lexer in. *)
Fixpoint lex_run (m : lex_mode) (p : string) : (list token -> list token) * lex_mode :=
  match p with
  | EmptyString => (id, m)
  | String c p' =>
      let '(f, m') := lex_step m c in
      let '(g, m'') := lex_run m' p' in (f ∘ g, m'')
  end.

Lemma lex_app m p q :
  lex m (p +:+ q) = (lex_run m p).1 <$> lex (lex_run m p).2 q.
Proof.
  revert m; induction p as [|c p IH]; intros m.
  - rewrite str_app_nil_l. simpl. by destruct (lex m q).
  - rewrite str_app_cons. simpl. destruct (lex_step m c) as [f m'].
    rewrite IH. destruct (lex_run m' p) as [g m'']. simpl.
    by destruct (lex m'' q).
Qed.

Lemma str_snoc_app w c : str_snoc w c = w +:+ String c "".
Proof. induction w as [|d w IH]; [done|]. simpl. by rewrite IH. Qed.

Lemma all_chars_impl (p q : ascii -> bool) s :
  (forall c, p c = true -> q c = true) -> all_chars p s = true -> all_chars q s = true.
Proof.
  intros Hpq. induction s as [|c s IH]; simpl; [done|].
  intros [Hc Hs]%andb_true_iff. by rewrite Hpq, IH.
Qed.

Lemma lex_run_chars (step_ok : ascii -> bool) (mk : string -> lex_mode) w t :
  (forall w c, step_ok c = true -> lex_step (mk w) c = (id, mk (str_snoc w c))) ->
  all_chars step_ok t = true ->
  (forall ts, (lex_run (mk w) t).1 ts = ts) /\ (lex_run (mk w) t).2 = mk (w +:+ t).
Proof.
  intros Hstep. revert w. induction t as [|c t IH]; intros w; simpl.
  - intros _. by rewrite str_app_nil_r.
  - intros [Hc Ht]%andb_true_iff. rewrite (Hstep w c Hc).
    destruct (IH (str_snoc w c) Ht) as [H1 H2].
    destruct (lex_run (mk (str_snoc w c)) t) as [g m'']. simpl in *.
    split; [done|]. rewrite H2, str_snoc_app, <- str_app_assoc. done.
Qed.

Lemma ident_word_chars t : is_ident t = true -> all_chars word_char t = true.
Proof.
  intros [_ Ht]%andb_true_iff. revert Ht. apply all_chars_impl.
  intros c Hc. unfold word_char. by rewrite Hc.
Qed.

Lemma ident_not_quote c : is_word_char c = true -> is_quote c = false.
Proof. intros Hc. unfold is_quote. destruct (Ascii.eqb_spec c "'"%char); [by subst|done]. Qed.

Lemma ident_nonempty t : is_ident t = true -> String.eqb t "" = false.
Proof. by intros [Hne%negb_true_iff _]%andb_true_iff. Qed.

(** An identifier followed by the end or by a non-word character is one
    word token. *)
Lemma lex_ident_then t q :
  is_ident t = true ->
  match q with EmptyString => True | String c _ => word_char c = false end ->
  lex (InWord "") (t +:+ q) = cons (TWord t) <$> lex (InWord "") q.
Proof.
  intros Ht Hq. rewrite lex_app.
  destruct (lex_run_chars word_char InWord "" t) as [H1 H2];
    [intros w c Hc; simpl; by rewrite Hc | by apply ident_word_chars |].
  rewrite H2, str_app_nil_l. pose proof (ident_nonempty t Ht) as Hne.
  destruct q as [|c q']; simpl; unfold flush; rewrite Hne; simpl.
  - by rewrite H1.
  - rewrite Hq. destruct (is_space c), (is_quote c);
      simpl; destruct (lex _ q'); simpl; by rewrite ?H1.
Qed.

Lemma lex_ident_end t : is_ident t = true -> lex (InWord "") t = Some [TWord t].
Proof.
  intros Ht. rewrite <- (str_app_nil_r t) at 1. by rewrite (lex_ident_then t "").
Qed.

(** An identifier between quotes is one string token. *)
Lemma lex_quoted_ident t q :
  is_ident t = true ->
  lex (InQuote "") (t +:+ String "'" q) = cons (TStr t) <$> lex (InWord "") q.
Proof.
  intros Ht. rewrite lex_app.
  destruct (lex_run_chars (fun c => is_word_char c) InQuote "" t) as [H1 H2];
    [intros w c Hc; simpl; by rewrite ident_not_quote | by apply andb_true_iff in Ht as [_ ?] |].
  rewrite H2, str_app_nil_l. simpl. destruct (lex (InWord "") q); simpl; by rewrite ?H1.
Qed.

Ltac parse_law Ht :=
  unfold sql_parse, concrete_parser, tokenize; rewrite lex_app; simpl;
  first [ rewrite (lex_ident_then _ _ Ht) by reflexivity
        | rewrite (lex_quoted_ident _ _ Ht)
        | rewrite (lex_ident_end _ Ht) ];
  simpl; rewrite Ht; reflexivity.

#[export] Instance concrete_parser_laws : SqlParserLaws.
Proof.
  split; intros d t Ht; parse_law Ht.
Qed.
