(* ===== verification/World.v ===== *)
(** * The state the sources run against, and the driver and Streamlit calls

    Everything a Streamlit script run can observe or change, as one
    record [world]:
    - [w_fs]: files on disk (SQLite database files, uploaded CSV text);
    - [w_mysql], [w_pg]: the databases of the MySQL and PostgreSQL
      servers, by (host, database name);
    - [w_mongo]: MongoDB servers by host, each a map from database name
      to collections of documents;
    - [w_heap]: the live Python objects the sources hold references to
      (connections, cursors, Mongo clients), by reference; a connection
      passed to several functions is one object of this heap, so closing
      it is seen by every holder;
    - [w_session]: [st.session_state], a dict shared by all pages;
    - [w_ui]: what the page has displayed so far, in order;
    - [w_env]: the environment ([os.getenv]).

    The driver calls ([sqlite3.connect], [cursor], [execute], [fetchone],
    [fetchall], [commit], [close]) are modelled from the DB-API and the
    drivers' documented transaction behaviour:
    - sqlite3 (legacy transaction control): DML opens a transaction, DDL
      outside a transaction autocommits, [commit] writes the transaction
      to the file, [close] discards it;
    - mysql.connector (autocommit off): DML runs in a transaction, DDL
      commits implicitly;
    - psycopg2 (autocommit off): every statement runs in a transaction,
      DDL included.
    They are not code of the repository. *)

From stdpp Require Import base list gmap strings.
From Stdlib Require Import Ascii.
From S2P Require Import Prelude PyStr UrlParse Sql.
From stdpp Require Import options.

(** ** Displayed output *)
Inductive ui_event :=
| UiSuccess (msg : string)
| UiError (msg : string)
| UiInfo (msg : string)
| UiTitle (msg : string)
| UiHeader (msg : string)
| UiImage (path : string)
| UiSubheader (msg : string)
| UiCode (text : string)
| UiWrite (text : string)
| UiTable (rows : list row)
| UiDocs (ds : list (list (string * value))).

(** ** Files, MongoDB documents *)
Inductive file :=
| FSqlite (db : sqldb)
| FText (contents : string).

Abbreviation doc := (list (string * value)).
Abbreviation mdb := (gmap string (list doc)).          (** collections *)
Abbreviation mserver := (gmap string mdb).             (** databases *)

(** ** Python objects *)
Inductive conn_kind :=
| KSqlite3                      (** sqlite3.Connection *)
| KMySQL (cext : bool)          (** MySQLConnection, or CMySQLConnection
                                    when the C extension is in use *)
| KPsycopg2.                    (** psycopg2.extensions.connection *)

Record conn_obj := mk_conn {
  co_kind : conn_kind;
  co_target : string * option string * option string;
      (** file path, or (unused, host, database) of a server *)
  co_tx : option sqldb;         (** the open transaction's database *)
  co_open : bool
}.

Inductive pyobj :=
| OConn (c : conn_obj)
| OCursor (conn : nat) (pending : list row)
| OMongo (host : option string) (default_db : option string).

Record world := mk_world {
  w_fs : gmap string file;
  w_mysql : gmap (option string * option string) sqldb;
  w_pg : gmap (option string * option string) sqldb;
  w_mongo : gmap (option string) mserver;
  w_heap : gmap nat pyobj;
  w_next : nat;
  w_session : gmap string pyval;
  w_ui : list ui_event;
  w_env : gmap string string
}.

Definition set_fs (f : gmap string file -> gmap string file) (w : world) : world :=
  mk_world (f (w_fs w)) (w_mysql w) (w_pg w) (w_mongo w) (w_heap w) (w_next w)
    (w_session w) (w_ui w) (w_env w).
Definition set_mysql f (w : world) : world :=
  mk_world (w_fs w) (f (w_mysql w)) (w_pg w) (w_mongo w) (w_heap w) (w_next w)
    (w_session w) (w_ui w) (w_env w).
Definition set_pg f (w : world) : world :=
  mk_world (w_fs w) (w_mysql w) (f (w_pg w)) (w_mongo w) (w_heap w) (w_next w)
    (w_session w) (w_ui w) (w_env w).
Definition set_mongo f (w : world) : world :=
  mk_world (w_fs w) (w_mysql w) (w_pg w) (f (w_mongo w)) (w_heap w) (w_next w)
    (w_session w) (w_ui w) (w_env w).
Definition set_heap (f : gmap nat pyobj -> gmap nat pyobj) (w : world) : world :=
  mk_world (w_fs w) (w_mysql w) (w_pg w) (w_mongo w) (f (w_heap w)) (w_next w)
    (w_session w) (w_ui w) (w_env w).
Definition set_session (f : gmap string pyval -> gmap string pyval) (w : world) : world :=
  mk_world (w_fs w) (w_mysql w) (w_pg w) (w_mongo w) (w_heap w) (w_next w)
    (f (w_session w)) (w_ui w) (w_env w).
Definition set_ui (f : list ui_event -> list ui_event) (w : world) : world :=
  mk_world (w_fs w) (w_mysql w) (w_pg w) (w_mongo w) (w_heap w) (w_next w)
    (w_session w) (f (w_ui w)) (w_env w).

(** A fresh object in the heap; its reference. *)
Definition alloc (o : pyobj) : PyM world nat := fun w =>
  (mk_world (w_fs w) (w_mysql w) (w_pg w) (w_mongo w)
     (<[w_next w := o]> (w_heap w)) (S (w_next w)) (w_session w) (w_ui w) (w_env w),
   Ret (w_next w)).

Abbreviation Py := (PyM world).

(** Every live object has a reference below [w_next], so [alloc] never
    overwrites one. *)
Definition heap_wf (w : world) : Prop :=
  forall r, is_Some (w_heap w !! r) -> r < w_next w.

Definition heap_wfb (w : world) : bool :=
  forallb (fun k => k <? w_next w) (map fst (map_to_list (w_heap w))).

Lemma heap_wfb_sound w : heap_wfb w = true -> heap_wf w.
Proof.
  unfold heap_wfb. intros Hb r [o Hr]. apply forallb_forall with (x := r) in Hb.
  - by apply Nat.ltb_lt.
  - apply list_elem_of_In, list_elem_of_fmap. exists (r, o). split; [done|].
    by apply elem_of_map_to_list.
Qed.

Lemma heap_wf_lt w r o : heap_wf w -> w_heap w !! r = Some o -> r < w_next w.
Proof. intros Hwf Hr. apply Hwf. by rewrite Hr. Qed.

(** ** Streamlit *)
Definition st_emit (e : ui_event) : Py unit := modify (set_ui (fun u => u ++ [e])).
Definition st_success (msg : string) : Py unit := st_emit (UiSuccess msg).
Definition st_error (msg : string) : Py unit := st_emit (UiError msg).
Definition st_info (msg : string) : Py unit := st_emit (UiInfo msg).
Definition st_stop {A} : Py A := mthrow StopException.
Definition st_rerun {A} : Py A := mthrow (RerunException None).
Definition st_switch_page {A} (page : string) : Py A := mthrow (RerunException (Some page)).

(** [st.session_state.get(key)]: [None] when absent. *)
Definition session_get (key : string) : Py pyval :=
  gets (fun w => default PNone (w_session w !! key)).
Definition session_set (key : string) (v : pyval) : Py unit :=
  modify (set_session (insert key v)).

(** [os.getenv(name)] *)
Definition getenv (name : string) : Py (option string) := gets (fun w => w_env w !! name).

(** ** DB-API connections and cursors *)

Definition conn_dialect (k : conn_kind) : dialect :=
  match k with KSqlite3 => DSqlite | KMySQL _ => DMySQL | KPsycopg2 => DPostgres end.

Definition closed_error (k : conn_kind) : exc :=
  match k with
  | KSqlite3 => ProgrammingError "Cannot operate on a closed database."
  | KMySQL _ => OperationalError "MySQL Connection not available."
  | KPsycopg2 => InterfaceError "connection already closed"
  end.

(** The committed database a connection designates. *)
Definition read_storage (w : world) (c : conn_obj) : outcome sqldb :=
  let '(path, host, dbn) := co_target c in
  match co_kind c with
  | KSqlite3 =>
      match w_fs w !! path with
      | Some (FSqlite db) => Ret db
      | Some (FText _) => Throw (DatabaseError "file is not a database")
      | None => Ret ∅
      end
  | KMySQL _ => Ret (default ∅ (w_mysql w !! (host, dbn)))
  | KPsycopg2 => Ret (default ∅ (w_pg w !! (host, dbn)))
  end.

Definition write_storage (c : conn_obj) (db : sqldb) (w : world) : world :=
  let '(path, host, dbn) := co_target c in
  match co_kind c with
  | KSqlite3 => set_fs (insert path (FSqlite db)) w
  | KMySQL _ => set_mysql (insert (host, dbn) db) w
  | KPsycopg2 => set_pg (insert (host, dbn) db) w
  end.

(** What a statement sees: the open transaction, else the storage. *)
Definition conn_view (w : world) (c : conn_obj) : outcome sqldb :=
  match co_tx c with Some db => Ret db | None => read_storage w c end.

Definition with_tx (c : conn_obj) (tx : option sqldb) : conn_obj :=
  mk_conn (co_kind c) (co_target c) tx (co_open c).

Definition put_conn (r : nat) (c : conn_obj) (w : world) : world :=
  set_heap (insert r (OConn c)) w.

(** Where the database produced by a statement goes, per driver. *)
Definition after_stmt (r : nat) (c : conn_obj) (s : stmt) (db' : sqldb) (w : world) : world :=
  match co_kind c with
  | KSqlite3 =>
      if is_dml s || bool_decide (is_Some (co_tx c)) then put_conn r (with_tx c (Some db')) w
      else if is_ddl s then write_storage c db' w
      else w
  | KMySQL _ =>
      if is_ddl s then put_conn r (with_tx c None) (write_storage c db' w)
      else if is_dml s then put_conn r (with_tx c (Some db')) w
      else w
  | KPsycopg2 => put_conn r (with_tx c (Some db')) w
  end.

(** Client-side interpolation of the [format] paramstyle drivers
    (mysql.connector, psycopg2): the [%s] markers of the text must match
    the parameters when parameters are given.  No source passes
    parameters to these drivers other than pandas, whose query has no
    marker; the interpolation itself is therefore not modelled. *)
Fixpoint count_format (s : string) : nat :=
  match s with
  | String "%"%char (String "s"%char s') => S (count_format s')
  | String _ s' => count_format s'
  | EmptyString => 0
  end.

Definition format_error (k : conn_kind) (sql : string) (ps : list value) : option exc :=
  match k, ps with
  | KSqlite3, _ | _, [] => None
  | KMySQL _, _ =>
      match Nat.compare (count_format sql) (length ps) with
      | Eq => None
      | Lt => Some (ProgrammingError "Not all parameters were used in the SQL statement")
      | Gt => Some (ProgrammingError "Not enough parameters for the SQL statement")
      end
  | KPsycopg2, _ =>
      match Nat.compare (count_format sql) (length ps) with
      | Eq => None
      | Lt => Some (TypeError "not all arguments converted during string formatting")
      | Gt => Some (IndexError "tuple index out of range")
      end
  end.

Section Driver.
Context `{SqlParser}.

(** [cursor.execute(sql, params)] on the connection [r]. *)
Definition conn_execute (r : nat) (sql : string) (ps : list value) : Py (list row) :=
  fun w =>
    match w_heap w !! r with
    | Some (OConn c) =>
        if negb (co_open c) then (w, Throw (closed_error (co_kind c))) else
        match format_error (co_kind c) sql ps with
        | Some e => (w, Throw e)
        | None =>
        let d := conn_dialect (co_kind c) in
        match sql_parse d sql with
        | None => (w, Throw (syntax_error d))
        | Some s =>
            match conn_view w c with
            | Throw e => (w, Throw e)
            | Ret db =>
                match exec_stmt d db s ps with
                | Throw e => (w, Throw e)
                | Ret (rows, db') => (after_stmt r c s db' w, Ret rows)
                end
            end
        end
        end
    | _ => (w, Throw (AttributeError "execute"))
    end.

(** [conn.cursor()] *)
Definition cursor (r : nat) : Py nat := fun w =>
  match w_heap w !! r with
  | Some (OConn c) =>
      if co_open c then alloc (OCursor r []) w else (w, Throw (closed_error (co_kind c)))
  | _ => (w, Throw (AttributeError "cursor"))
  end.

(** [cur.execute(sql, params)]: runs on the cursor's connection and
    keeps the result rows in the cursor. *)
Definition execute (cur : nat) (sql : string) (ps : list value) : Py unit := fun w =>
  match w_heap w !! cur with
  | Some (OCursor r _) =>
      match conn_execute r sql ps w with
      | (w', Ret rows) => (set_heap (insert cur (OCursor r rows)) w', Ret ())
      | (w', Throw e) => (w', Throw e)
      end
  | _ => (w, Throw (AttributeError "execute"))
  end.
End Driver.

(** [cur.fetchone()]: the next row, or [None]. *)
Definition fetchone (cur : nat) : Py (option row) := fun w =>
  match w_heap w !! cur with
  | Some (OCursor r (x :: rest)) => (set_heap (insert cur (OCursor r rest)) w, Ret (Some x))
  | Some (OCursor _ []) => (w, Ret None)
  | _ => (w, Throw (AttributeError "fetchone"))
  end.

(** [cur.fetchall()]: the remaining rows. *)
Definition fetchall (cur : nat) : Py (list row) := fun w =>
  match w_heap w !! cur with
  | Some (OCursor r rows) => (set_heap (insert cur (OCursor r [])) w, Ret rows)
  | _ => (w, Throw (AttributeError "fetchall"))
  end.

(** [conn.commit()] *)
Definition commit (r : nat) : Py unit := fun w =>
  match w_heap w !! r with
  | Some (OConn c) =>
      if negb (co_open c) then (w, Throw (closed_error (co_kind c))) else
      match co_tx c with
      | Some db => (put_conn r (with_tx c None) (write_storage c db w), Ret ())
      | None => (w, Ret ())
      end
  | _ => (w, Throw (AttributeError "commit"))
  end.

(** [conn.rollback()] *)
Definition rollback (r : nat) : Py unit := fun w =>
  match w_heap w !! r with
  | Some (OConn c) =>
      if negb (co_open c) then (w, Throw (closed_error (co_kind c)))
      else (put_conn r (with_tx c None) w, Ret ())
  | _ => (w, Throw (AttributeError "rollback"))
  end.

(** [conn.close()]: an open transaction is rolled back. *)
Definition close (r : nat) : Py unit := fun w =>
  match w_heap w !! r with
  | Some (OConn c) => (put_conn r (mk_conn (co_kind c) (co_target c) None false) w, Ret ())
  | Some (OMongo _ _) => (w, Ret ())
  | _ => (w, Throw (AttributeError "close"))
  end.

(** [sqlite3.connect(path)]: opens, creating an empty database file when
    there is none. *)
Definition sqlite3_connect (path : string) : Py nat := fun w =>
  let w' := match w_fs w !! path with
            | Some _ => w
            | None => set_fs (insert path (FSqlite ∅)) w
            end in
  alloc (OConn (mk_conn KSqlite3 (path, None, None) None true)) w'.

(** The servers a connection can reach: a host is up when it holds at
    least one database. *)
Definition server_up (m : gmap (option string * option string) sqldb) (host : option string)
    : bool :=
  existsb (fun k => bool_decide (k.1 = host)) (map fst (map_to_list m)).

(** [mysql.connector.connect(host=, user=, password=, database=)]: an
    empty or missing database name selects none.  The user and password
    are not checked: the model has no accounts.  [cext] is whether the C
    extension is in use, which decides the class of the result. *)
Definition mysql_connect (cext : bool) (host user password database : option string)
    : Py nat := fun w =>
  let dbn := if opt_truthy database then database else None in
  if negb (server_up (w_mysql w) host) then
    (w, Throw (InterfaceError ("2003 (HY000): Can't connect to MySQL server on " +:+
                               default "127.0.0.1" host)))
  else if opt_truthy dbn && negb (bool_decide (is_Some (w_mysql w !! (host, dbn)))) then
    (w, Throw (ProgrammingError ("1049 (42000): Unknown database " +:+ default "" dbn)))
  else alloc (OConn (mk_conn (KMySQL cext) ("", host, dbn) None true)) w.

(** [psycopg2.connect(host=, database=, user=, password=)]: the database
    defaults to the user's name. *)
Definition psycopg2_connect (host database user password : option string) : Py nat := fun w =>
  let dbn := if opt_truthy database then database else user in
  if negb (server_up (w_pg w) host) then
    (w, Throw (OperationalError "connection to server failed: Connection refused"))
  else if negb (bool_decide (is_Some (w_pg w !! (host, dbn)))) then
    (w, Throw (OperationalError ("connection to server failed: FATAL: database " +:+
                                 default "" dbn +:+ " does not exist")))
  else alloc (OConn (mk_conn KPsycopg2 ("", host, dbn) None true)) w.

(** ** Classes and MongoDB *)

(** The classes [isinstance] tests against. [mysql.connector.connect]
    returns a [CMySQLConnection] when the C extension is in use, which is
    not an instance of [mysql.connector.connection.MySQLConnection]. *)
Inductive pyclass :=
| ClsSqlite | ClsMySQL | ClsCMySQL | ClsPsycopg2 | ClsMongo | ClsNone.

Definition obj_class (o : option pyobj) : pyclass :=
  match o with
  | Some (OConn c) =>
      match co_kind c with
      | KSqlite3 => ClsSqlite
      | KMySQL false => ClsMySQL
      | KMySQL true => ClsCMySQL
      | KPsycopg2 => ClsPsycopg2
      end
  | Some (OMongo _ _) => ClsMongo
  | _ => ClsNone
  end.

Definition conn_class (r : nat) : Py pyclass := gets (fun w => obj_class (w_heap w !! r)).

(** What [eval] of a text produced: a dict, or another Python value. *)
Inductive evalue :=
| EDict (d : doc)
| EOther (repr : string).

(** [collection.find(filter)] evaluated on the stored documents: the
    matching documents, or the error the server reports. *)
Class MongoFind := mongo_find : list doc -> evalue -> outcome (list doc).

(** [client.get_default_database()]: the database named in the URI. *)
Definition get_default_database (r : nat) : Py string := fun w =>
  match w_heap w !! r with
  | Some (OMongo _ (Some dbn)) => (w, Ret dbn)
  | Some (OMongo _ None) =>
      (w, Throw (ConfigurationError "No default database name defined or provided."))
  | _ => (w, Throw (AttributeError "get_default_database"))
  end.

Definition mongo_host (r : nat) (w : world) : option (option string) :=
  match w_heap w !! r with Some (OMongo h _) => Some h | _ => None end.

(** The documents of a collection; [None] when the server is unreachable. *)
Definition collection_docs (w : world) (host : option string) (dbn coll : string)
    : option (list doc) :=
  (fun (sv : mserver) => default [] (sv !! dbn ≫= fun (d : mdb) => d !! coll)) <$> w_mongo w !! host.

Definition server_timeout : exc :=
  ServerSelectionTimeoutError "No servers found yet, Timeout: 30s".

(** [list(client[dbn][coll].find(filter))] *)
Definition find_all `{MongoFind} (r : nat) (dbn coll : string) (q : evalue) : Py (list doc) :=
  fun w =>
    match mongo_host r w with
    | None => (w, Throw (AttributeError "find"))
    | Some h =>
        match collection_docs w h dbn coll with
        | None => (w, Throw server_timeout)
        | Some ds => (w, mongo_find ds q)
        end
    end.

(** [pymongo.uri_parser.parse_uri] as far as [MongoClient] needs it:
    the host list (lower-cased, with the default port when none is
    given) and the default database.  Host lists with several hosts are
    kept as one string; ports are not validated; [mongodb+srv] is not
    resolved. *)
Definition parse_mongo_uri (uri : string) : outcome (string * option string) :=
  let scheme_free :=
    if String.prefix "mongodb://" uri then Some (str_drop 10 uri)
    else if String.prefix "mongodb+srv://" uri then Some (str_drop 14 uri) else None in
  match scheme_free with
  | None => Throw (ConfigurationError
      "Invalid URI scheme: URI must begin with 'mongodb://' or 'mongodb+srv://'")
  | Some sf =>
      if String.eqb sf "" then Throw (ConfigurationError "Must provide at least one hostname or IP.") else
      let host_plus_db := fst (UrlParse.partition "?" sf) in
      let '(host_part, dbase) := UrlParse.partition "/" host_plus_db in
      let dbase := fst (UrlParse.partition "." (default "" dbase)) in
      let '(userinfo, hosts) := UrlParse.rpartition "@" host_part in
      if UrlParse.has_char "@" (default "" userinfo) then
        Throw (ConfigurationError "Username and password must be escaped according to RFC 3986")
      else if String.eqb hosts "" then
        Throw (ConfigurationError "Empty host (or extra comma in host list).")
      else
        let host := py_lower hosts in
        Ret (if UrlParse.has_char ":" host then host else host +:+ ":27017",
             if String.eqb dbase "" then None else Some dbase)
  end.

(** The server and default database of [pymongo.MongoClient(uri)];
    [None] is the default [localhost:27017]. *)
Definition mongo_target (uri : option string) : outcome (string * option string) :=
  match uri with
  | None => Ret ("localhost:27017", None)
  | Some u => parse_mongo_uri u
  end.

(** [pymongo.MongoClient(uri)]: no server is contacted. *)
Definition mongo_client (uri : option string) : Py nat :=
  match mongo_target uri with
  | Throw e => mthrow e
  | Ret (h, dbn) => alloc (OMongo (Some h) dbn)
  end.

(** The server of a client: its databases, or the timeout. *)
Definition mongo_server (r : nat) (op : string) (w : world) : outcome (option string * mserver) :=
  match mongo_host r w with
  | None => Throw (AttributeError op)
  | Some h =>
      match w_mongo w !! h with
      | None => Throw server_timeout
      | Some sv => Ret (h, sv)
      end
  end.

Definition set_collection (h : option string) (sv : mserver) (dbn coll : string)
    (ds : option (list doc)) (w : world) : world :=
  let d := default ∅ (sv !! dbn) in
  set_mongo (insert h (<[dbn := match ds with Some ds' => <[coll := ds']> d | None => delete coll d end]> sv)) w.

(** [client[dbn][coll].drop()] *)
Definition mongo_drop (r : nat) (dbn coll : string) : Py unit := fun w =>
  match mongo_server r "drop" w with
  | Throw e => (w, Throw e)
  | Ret (h, sv) => (set_collection h sv dbn coll None w, Ret ())
  end.

(** The [_id] pymongo adds to each inserted document, first in the
    stored document; a fresh ObjectId is modelled by the document's
    position in the collection. *)
Definition with_ids (start : nat) (ds : list doc) : list doc :=
  imap (fun i d => ("_id", VInt (Z.of_nat (start + i))) :: d) ds.

(** [client[dbn][coll].insert_many(docs)]: an empty list is refused
    before the server is contacted. *)
Definition mongo_insert_many (r : nat) (dbn coll : string) (ds : list doc) : Py unit := fun w =>
  match ds with
  | [] => (w, Throw (TypeError "documents must be a non-empty list"))
  | _ =>
      match mongo_server r "insert_many" w with
      | Throw e => (w, Throw e)
      | Ret (h, sv) =>
          let old := default [] (sv !! dbn ≫= fun d : mdb => d !! coll) in
          (set_collection h sv dbn coll (Some (old ++ with_ids (length old) ds)) w, Ret ())
      end
  end.

(** [client[dbn].list_collection_names()] *)
Definition list_collection_names (r : nat) (dbn : string) : Py (list string) := fun w =>
  match mongo_server r "list_collection_names" w with
  | Throw e => (w, Throw e)
  | Ret (_, sv) => (w, Ret (fst <$> map_to_list (default ∅ (sv !! dbn))))
  end.

(** [client[dbn][coll].find_one()]: the first document, or [None]. *)
Definition find_one (r : nat) (dbn coll : string) : Py (option doc) := fun w =>
  match mongo_server r "find_one" w with
  | Throw e => (w, Throw e)
  | Ret (_, sv) => (w, Ret (head (default [] (sv !! dbn ≫= fun d : mdb => d !! coll))))
  end.

(** ** Connecting to a server that holds the database *)

Lemma server_up_lookup (m : gmap (option string * option string) sqldb) host dbn db :
  m !! (host, dbn) = Some db -> server_up m host = true.
Proof.
  intros Hm. apply existsb_exists. exists (host, dbn). split; [|by apply bool_decide_eq_true].
  apply in_map_iff. exists ((host, dbn), db). split; [done|].
  by apply list_elem_of_In, elem_of_map_to_list.
Qed.

Lemma mysql_connect_ok cext host user pw dbn db w :
  opt_truthy dbn = true -> w_mysql w !! (host, dbn) = Some db ->
  mysql_connect cext host user pw dbn w =
    alloc (OConn (mk_conn (KMySQL cext) ("", host, dbn) None true)) w.
Proof.
  intros Hd Hm. unfold mysql_connect. rewrite Hd. cbv zeta beta iota.
  by rewrite (server_up_lookup _ _ _ _ Hm), Hm, Hd.
Qed.

Lemma psycopg2_connect_ok host dbn user pw db w :
  opt_truthy dbn = true -> w_pg w !! (host, dbn) = Some db ->
  psycopg2_connect host dbn user pw w =
    alloc (OConn (mk_conn KPsycopg2 ("", host, dbn) None true)) w.
Proof.
  intros Hd Hm. unfold psycopg2_connect. rewrite Hd. cbv zeta beta iota.
  by rewrite (server_up_lookup _ _ _ _ Hm), Hm.
Qed.

(** ** Running the sources on a symbolic world

    [py_unfold] exposes the state passing of the monad and of the driver
    calls, so that [simpl] and [simplify_map_eq] can run a handler on a
    world given by hypotheses. *)
Ltac py_unfold :=
  unfold mysql_connect, psycopg2_connect, mongo_client, mongo_target, mongo_drop,
    mongo_insert_many, set_collection, find_all, list_collection_names, find_one, get_default_database, mongo_server, mongo_host,
    sqlite3_connect, cursor, execute, conn_execute, commit, rollback, close, fetchone, fetchall,
    try_finally, try_except, st_success, st_error, st_info, st_emit,
    st_stop, st_rerun, st_switch_page, session_set, session_get, getenv, conn_class,
    conn_view, read_storage, format_error, write_storage, after_stmt, put_conn, with_tx,
    exec_stmt, alloc, modify, gets,
    set_fs, set_heap, set_ui, set_session, set_mysql, set_pg, set_mongo,
    mbind, pym_bind, mret, pym_ret, mthrow, pym_throw in *.

(** Run as far as the hypotheses allow: evaluate, then resolve map
    lookups (and rewrite with the hypotheses about them), until nothing
    changes. *)
Ltac py_run := py_unfold; repeat (progress (simpl; try simplify_map_eq)).

(** ** The driver and Streamlit calls raise only [Exception]s

    [st.stop()] and [st.rerun()] are the only sources of script-control
    exceptions; every driver call raises an ordinary [Exception] or
    returns.  These facts let a [try ... except Exception] be shown to
    return whatever the driver does. *)

Lemma format_error_exc k sql ps e : format_error k sql ps = Some e -> is_exception e = true.
Proof. unfold format_error. intros H. by repeat (case_match; simplify_eq/=). Qed.

Ltac exc_only_op :=
  let H := fresh "H" in
  intros ??? H; py_unfold; unfold closed_error in *;
  repeat (case_match; simplify_eq/=);
  eauto using exec_stmt_exc, format_error_exc.

Lemma cursor_exc r : raises_exception_only (cursor r).
Proof. exc_only_op. Qed.
Lemma execute_exc `{SqlParser} cur sql ps : raises_exception_only (execute cur sql ps).
Proof. exc_only_op. Qed.
Lemma fetchall_exc cur : raises_exception_only (fetchall cur).
Proof. exc_only_op. Qed.
Lemma fetchone_exc cur : raises_exception_only (fetchone cur).
Proof. exc_only_op. Qed.
Lemma commit_exc r : raises_exception_only (commit r).
Proof. exc_only_op. Qed.
Lemma rollback_exc r : raises_exception_only (rollback r).
Proof. exc_only_op. Qed.
Lemma close_exc r : raises_exception_only (close r).
Proof. exc_only_op. Qed.
Lemma get_default_database_exc r : raises_exception_only (get_default_database r).
Proof. exc_only_op. Qed.
Lemma list_collection_names_exc r dbn : raises_exception_only (list_collection_names r dbn).
Proof. exc_only_op. Qed.
Lemma find_one_exc r dbn coll : raises_exception_only (find_one r dbn coll).
Proof. exc_only_op. Qed.

Lemma conn_class_never r : never_raises (conn_class r).
Proof. intros w. by eexists _, _. Qed.
Lemma st_emit_never ev : never_raises (st_emit ev).
Proof. intros w. by eexists _, _. Qed.
Lemma getenv_never k : never_raises (getenv k).
Proof. intros w. by eexists _, _. Qed.

#[export] Hint Resolve cursor_exc execute_exc fetchall_exc fetchone_exc commit_exc rollback_exc
  close_exc get_default_database_exc list_collection_names_exc find_one_exc
  conn_class_never st_emit_never getenv_never : pyexc.
