(* ===== verification/Pandas.v ===== *)
(** * The pandas calls of the broker

    [pd.read_csv(path)], [df.to_dict(orient="records")] and
    [df.to_sql(name, conn, if_exists="replace", index=False)], as the
    three copies of [connect_to_database] use them.  They are library
    code, modelled from pandas' documented behaviour and its source
    (pandas/io/sql.py), not code of the repository.

    - [read_csv]: the file is split into lines at LF (a CR before it is
      dropped), blank lines are skipped, the first line is the header and
      every line is split at [,]; a row with more fields than the header
      raises [ParserError], a shorter one is padded with NaN.  Each column
      is typed as pandas infers it: integer when every non-empty cell is
      an integer literal (float when some cell is empty: [REAL]), text
      otherwise; an empty cell is NaN ([VNull]).  Quoting, duplicate
      header names and an index column taken from an extra leading field
      are not modelled.
    - [to_sql]: given a DB-API connection that is not SQLAlchemy's, pandas
      warns and runs its SQLite code path ([SQLiteDatabase]) on it.  That
      path first asks whether the table exists with a query on
      [sqlite_master] with one [?] parameter; [SQLiteDatabase.execute]
      turns a failure into [pandas.errors.DatabaseError] after rolling the
      connection back.  With mysql.connector or psycopg2, whose parameter
      marker is [%s], the driver refuses that query (see
      [World.format_error]).  On a sqlite3 connection, which no source
      passes, the existence check is answered from the connection's
      database; identifiers are written unquoted. *)

From stdpp Require Import base list gmap strings pretty.
From Stdlib Require Import Ascii ZArith.
From S2P Require Import Prelude PyStr UrlParse Sql World.
From stdpp Require Import options.

Module Pandas.

Record frame := mk_frame {
  df_columns : list string;
  df_types : list string;       (** the SQL type [to_sql] declares *)
  df_rows : list row
}.

(** ** [read_csv] *)

(** [s.split(sep)] for a one-character separator. *)
Fixpoint split_on (c : ascii) (s : string) : list string :=
  match s with
  | EmptyString => [""]
  | String x s' =>
      if Ascii.eqb x c then "" :: split_on c s'
      else match split_on c s' with
           | y :: ys => String x y :: ys
           | [] => [String x ""]
           end
  end.

(** A line without the CR of a CRLF ending. *)
Fixpoint strip_cr (s : string) : string :=
  match s with
  | String c EmptyString => if Ascii.eqb c "013"%char then "" else s
  | String c s' => String c (strip_cr s')
  | EmptyString => EmptyString
  end.

Definition csv_lines (t : string) : list string :=
  filter (fun l => negb (String.eqb l "")) (map strip_cr (split_on "010"%char t)).

Fixpoint digits_z (s : string) (acc : Z) : option Z :=
  match s with
  | EmptyString => Some acc
  | String c s' =>
      if UrlParse.is_digit c then digits_z s' (10 * acc + Z.of_nat (nat_of_ascii c - 48))%Z
      else None
  end.

(** An integer literal: an optional sign and at least one digit. *)
Definition parse_int (s : string) : option Z :=
  match s with
  | String "-"%char (String _ _ as d) => Z.opp <$> digits_z d 0
  | String "+"%char (String _ _ as d) => digits_z d 0
  | String _ _ => digits_z s 0
  | EmptyString => None
  end.

Definition column_type (cells : list string) : string :=
  if forallb (fun c => String.eqb c "" || bool_decide (is_Some (parse_int c))) cells then
    if existsb (fun c => String.eqb c "") cells then "REAL" else "INTEGER"
  else "TEXT".

Definition cell_value (ty : string) (c : string) : value :=
  if String.eqb c "" then VNull
  else if String.eqb ty "TEXT" then VText c
  else match parse_int c with Some z => VInt z | None => VText c end.

Definition pad (n : nat) (fs : list string) : list string := fs ++ replicate (n - length fs) "".

(** The data lines, split and padded to the header's width, or the
    tokenizer's error for the first line that is too long. *)
Fixpoint split_rows (n : nat) (lineno : nat) (ls : list string) : outcome (list (list string)) :=
  match ls with
  | [] => Ret []
  | l :: ls' =>
      let fs := split_on ","%char l in
      if n <? length fs then
        Throw (ParserError ("Error tokenizing data. C error: Expected " +:+ pretty n +:+
                            " fields in line " +:+ pretty lineno +:+ ", saw " +:+
                            pretty (length fs)))
      else match split_rows n (S lineno) ls' with
           | Ret rs => Ret (pad n fs :: rs)
           | Throw e => Throw e
           end
  end.

Definition parse_csv (t : string) : outcome frame :=
  match csv_lines t with
  | [] => Throw (EmptyDataError "No columns to parse from file")
  | h :: ls =>
      let cols := split_on ","%char h in
      match split_rows (length cols) 2 ls with
      | Throw e => Throw e
      | Ret cells =>
          let tys := imap (fun j _ => column_type (map (fun r => default "" (r !! j)) cells)) cols in
          Ret (mk_frame cols tys (map (fun r => zip_with cell_value tys r) cells))
      end
  end.

Definition read_csv (path : string) : Py frame := fun w =>
  match w_fs w !! path with
  | None => (w, Throw (FileNotFoundError
                        ("[Errno 2] No such file or directory: '" +:+ path +:+ "'")))
  | Some (FSqlite _) => (w, Throw (UnicodeDecodeError "'utf-8' codec can't decode byte"))
  | Some (FText t) => (w, parse_csv t)
  end.

(** ** [to_dict(orient="records")] *)
Definition to_records (df : frame) : list doc := map (zip (df_columns df)) (df_rows df).

(** ** [to_sql(name, conn, if_exists="replace", index=False)] *)

Definition nl : string := String "010" "".

Definition has_table_query : string :=
  "SELECT name FROM sqlite_master WHERE type IN ('table', 'view') AND name=?;".

Section ToSql.
Context `{SqlParser}.

(** [SQLiteDatabase.execute(sql, params)] *)
Definition pandas_execute (r : nat) (sql : string) (ps : list value) : Py nat :=
  cur ← cursor r;
  try_except (execute cur sql ps;; mret cur)
    (fun e =>
       if is_exception e then Some (
         try_except (rollback r)
           (fun e2 =>
              if is_exception e2 then
                Some (mthrow (DatabaseError ("Execution failed on sql: " +:+ sql +:+ nl +:+
                                              exc_str e +:+ nl +:+ "unable to rollback")))
              else None);;
         mthrow (DatabaseError ("Execution failed on sql '" +:+ sql +:+ "': " +:+ exc_str e)))
       else None).

(** The [sqlite_master] query answered on a sqlite3 connection. *)
Definition sqlite_has_table (r : nat) (name : string) : Py bool := fun w =>
  match w_heap w !! r with
  | Some (OConn c) =>
      match conn_view w c with
      | Ret db => (w, Ret (bool_decide (is_Some (db !! name))))
      | Throw e => (w, Throw e)
      end
  | _ => (w, Throw (AttributeError "cursor"))
  end.

(** [SQLiteDatabase.has_table(name)] *)
Definition has_table (r : nat) (name : string) : Py bool :=
  cls ← conn_class r;
  match cls with
  | ClsSqlite => sqlite_has_table r name
  | _ =>
      cur ← pandas_execute r has_table_query [VText name];
      rows ← fetchall cur;
      mret (bool_decide (0 < length rows))
  end.

Definition create_sql (name : string) (df : frame) : string :=
  "CREATE TABLE " +:+ name +:+ " (" +:+
  py_join ", " (zip_with (fun c t => c +:+ " " +:+ t) (df_columns df) (df_types df)) +:+ ")".

Definition insert_sql (name : string) (df : frame) : string :=
  "INSERT INTO " +:+ name +:+ " (" +:+ py_join ", " (df_columns df) +:+ ") VALUES (" +:+
  py_join ", " (map (fun _ => "?") (df_columns df)) +:+ ")".

(** [executemany] of the rows in one transaction, then [commit]. *)
Fixpoint insert_rows (cur : nat) (sql : string) (rows : list row) : Py unit :=
  match rows with
  | [] => mret ()
  | x :: rest => execute cur sql x;; insert_rows cur sql rest
  end.

Definition to_sql (df : frame) (name : string) (r : nat) : Py unit :=
  present ← has_table r name;
  (if (present : bool) then pandas_execute r ("DROP TABLE " +:+ name) [] else mret 0);;
  pandas_execute r (create_sql name df) [];;
  cur ← cursor r;
  try_except (insert_rows cur (insert_sql name df) (df_rows df);; commit r)
    (fun e => Some (rollback r;; mthrow e)).

End ToSql.

End Pandas.
