(* ===== verification/Credentials.v ===== *)
(** * The credential store: src/BOT/init_db.py and src/BOT/main.py

    [create_db] creates the [users] table of the SQLite file
    [database.db]; [add_user] inserts a (username, password) row and
    reports a duplicate username, [login_user] looks a pair up; the
    signup/login page calls them.  All of it goes through the sqlite3
    driver of [World], with the SQL text of the sources.

    The theorems show that the table refines a finite map from usernames
    to passwords ([spec_signup], [spec_login]): the primary key keeps the
    usernames distinct, a second signup for a name is refused with the
    source's message, and login succeeds exactly on the stored pair.
    They also show what happens when [init_db.py] has not been run. *)

From stdpp Require Import base list gmap strings.
From S2P Require Import Prelude PyStr Sql SqlParse World.
From stdpp Require Import options.

Module Credentials.

Section WithParser.
Context `{SqlParser}.

(** init_db.py, [create_db] *)
Definition create_db : Py unit :=
  conn ← sqlite3_connect "database.db";
  c ← cursor conn;
  execute c "CREATE TABLE IF NOT EXISTS users
               (username TEXT PRIMARY KEY, password TEXT)" [];;
  commit conn;;
  close conn.

(** main.py, [create_connection] *)
Definition create_connection : Py nat := sqlite3_connect "database.db".

(** main.py, [add_user] *)
Definition add_user (username password : string) : Py unit :=
  conn ← create_connection;
  c ← cursor conn;
  try_finally
    (try_except
       (execute c "INSERT INTO users (username, password) VALUES (?, ?)"
          [VText username; VText password];;
        commit conn;;
        st_success "Account created successfully!")
       (fun e => match e with
                 | IntegrityError _ =>
                     Some (st_error "Username already exists. Please choose a different username.")
                 | _ => None
                 end))
    (close conn).

(** main.py, [login_user] *)
Definition login_user (username password : string) : Py (option row) :=
  conn ← create_connection;
  c ← cursor conn;
  execute c "SELECT * FROM users WHERE username=? AND password=?"
    [VText username; VText password];;
  data ← fetchone c;
  close conn;;
  mret data.

(** The page's two forms, as the widget values of one script run:
    the sidebar choice, the two text inputs and whether the button
    was pressed.  The text inputs have keys, so Streamlit stores their
    values in the session during the run. *)
Inductive page_input :=
| SignupForm (new_user new_password : string) (pressed : bool)
| LoginForm (username password : string) (pressed : bool).

(** main.py, the script body after the page setup (lines 80-100). *)
Definition signup_login_page (inp : page_input) : Py unit :=
  match inp with
  | SignupForm new_user new_password pressed =>
      st_emit (UiSubheader "Create a New Account");;
      session_set "signup_user" (PStr new_user);;
      session_set "signup_pass" (PStr new_password);;
      if pressed then add_user new_user new_password else mret ()
  | LoginForm username password pressed =>
      st_emit (UiSubheader "Login to Your Account");;
      session_set "login_user" (PStr username);;
      session_set "login_pass" (PStr password);;
      if pressed then
        result ← login_user username password;
        match result with
        | Some _ =>
            session_set "authenticated" (PBool true);;
            st_success "Logged in successfully! Redirecting...";;
            st_switch_page "pages/app.py"
        | None => st_error "Invalid username or password"
        end
      else mret ()
  end.
End WithParser.

(** ** The abstract store and the relation to the [users] table *)

(** What the credential store promises: a finite map from usernames to
    passwords, with insert-if-absent and exact-match lookup. *)
Inductive signup_result := SignupOk | DuplicateUser.

Definition spec_signup (m : gmap string string) (u p : string)
    : gmap string string * signup_result :=
  match m !! u with
  | Some _ => (m, DuplicateUser)
  | None => (<[u:=p]> m, SignupOk)
  end.

Definition spec_login (m : gmap string string) (u p : string) : option (string * string) :=
  match m !! u with
  | Some q => if String.eqb q p then Some (u, p) else None
  | None => None
  end.

(** The message [add_user] displays for each outcome. *)
Definition signup_msg (r : signup_result) : ui_event :=
  match r with
  | SignupOk => UiSuccess "Account created successfully!"
  | DuplicateUser => UiError "Username already exists. Please choose a different username."
  end.

Definition users_cols : list column :=
  [mk_column "username" "TEXT" true; mk_column "password" "TEXT" false].

Definition user_row (kv : string * string) : row := [VText kv.1; VText kv.2].

(** The rows are (username, password) pairs with distinct usernames, and
    [m] is the map they spell. *)
Definition users_rel (rs : list row) (m : gmap string string) : Prop :=
  exists kvs, rs = map user_row kvs /\ NoDup kvs.*1 /\ m = list_to_map kvs.

Definition users_table (db : sqldb) (m : gmap string string) : Prop :=
  exists t, db !! "users" = Some t /\ tbl_cols t = users_cols /\ users_rel (tbl_rows t) m.

Definition cred_state (w : world) (m : gmap string string) : Prop :=
  exists db, w_fs w !! "database.db" = Some (FSqlite db) /\ users_table db m.

(** ** Lemmas on the [users] statements *)

Lemma users_pk_conflict kvs u p :
  NoDup kvs.*1 ->
  pk_conflict users_cols (map user_row kvs) [VText u; VText p] =
  match (list_to_map kvs : gmap string string) !! u with
  | Some _ => Some "username"
  | None => None
  end.
Proof.
  intros Hnd. unfold pk_conflict. simpl.
  destruct ((list_to_map kvs : gmap string string) !! u) as [q|] eqn:Hu.
  - apply elem_of_list_to_map_2 in Hu.
    enough (existsb (fun r' => sql_eq (default VNull (r' !! 0)) (VText u))
              (map user_row kvs) = true) as -> by done.
    apply existsb_exists. exists (user_row (u, q)). split.
    + apply in_map, list_elem_of_In, Hu.
    + simpl. by rewrite bool_decide_true.
  - apply not_elem_of_list_to_map_2 in Hu.
    enough (existsb (fun r' => sql_eq (default VNull (r' !! 0)) (VText u))
              (map user_row kvs) = false) as -> by done.
    apply not_true_iff_false. intros [r [[[k q] [<- Hin]]%in_map_iff Heq]]%existsb_exists.
    simpl in Heq. apply bool_decide_eq_true in Heq as [= ->].
    apply Hu, list_elem_of_fmap. exists (u, q). split; [done|]. by apply list_elem_of_In.
Qed.

Lemma users_rel_snoc kvs u p :
  NoDup kvs.*1 -> (list_to_map kvs : gmap string string) !! u = None ->
  users_rel (map user_row kvs ++ [user_row (u, p)]) (<[u:=p]> (list_to_map kvs)).
Proof.
  intros Hnd Hu%not_elem_of_list_to_map_2. exists (kvs ++ [(u, p)]).
  rewrite map_app, fmap_app. split; [done|]. split.
  - apply NoDup_app. split; [done|]. split; [|apply NoDup_singleton].
    intros x Hx ->%list_elem_of_singleton. by apply Hu.
  - by rewrite list_to_map_snoc.
Qed.

Lemma users_rel_nil : users_rel [] ∅.
Proof. exists []. split_and!; [done | constructor | done]. Qed.

Lemma users_row_matches k q u p :
  row_matches users_cols [VText u; VText p]
    [("username", EParam 0); ("password", EParam 1)] (user_row (k, q)) =
  bool_decide (k = u) && bool_decide (q = p).
Proof.
  unfold row_matches. simpl. rewrite andb_true_r.
  f_equal; apply bool_decide_ext; split; [by intros [=] | by intros -> | by intros [=] | by intros ->].
Qed.

(** [SELECT * FROM users WHERE username=? AND password=?], first row. *)
Lemma users_select_head kvs u p :
  NoDup kvs.*1 ->
  head (filter (fun r => row_matches users_cols [VText u; VText p]
                           [("username", EParam 0); ("password", EParam 1)] r = true)
          (map user_row kvs)) =
  user_row <$> spec_login (list_to_map kvs) u p.
Proof.
  unfold spec_login. induction kvs as [|[k q] kvs IH]; intros Hnd; [done|].
  apply NoDup_cons in Hnd as [Hk Hnd]. rewrite map_cons, filter_cons.
  rewrite list_to_map_cons. case_decide as Hm; rewrite users_row_matches in Hm.
  - apply andb_true_iff in Hm as [->%bool_decide_eq_true ->%bool_decide_eq_true].
    rewrite lookup_insert_eq. simpl. by rewrite String.eqb_refl.
  - rewrite IH by done. destruct (decide (k = u)) as [->|Hne].
    + rewrite lookup_insert_eq.
      assert ((list_to_map kvs : gmap string string) !! u = None) as ->
        by by apply not_elem_of_list_to_map_1.
      destruct (String.eqb_spec q p) as [->|]; [|done].
      exfalso. apply Hm. by rewrite !bool_decide_true.
    + by rewrite lookup_insert_ne.
Qed.

(** ** The handlers against the abstract store *)

Ltac destruct_cred H :=
  let db := fresh "db" in let Hf := fresh "Hf" in let Hdb := fresh "Hdb" in
  let kvs := fresh "kvs" in let Hnd := fresh "Hnd" in
  destruct H as (db & Hf & [? ?] & Hdb & ? & kvs & ? & Hnd & ->);
  simpl in *; subst.

(** A [cred_state] goal after a run: the file and the table are either
    the ones of the hypotheses or the ones just written. *)
Ltac solve_cred :=
  eexists; split; [simpl; first [apply lookup_insert_eq | eassumption]|];
  eexists; split; [first [apply lookup_insert_eq | eassumption]|]; split; [done|].

Section Refinement.
Context `{SqlParser}.

(** What the SQLite front end reads in the three texts of the sources. *)
Hypothesis parse_create_users :
  sql_parse DSqlite "CREATE TABLE IF NOT EXISTS users
               (username TEXT PRIMARY KEY, password TEXT)" =
  Some (CreateTable true "users" users_cols).
Hypothesis parse_insert_users :
  sql_parse DSqlite "INSERT INTO users (username, password) VALUES (?, ?)" =
  Some (InsertInto "users" ["username"; "password"] [EParam 0; EParam 1]).
Hypothesis parse_select_users :
  sql_parse DSqlite "SELECT * FROM users WHERE username=? AND password=?" =
  Some (SelectStar "users" [("username", EParam 0); ("password", EParam 1)]).

(** Running [add_user] on a store that spells [m]. *)
Lemma add_user_run w m u p :
  cred_state w m ->
  let '(w', o) := add_user u p w in
  o = Ret () /\ cred_state w' (spec_signup m u p).1 /\
  w_ui w' = w_ui w ++ [signup_msg (spec_signup m u p).2].
Proof using parse_insert_users.
  intros Hc. destruct_cred Hc.
  unfold add_user, create_connection. py_run.
  rewrite (users_pk_conflict kvs u p Hnd).
  unfold spec_signup. destruct (list_to_map kvs !! u) as [q|] eqn:Hu; simpl;
    simplify_map_eq; (split; [done|]); (split; [|done]); solve_cred.
  - by exists kvs.
  - by apply users_rel_snoc.
Qed.

(** Running [login_user] on a store that spells [m]. *)
Lemma login_user_run w m u p :
  cred_state w m ->
  let '(w', o) := login_user u p w in
  o = Ret (user_row <$> spec_login m u p) /\ cred_state w' m /\
  w_ui w' = w_ui w /\ w_session w' = w_session w.
Proof using parse_select_users.
  intros Hc. destruct_cred Hc.
  pose proof (users_select_head kvs u p Hnd) as Hhead.
  unfold login_user, create_connection. py_run.
  destruct (filter _ _) as [|x rest]; simpl in Hhead; rewrite <- Hhead;
    simplify_map_eq; (split; [done|]); (split; [|split; done]); solve_cred; by exists kvs.
Qed.
(** C1. [add_user] refines [spec_signup]: on a store that spells the
    map [m], it returns normally, leaves a store that spells
    [(spec_signup m u p).1] (so usernames stay distinct) and displays
    the message of the outcome: success for a new username, the
    duplicate-username error for a taken one. *)
Theorem add_user_refines w m u p :
  cred_state w m ->
  let '(w', o) := add_user u p w in
  o = Ret () /\ cred_state w' (spec_signup m u p).1 /\
  w_ui w' = w_ui w ++ [signup_msg (spec_signup m u p).2].
Proof using parse_insert_users. apply add_user_run. Qed.

(** C2. [login_user] refines [spec_login]: it returns the stored row
    exactly when the pair is the stored one, and changes neither the
    store nor the page. *)
Theorem login_user_refines w m u p :
  cred_state w m ->
  let '(w', o) := login_user u p w in
  o = Ret (user_row <$> spec_login m u p) /\ cred_state w' m /\
  w_ui w' = w_ui w /\ w_session w' = w_session w.
Proof using parse_select_users. apply login_user_run. Qed.

(** C3. Creating the table on a fresh install: with no [database.db],
    [create_db] creates the file with an empty [users] table. *)
Theorem create_db_fresh w :
  w_fs w !! "database.db" = None ->
  let '(w', o) := create_db w in o = Ret () /\ cred_state w' ∅.
Proof using parse_create_users.
  intros Hf. unfold create_db. py_run. split; [done|]. solve_cred. apply users_rel_nil.
Qed.

(** C4. [create_db] is idempotent ([CREATE TABLE IF NOT EXISTS]): on an
    existing store it changes nothing the store spells. *)
Theorem create_db_keeps w m :
  cred_state w m ->
  let '(w', o) := create_db w in o = Ret () /\ cred_state w' m.
Proof using parse_create_users.
  intros Hc. destruct_cred Hc. unfold create_db. py_run. split; [done|].
  solve_cred. by exists kvs.
Qed.

(** C5. Signing up before [init_db.py] has run: the INSERT fails with
    [OperationalError] ("no such table"), which the [except
    sqlite3.IntegrityError] clause does not catch, so it escapes
    [add_user] with nothing displayed. *)
Theorem add_user_without_table w u p :
  w_fs w !! "database.db" = None ->
  let '(w', o) := add_user u p w in
  o = Throw (OperationalError "no such table: users") /\ w_ui w' = w_ui w.
Proof using parse_insert_users.
  intros Hf. unfold add_user, create_connection. py_run. by split.
Qed.

(** C6. Signup fails the second time (the spec's example): after
    signing [u] up with [p1], a signup of [u] with [p2] is refused with
    the duplicate message, and [u] keeps [p1]. *)
Corollary signup_twice w m u p1 p2 :
  cred_state w m -> m !! u = None ->
  let '(w1, o1) := add_user u p1 w in
  let '(w2, o2) := add_user u p2 w1 in
  o1 = Ret () /\ o2 = Ret () /\ cred_state w2 (<[u:=p1]> m) /\
  w_ui w2 = w_ui w ++ [signup_msg SignupOk; signup_msg DuplicateUser].
Proof using parse_insert_users.
  intros Hc Hu. pose proof (add_user_run w m u p1 Hc) as H1.
  destruct (add_user u p1 w) as [w1 o1]. unfold spec_signup in H1. rewrite Hu in H1.
  simpl in H1. destruct H1 as (-> & Hc1 & Hui1).
  pose proof (add_user_run w1 _ u p2 Hc1) as H2.
  destruct (add_user u p2 w1) as [w2 o2]. unfold spec_signup in H2.
  rewrite lookup_insert_eq in H2. destruct H2 as (-> & Hc2 & Hui2).
  rewrite Hui2, Hui1, <- app_assoc. done.
Qed.

(** C7. Login is an exact-match test (the spec's example): after a
    signup of [u] with [p], logging in with [p] returns the row and
    with any other password returns nothing. *)
Corollary login_after_signup w m u p p' :
  cred_state w m -> m !! u = None ->
  let w1 := fst (add_user u p w) in
  snd (login_user u p w1) = Ret (Some [VText u; VText p]) /\
  (p' <> p -> snd (login_user u p' w1) = Ret None).
Proof using parse_insert_users parse_select_users.
  intros Hc Hu. pose proof (add_user_run w m u p Hc) as H1.
  destruct (add_user u p w) as [w1 o1]. unfold spec_signup in H1. rewrite Hu in H1.
  simpl in H1. destruct H1 as (_ & Hc1 & _). simpl.
  pose proof (login_user_run w1 _ u p Hc1) as L1.
  pose proof (login_user_run w1 _ u p' Hc1) as L2.
  destruct (login_user u p w1) as [w2 o2], (login_user u p' w1) as [w3 o3].
  destruct L1 as (-> & _), L2 as (-> & _). unfold spec_login.
  rewrite lookup_insert_eq, String.eqb_refl. split; [done|].
  intros Hne. destruct (String.eqb_spec p p'); [congruence | done].
Qed.

(** The session after the login form's keyed text inputs are drawn. *)
Definition login_inputs (u p : string) (ses : gmap string pyval) : gmap string pyval :=
  <["login_pass" := PStr p]> (<["login_user" := PStr u]> ses).

(** C8. The login form redirects exactly on a stored pair: pressing
    Login with the stored password sets [authenticated] in the session,
    shows the success message and switches to [pages/app.py]; with a
    pair that is not stored it shows the error, and the session changes
    only by the two text inputs' keys. *)
Theorem login_page_behaviour w m u p :
  cred_state w m ->
  let '(w', o) := signup_login_page (LoginForm u p true) w in
  match spec_login m u p with
  | Some _ =>
      o = Throw (RerunException (Some "pages/app.py")) /\
      w_session w' = <["authenticated" := PBool true]> (login_inputs u p (w_session w)) /\
      w_ui w' = w_ui w ++ [UiSubheader "Login to Your Account";
                           UiSuccess "Logged in successfully! Redirecting..."]
  | None =>
      o = Ret () /\ w_session w' = login_inputs u p (w_session w) /\
      w_ui w' = w_ui w ++ [UiSubheader "Login to Your Account";
                           UiError "Invalid username or password"]
  end.
Proof using parse_select_users.
  intros Hc. unfold signup_login_page, session_set, st_emit, modify, mbind, pym_bind. simpl.
  match goal with |- context [login_user u p ?w1] =>
    pose proof (login_user_run w1 m u p Hc) as Hl; destruct (login_user u p w1) as [w2 o2];
    destruct Hl as (-> & _ & Hui & Hses) end.
  unfold login_inputs. destruct (spec_login m u p); py_unfold; simpl; rewrite Hses, Hui; simpl;
    rewrite <- app_assoc; done.
Qed.
End Refinement.

(** ** Witnesses, with the concrete SQL front end *)

(** A world where [init_db.py] has run and nobody has signed up. *)
Definition demo_world : world :=
  mk_world {["database.db" := FSqlite {["users" := mk_table users_cols []]}]}
    ∅ ∅ ∅ ∅ 0 ∅ [] ∅.

(** A fresh install: no [database.db] yet. *)
Definition fresh_world : world := mk_world ∅ ∅ ∅ ∅ ∅ 0 ∅ [] ∅.

Ltac demo_cred :=
  eexists; split; [reflexivity|]; eexists; split; [reflexivity|];
  split; [reflexivity|]; exists []; split_and!; [reflexivity | constructor | reflexivity].

Lemma add_user_refines_witness :
  cred_state demo_world ∅ /\
  let '(w', o) := add_user (H:=concrete_parser) "alice" "p1" demo_world in
  o = Ret () /\ cred_state w' (spec_signup ∅ "alice" "p1").1 /\
  w_ui w' = w_ui demo_world ++ [signup_msg (spec_signup ∅ "alice" "p1").2].
Proof.
  assert (Hc : cred_state demo_world ∅) by demo_cred. split; [exact Hc|].
  exact (add_user_refines (H:=concrete_parser) eq_refl demo_world ∅ "alice" "p1" Hc).
Defined.

Lemma login_user_refines_witness :
  cred_state demo_world ∅ /\
  let '(w', o) := login_user (H:=concrete_parser) "alice" "p1" demo_world in
  o = Ret (user_row <$> spec_login ∅ "alice" "p1") /\ cred_state w' ∅ /\
  w_ui w' = w_ui demo_world /\ w_session w' = w_session demo_world.
Proof.
  assert (Hc : cred_state demo_world ∅) by demo_cred. split; [exact Hc|].
  exact (login_user_refines (H:=concrete_parser) eq_refl demo_world ∅ "alice" "p1" Hc).
Defined.

Lemma create_db_fresh_witness :
  w_fs fresh_world !! "database.db" = None /\
  let '(w', o) := create_db (H:=concrete_parser) fresh_world in o = Ret () /\ cred_state w' ∅.
Proof.
  split; [reflexivity|].
  exact (create_db_fresh (H:=concrete_parser) eq_refl fresh_world eq_refl).
Defined.

Lemma create_db_keeps_witness :
  cred_state demo_world ∅ /\
  let '(w', o) := create_db (H:=concrete_parser) demo_world in o = Ret () /\ cred_state w' ∅.
Proof.
  assert (Hc : cred_state demo_world ∅) by demo_cred. split; [exact Hc|].
  exact (create_db_keeps (H:=concrete_parser) eq_refl demo_world ∅ Hc).
Defined.

Lemma add_user_without_table_witness :
  w_fs fresh_world !! "database.db" = None /\
  let '(w', o) := add_user (H:=concrete_parser) "alice" "p1" fresh_world in
  o = Throw (OperationalError "no such table: users") /\ w_ui w' = w_ui fresh_world.
Proof.
  split; [reflexivity|].
  exact (add_user_without_table (H:=concrete_parser) eq_refl fresh_world "alice" "p1" eq_refl).
Defined.

Lemma signup_twice_witness :
  cred_state demo_world ∅ /\ (∅ : gmap string string) !! "alice" = None /\
  let '(w1, o1) := add_user (H:=concrete_parser) "alice" "p1" demo_world in
  let '(w2, o2) := add_user (H:=concrete_parser) "alice" "p2" w1 in
  o1 = Ret () /\ o2 = Ret () /\ cred_state w2 (<["alice":="p1"]> ∅) /\
  w_ui w2 = w_ui demo_world ++ [signup_msg SignupOk; signup_msg DuplicateUser].
Proof.
  assert (Hc : cred_state demo_world ∅) by demo_cred. split; [exact Hc|].
  split; [reflexivity|].
  exact (signup_twice (H:=concrete_parser) eq_refl demo_world ∅ "alice" "p1" "p2" Hc eq_refl).
Defined.

Lemma login_after_signup_witness :
  cred_state demo_world ∅ /\ (∅ : gmap string string) !! "alice" = None /\
  let w1 := fst (add_user (H:=concrete_parser) "alice" "p1" demo_world) in
  snd (login_user (H:=concrete_parser) "alice" "p1" w1) =
    Ret (Some [VText "alice"; VText "p1"]) /\
  ("wrong" <> "p1" ->
   snd (login_user (H:=concrete_parser) "alice" "wrong" w1) = Ret None).
Proof.
  assert (Hc : cred_state demo_world ∅) by demo_cred. split; [exact Hc|].
  split; [reflexivity|].
  exact (login_after_signup (H:=concrete_parser) eq_refl eq_refl demo_world ∅
           "alice" "p1" "wrong" Hc eq_refl).
Defined.

Lemma login_page_behaviour_witness :
  cred_state demo_world ∅ /\
  let '(w', o) := signup_login_page (H:=concrete_parser) (LoginForm "alice" "p1" true)
                    demo_world in
  match spec_login ∅ "alice" "p1" with
  | Some _ =>
      o = Throw (RerunException (Some "pages/app.py")) /\
      w_session w' = <["authenticated" := PBool true]> (login_inputs "alice" "p1" (w_session demo_world)) /\
      w_ui w' = w_ui demo_world ++ [UiSubheader "Login to Your Account";
                                    UiSuccess "Logged in successfully! Redirecting..."]
  | None =>
      o = Ret () /\ w_session w' = login_inputs "alice" "p1" (w_session demo_world) /\
      w_ui w' = w_ui demo_world ++ [UiSubheader "Login to Your Account";
                                    UiError "Invalid username or password"]
  end.
Proof.
  assert (Hc : cred_state demo_world ∅) by demo_cred. split; [exact Hc|].
  exact (login_page_behaviour (H:=concrete_parser) eq_refl demo_world ∅ "alice" "p1" Hc).
Defined.

End Credentials.
