(* ===== verification/Executor.v ===== *)
(** * The query executor: [read_sql_query] and [read_query] of
      src/BOT/pages/app.py

    [clean_query] is the fence removal the executor applies to the
    model's answer; [read_sql_query] dispatches on the class of the
    connection object, runs the text as SQL (committing on SQLite) or
    evaluates it as a MongoDB filter with Python's [eval], and turns every
    exception into an error message and an empty result; [read_query]
    wraps it.

    Python's [eval] is a parameter [py_eval] of type [string -> Py
    evalue]: it may do anything to the world, which is what running
    model output as code allows.  The results are Python lists: of
    tuples for SQL, of dicts for MongoDB ([qresult]). *)

From stdpp Require Import base list gmap strings.
From Stdlib Require Import Ascii.
From S2P Require Import Prelude PyStr Sql SqlParse World.
From stdpp Require Import options.

Module Executor.

(** The value [read_sql_query] returns. *)
Inductive qresult :=
| QRows (rs : list row)
| QDocs (ds : list doc).

(** [if result:] on the returned list. *)
Definition qresult_truthy (q : qresult) : bool :=
  match q with
  | QRows rs => negb (bool_decide (rs = []))
  | QDocs ds => negb (bool_decide (ds = []))
  end.

(** app.py line 130: [sql.replace("```", "").strip()] *)
Definition clean_query (sql : string) : string := py_strip (py_replace "```" "" sql).

Section WithDrivers.
Context `{SqlParser} `{MongoFind}.
Variable py_eval : string -> Py evalue.

(** app.py, [read_sql_query] *)
Definition read_sql_query (sql : string) (conn : nat) (table_name : option string)
    : Py qresult :=
  let sql := clean_query sql in
  try_except
    (cls ← conn_class conn;
     match cls with
     | ClsSqlite =>
         cur ← cursor conn;
         execute cur sql [];;
         rows ← fetchall cur;
         commit conn;;
         mret (QRows rows)
     | ClsMySQL =>
         cur ← cursor conn;
         execute cur sql [];;
         rows ← fetchall cur;
         mret (QRows rows)
     | ClsPsycopg2 =>
         cur ← cursor conn;
         execute cur sql [];;
         rows ← fetchall cur;
         mret (QRows rows)
     | ClsMongo =>
         match table_name with
         | Some t =>
             if opt_truthy table_name then
               dbn ← get_default_database conn;
               query ← py_eval sql;
               docs ← find_all conn dbn t query;
               mret (QDocs docs)
             else mret (QRows [])
         | None => mret (QRows [])
         end
     | _ => mret (QRows [])
     end)
    (fun e => if is_exception e
              then Some (st_error ("Error executing query: " +:+ exc_str e);; mret (QRows []))
              else None).

(** app.py, [read_query] *)
Definition read_query (response : string) (conn : nat) (table_name : string)
    : Py (option qresult) :=
  try_except
    (if py_in "select" (py_lower response) then
       result ← read_sql_query response conn (Some table_name); mret (Some result)
     else
       result ← read_sql_query response conn (Some table_name); mret (Some result))
    (fun e => if is_exception e
              then Some (st_error ("Error reading query: " +:+ exc_str e);; mret None)
              else None).
End WithDrivers.

(** ** Fence removal *)

(** C9. Cleaning is idempotent: a cleaned query has no fence left and no
    surrounding white space, so cleaning it again changes nothing. *)
Theorem clean_query_idem s : clean_query (clean_query s) = clean_query s.
Proof.
  unfold clean_query. rewrite (py_replace_absent "`"%char "``" "").
  - apply py_strip_idem.
  - apply py_in_strip_false, replace_fence_no_fence.
Qed.

Lemma clean_query_fenced s : clean_query ("```" +:+ s +:+ "```") = clean_query s.
Proof.
  unfold clean_query. by rewrite replace_fence_cons_fence, replace_fence_snoc_fence.
Qed.

Section Props.
Context `{SqlParser} `{MongoFind}.
Variable py_eval : string -> Py evalue.

(** C10. The executor treats a query wrapped in a code fence exactly as
    the bare query (the spec's example: [```SELECT 1```] and
    [SELECT 1]): same result, same effects, on every connection. *)
Theorem read_sql_query_fenced s conn t :
  read_sql_query py_eval ("```" +:+ s +:+ "```") conn t = read_sql_query py_eval s conn t.
Proof. unfold read_sql_query. by rewrite clean_query_fenced. Qed.

Lemma read_sql_query_handler e :
  is_exception e = true ->
  exists k, (fun e => if is_exception e
                      then Some (st_error ("Error executing query: " +:+ exc_str e);;
                                 mret (QRows []))
                      else None) e = Some k /\
            forall w, exists w' a, k w = (w', Ret a).
Proof. intros He. cbv beta. rewrite He. eexists. split; [done|]. intros w. by do 2 eexists. Qed.

Lemma read_sql_query_escapes s conn t w w' e :
  read_sql_query py_eval s conn t w = (w', Throw e) -> is_exception e = false.
Proof.
  apply try_except_escapes; [apply read_sql_query_handler|].
  intros e' He'. by rewrite He'.
Qed.

(** C11. [read_sql_query] never raises an [Exception]: whatever the
    drivers or [eval] raise is turned into a message and an empty
    result; only Streamlit's script-control exceptions (which [eval]
    could raise) pass through. *)
Theorem read_sql_query_never_raises s conn t w w' e :
  read_sql_query py_eval s conn t w = (w', Throw e) -> is_exception e = false.
Proof. apply read_sql_query_escapes. Qed.

Lemma read_query_unfold resp conn t w :
  read_query py_eval resp conn t w =
  (read_sql_query py_eval resp conn (Some t) ≫= fun r => mret (Some r)) w.
Proof.
  assert (Hrun : forall w0,
    try_except (read_sql_query py_eval resp conn (Some t) ≫= fun r => mret (Some r))
      (fun e => if is_exception e
                then Some (st_error ("Error reading query: " +:+ exc_str e);; mret None)
                else None) w0 =
    (read_sql_query py_eval resp conn (Some t) ≫= fun r => mret (Some r)) w0).
  { intros w0. unfold try_except, mbind, pym_bind at 1 3.
    destruct (read_sql_query py_eval resp conn (Some t) w0) as [w1 [a|e]] eqn:E; [done|].
    apply read_sql_query_escapes in E. by rewrite E. }
  unfold read_query. by destruct (py_in _ _).
Qed.

(** C12. [read_query] is [read_sql_query]: both branches of its
    ['select' in response.lower()] test make the same call, and its
    [except] clause is unreachable. *)
Theorem read_query_is_read_sql_query resp conn t w :
  read_query py_eval resp conn t w =
  (read_sql_query py_eval resp conn (Some t) ≫= fun r => mret (Some r)) w.
Proof. apply read_query_unfold. Qed.

(** C13. On a [CMySQLConnection] (mysql.connector with its C
    extension) no branch of the dispatch applies: the query is not run,
    nothing is displayed, and the result is empty. *)
Theorem read_sql_query_cmysql s conn t w :
  obj_class (w_heap w !! conn) = ClsCMySQL ->
  read_sql_query py_eval s conn t w = (w, Ret (QRows [])).
Proof. intros Hc. unfold read_sql_query. py_unfold. simpl. by rewrite Hc. Qed.

(** C14. A query the SQLite engine rejects: the error is displayed as
    ["Error executing query: ..."], the result is empty and the
    database file is untouched. *)
Theorem read_sql_query_rejected s conn path t w :
  heap_wf w ->
  w_heap w !! conn = Some (OConn (mk_conn KSqlite3 (path, None, None) None true)) ->
  sql_parse DSqlite (clean_query s) = None ->
  let '(w', o) := read_sql_query py_eval s conn t w in
  o = Ret (QRows []) /\ w_fs w' = w_fs w /\
  w_ui w' = w_ui w ++ [UiError ("Error executing query: " +:+ exc_str (syntax_error DSqlite))].
Proof.
  intros Hwf Hconn Hparse. pose proof (heap_wf_lt _ _ _ Hwf Hconn).
  unfold read_sql_query. py_unfold. simpl. rewrite Hconn. simpl.
  assert (conn <> w_next w) by lia. simplify_map_eq. done.
Qed.

(** Running a [SELECT * FROM t] on a SQLite connection. *)
Lemma read_sql_query_select_run s conn path t tbl db w :
  heap_wf w ->
  w_heap w !! conn = Some (OConn (mk_conn KSqlite3 (path, None, None) None true)) ->
  w_fs w !! path = Some (FSqlite db) ->
  sql_parse DSqlite (clean_query s) = Some (SelectStar t []) ->
  db !! t = Some tbl ->
  let '(w', o) := read_sql_query py_eval s conn (Some t) w in
  o = Ret (QRows (tbl_rows tbl)) /\ w_fs w' = w_fs w /\ w_ui w' = w_ui w.
Proof.
  intros Hwf Hconn Hf Hparse Ht. pose proof (heap_wf_lt _ _ _ Hwf Hconn).
  unfold read_sql_query. py_unfold. simpl. rewrite Hconn. simpl.
  assert (conn <> w_next w) by lia. simplify_map_eq. by rewrite filter_all.
Qed.

(** C15. A [SELECT * FROM t] on a SQLite file returns the rows of [t]
    in their stored order, displays nothing and leaves the file as it
    was. *)
Theorem read_sql_query_select s conn path t tbl db w :
  heap_wf w ->
  w_heap w !! conn = Some (OConn (mk_conn KSqlite3 (path, None, None) None true)) ->
  w_fs w !! path = Some (FSqlite db) ->
  sql_parse DSqlite (clean_query s) = Some (SelectStar t []) ->
  db !! t = Some tbl ->
  let '(w', o) := read_sql_query py_eval s conn (Some t) w in
  o = Ret (QRows (tbl_rows tbl)) /\ w_fs w' = w_fs w /\ w_ui w' = w_ui w.
Proof. apply read_sql_query_select_run. Qed.
End Props.

(** ** Witnesses *)

Definition movies_table : table :=
  mk_table [mk_column "title" "TEXT" false; mk_column "year" "INTEGER" false]
    [[VText "Alien"; VInt 1979]; [VText "Heat"; VInt 1995]].

(** An open SQLite connection (reference 0) to [movies.db]. *)
Definition sqlite_world : world :=
  mk_world {["movies.db" := FSqlite {["movies" := movies_table]}]} ∅ ∅ ∅
    {[0 := OConn (mk_conn KSqlite3 ("movies.db", None, None) None true)]} 1 ∅ [] ∅.

(** A MongoClient (reference 0) whose URI names the database [shop], and
    a CMySQLConnection (reference 1). *)
Definition mongo_world : world :=
  mk_world ∅ ∅ ∅ {[Some "localhost" := {["shop" := {["items" := []]}]}]}
    {[0 := OMongo (Some "localhost") (Some "shop");
      1 := OConn (mk_conn (KMySQL true) ("", Some "localhost", Some "shop") None true)]}
    2 ∅ [] ∅.

(** A [find] that matches dicts field by field. *)
#[export] Instance eq_find : MongoFind := fun ds q =>
  match q with
  | EDict f => Ret (filter (fun d => Forall (fun kv => kv ∈ d) f) ds)
  | EOther _ => Throw (TypeError "filter must be an instance of dict")
  end.

Lemma read_sql_query_never_raises_witness :
  read_sql_query (H0:=eq_find) (fun _ => st_stop) "{}" 0 (Some "items") mongo_world =
    (mongo_world, Throw StopException) /\
  is_exception StopException = false.
Proof.
  split; [reflexivity|].
  exact (read_sql_query_never_raises (H0:=eq_find) (fun _ => st_stop) "{}" 0 (Some "items")
           mongo_world mongo_world StopException eq_refl).
Defined.

Lemma read_sql_query_cmysql_witness :
  obj_class (w_heap mongo_world !! 1) = ClsCMySQL /\
  read_sql_query (H0:=eq_find) (fun _ => mret (EDict [])) "SELECT * FROM items" 1
    (Some "items") mongo_world = (mongo_world, Ret (QRows [])).
Proof.
  split; [reflexivity|].
  exact (read_sql_query_cmysql (H0:=eq_find) (fun _ => mret (EDict []))
           "SELECT * FROM items" 1 (Some "items") mongo_world eq_refl).
Defined.

Lemma read_sql_query_rejected_witness :
  heap_wf sqlite_world /\
  let '(w', o) := read_sql_query (H0:=eq_find) (fun _ => mret (EDict []))
                    "SELEC title FROM movies" 0 (Some "movies") sqlite_world in
  o = Ret (QRows []) /\ w_fs w' = w_fs sqlite_world /\
  w_ui w' = w_ui sqlite_world ++
              [UiError ("Error executing query: " +:+ exc_str (syntax_error DSqlite))].
Proof.
  assert (Hwf : heap_wf sqlite_world) by (apply heap_wfb_sound; vm_compute; reflexivity).
  split; [exact Hwf|].
  exact (read_sql_query_rejected (H0:=eq_find) (fun _ => mret (EDict []))
           "SELEC title FROM movies" 0 "movies.db" (Some "movies") sqlite_world
           Hwf eq_refl eq_refl).
Defined.

Lemma read_sql_query_select_witness :
  heap_wf sqlite_world /\
  let '(w', o) := read_sql_query (H0:=eq_find) (fun _ => mret (EDict []))
                    "```SELECT * FROM movies```" 0 (Some "movies") sqlite_world in
  o = Ret (QRows (tbl_rows movies_table)) /\ w_fs w' = w_fs sqlite_world /\
  w_ui w' = w_ui sqlite_world.
Proof.
  assert (Hwf : heap_wf sqlite_world) by (apply heap_wfb_sound; vm_compute; reflexivity).
  split; [exact Hwf|].
  exact (read_sql_query_select (H0:=eq_find) (fun _ => mret (EDict []))
           "```SELECT * FROM movies```" 0 "movies.db" "movies" movies_table
           {["movies" := movies_table]} sqlite_world Hwf eq_refl eq_refl eq_refl eq_refl).
Defined.

(** With the concrete SQL front end, such an answer is a syntax error:
    the page shows the error and no rows. *)
Example language_tag_rejected :
  let '(w', o) := read_sql_query (H0:=eq_find) (fun _ => mret (EDict []))
                    "```sql
SELECT * FROM movies;
```" 0 (Some "movies") sqlite_world in
  o = Ret (QRows []) /\ w_ui w' = [UiError "Error executing query: syntax error"].
Proof. vm_compute. split; reflexivity. Qed.

End Executor.
