(* ===== verification/Schema.v ===== *)
(** * The schema introspector: [get_column_names]

    src/BOT/pages/app.py, lines 101-126.  The column names of the table
    the user typed, by the class of the connection:
    - sqlite3: [PRAGMA table_info(t)], the second field of each row;
    - mysql.connector's [MySQLConnection]: [SHOW COLUMNS FROM t], the
      first field (a [CMySQLConnection] is not an instance and falls to
      the last branch);
    - psycopg2: [INFORMATION_SCHEMA.COLUMNS], the first field;
    - MongoClient: the keys of [find_one()] in the default database when
      the collection is listed there, else none;
    - anything else: none.
    Every [Exception] is shown as [Error retrieving column names: ...]
    and the result is then empty.

    The theorems: the function always returns (it raises nothing, not
    even Streamlit's control exceptions); on a SQLite table it returns
    exactly the declared column names; on MongoDB an absent collection
    gives no columns silently, while an empty one shows an error; a
    [CMySQLConnection] gives no columns. *)

From stdpp Require Import base list gmap strings.
From S2P Require Import Prelude PyStr Sql SqlParse World.
From stdpp Require Import options.

Module Schema.

(** [row[i]]: [IndexError] past the end. *)
Definition row_at (i : nat) (r : row) : Py value :=
  match r !! i with
  | Some v => mret v
  | None => mthrow (IndexError "list index out of range")
  end.

(** [[row[i] for row in rows]] *)
Fixpoint column_of (i : nat) (rows : list row) : Py (list value) :=
  match rows with
  | [] => mret []
  | r :: rest => v ← row_at i r; vs ← column_of i rest; mret (v :: vs)
  end.

Section WithParser.
Context {SP : SqlParser}.

(** [cursor = conn.cursor(); cursor.execute(query);
    columns = [row[i] for row in cursor.fetchall()]] *)
Definition sql_columns (conn : nat) (query : string) (i : nat) : Py (list value) :=
  cur ← cursor conn;
  execute cur query [];;
  rows ← fetchall cur;
  column_of i rows.

(** [db = conn.get_default_database(); if table_name in
    db.list_collection_names(): columns = list(db[table_name].find_one().keys())
    else: columns = []] *)
Definition mongo_columns (conn : nat) (table_name : string) : Py (list value) :=
  dbn ← get_default_database conn;
  names ← list_collection_names conn dbn;
  if bool_decide (table_name ∈ names) then
    d ← find_one conn dbn table_name;
    match d with
    | Some kvs => mret (map (fun kv => VText kv.1) kvs)
    | None => mthrow (AttributeError "'NoneType' object has no attribute 'keys'")
    end
  else mret [].

(** app.py, [get_column_names] *)
Definition get_column_names (table_name : string) (conn : nat) : Py (list value) :=
  try_except
    (cls ← conn_class conn;
     match cls with
     | ClsSqlite => sql_columns conn ("PRAGMA table_info(" +:+ table_name +:+ ")") 1
     | ClsMySQL => sql_columns conn ("SHOW COLUMNS FROM " +:+ table_name) 0
     | ClsPsycopg2 =>
         sql_columns conn ("SELECT column_name FROM INFORMATION_SCHEMA.COLUMNS WHERE table_name = '"
                           +:+ table_name +:+ "'") 0
     | ClsMongo => mongo_columns conn table_name
     | _ => mret []
     end)
    (fun e => if is_exception e
              then Some (st_error ("Error retrieving column names: " +:+ exc_str e);; mret [])
              else None).

End WithParser.

(** ** Lemmas *)

Lemma column_of_exc i rows : raises_exception_only (column_of i rows).
Proof.
  induction rows as [|r rows IH]; simpl; [auto with pyexc|].
  apply exc_only_bind; [|auto with pyexc]. unfold row_at. case_match; [auto with pyexc|].
  by apply exc_only_throw.
Qed.

(** Reading column [i] of rows that all have one returns those values. *)
Lemma column_of_ok i rows vs w :
  (fun r : row => r !! i) <$> rows = Some <$> vs -> column_of i rows w = (w, Ret vs).
Proof.
  revert vs. induction rows as [|r rows IH]; intros [|v vs] H; try discriminate; [done|].
  injection H as Hr Hrs. simpl. unfold row_at, mbind, pym_bind. rewrite Hr. simpl.
  by rewrite (IH vs Hrs).
Qed.

Section Props.
Context {SP : SqlParser}.

Lemma sql_columns_exc conn q i : raises_exception_only (sql_columns conn q i).
Proof. unfold sql_columns. eauto 7 using column_of_exc with pyexc. Qed.

Lemma mongo_columns_exc conn t : raises_exception_only (mongo_columns conn t).
Proof.
  unfold mongo_columns. apply exc_only_bind; [auto with pyexc|intros dbn].
  apply exc_only_bind; [auto with pyexc|intros names]. destruct (bool_decide _); [|auto with pyexc].
  apply exc_only_bind; [auto with pyexc|]. intros [d|]; [auto with pyexc|].
  by apply exc_only_throw.
Qed.

(** C22: [get_column_names] always returns a list: every [Exception] of
    the drivers is caught and the body raises nothing else, so the page
    goes on whatever the connection and the table name. *)
Theorem get_column_names_total t conn : never_raises (get_column_names t conn).
Proof.
  apply never_raises_try_except.
  - apply exc_only_bind; [auto with pyexc|intros []];
      auto using sql_columns_exc, mongo_columns_exc with pyexc.
  - intros e ->. eexists. split; [done|]. intros w. by eexists _, _.
Qed.

End Props.

(** The names [PRAGMA table_info] lists: the declared columns, none for a
    missing table. *)
Definition declared_columns (db : sqldb) (t : string) : list value :=
  (fun k => VText (col_name k)) <$> default [] (tbl_cols <$> db !! t).

Lemma table_info_names db t :
  (fun r : row => r !! 1) <$> table_info_rows db t = Some <$> declared_columns db t.
Proof.
  unfold table_info_rows, declared_columns. destruct (db !! t) as [tbl|]; [|done]. simpl.
  rewrite fmap_imap, <- list_fmap_compose, <- imap_const. by apply imap_ext.
Qed.

Section PropsLaws.
Context {SP : SqlParser} {HL : SqlParserLaws}.

(** Running [get_column_names] on a sqlite3 connection. *)
Lemma get_column_names_sqlite_run w conn path db t :
  heap_wf w -> w_heap w !! conn = Some (OConn (mk_conn KSqlite3 (path, None, None) None true)) ->
  w_fs w !! path = Some (FSqlite db) -> is_ident t = true ->
  let '(w', o) := get_column_names t conn w in
  o = Ret (declared_columns db t) /\ w_fs w' = w_fs w /\ w_ui w' = w_ui w.
Proof using HL.
  intros Hwf Hc Hf Ht. pose proof (heap_wf_lt _ _ _ Hwf Hc). assert (conn <> w_next w) by lia.
  unfold get_column_names, sql_columns. py_unfold. simpl. rewrite Hc. simpl.
  simplify_map_eq. rewrite parse_pragma_table_info by done. simpl.
  simplify_map_eq. rewrite (column_of_ok _ _ (declared_columns db t)) by apply table_info_names.
  done.
Qed.

(** C23: on an open sqlite3 connection, [get_column_names] returns the
    columns the table declares, in order (none for a table that does not
    exist), shows nothing and changes no file. *)
Theorem get_column_names_sqlite w conn path db t :
  heap_wf w -> w_heap w !! conn = Some (OConn (mk_conn KSqlite3 (path, None, None) None true)) ->
  w_fs w !! path = Some (FSqlite db) -> is_ident t = true ->
  let '(w', o) := get_column_names t conn w in
  o = Ret (declared_columns db t) /\ w_fs w' = w_fs w /\ w_ui w' = w_ui w.
Proof using HL. apply get_column_names_sqlite_run. Qed.

End PropsLaws.

Lemma in_collection_names (m : mdb) t :
  bool_decide (t ∈ fst <$> map_to_list m) = bool_decide (is_Some (m !! t)).
Proof.
  apply bool_decide_ext. rewrite list_elem_of_fmap. split.
  - intros ([k v] & -> & Hkv%elem_of_map_to_list). by exists v.
  - intros [v Hv]. exists (t, v). split; [done|]. by apply elem_of_map_to_list.
Qed.

(** The documents of collection [t] in database [dbn] of a server. *)
Definition collection (sv : mserver) (dbn t : string) : option (list doc) :=
  sv !! dbn ≫= fun d : mdb => d !! t.

Section MongoProps.
Context {SP : SqlParser}.

(** Running [get_column_names] on a MongoClient. *)
Lemma get_column_names_mongo_run w conn h dbn sv t :
  w_heap w !! conn = Some (OMongo (Some h) (Some dbn)) -> w_mongo w !! Some h = Some sv ->
  get_column_names t conn w =
    match collection sv dbn t with
    | None => (w, Ret [])
    | Some [] =>
        (set_ui (fun u => u ++ [UiError ("Error retrieving column names: " +:+
                                         "'NoneType' object has no attribute 'keys'")]) w, Ret [])
    | Some (d :: _) => (w, Ret (map (fun kv => VText kv.1) d))
    end.
Proof.
  intros Hc Hs. unfold get_column_names, mongo_columns, collection. py_unfold.
  repeat (progress (simpl; rewrite ?Hc, ?Hs)). rewrite in_collection_names.
  destruct (sv !! dbn) as [d|] eqn:Hd; [|done]. simpl.
  destruct (d !! t) as [[|doc ds]|] eqn:Ht;
    repeat (progress (simpl; rewrite ?Hc, ?Hs, ?Hd, ?Ht)); done.
Qed.

(** C24: on a MongoClient whose URI names a database, [get_column_names]
    lists the keys of the collection's first document; for a collection
    that does not exist it returns no columns and shows nothing, and for
    one that exists but is empty it shows the [AttributeError] of
    [None.keys()] and returns no columns.  The spec asks for an empty
    result without an error in both cases. *)
Theorem get_column_names_mongo w conn h dbn sv t :
  w_heap w !! conn = Some (OMongo (Some h) (Some dbn)) -> w_mongo w !! Some h = Some sv ->
  get_column_names t conn w =
    match collection sv dbn t with
    | None => (w, Ret [])
    | Some [] =>
        (set_ui (fun u => u ++ [UiError ("Error retrieving column names: " +:+
                                         "'NoneType' object has no attribute 'keys'")]) w, Ret [])
    | Some (d :: _) => (w, Ret (map (fun kv => VText kv.1) d))
    end.
Proof. apply get_column_names_mongo_run. Qed.

End MongoProps.

Lemma declared_columns_some db t tbl :
  db !! t = Some tbl -> declared_columns db t = VText <$> (col_name <$> tbl_cols tbl).
Proof. intros Ht. unfold declared_columns. rewrite Ht. simpl. by rewrite <- list_fmap_compose. Qed.

(** ** Witnesses *)

Definition films : table :=
  mk_table [mk_column "title" "TEXT" false; mk_column "year" "INTEGER" false]
    [[VText "Alien"; VInt 1979]].

(** An open SQLite connection (reference 0) to [films.db], and a
    MongoClient (reference 1) on [localhost] whose URI names [shop], where
    [items] is empty and [orders] holds one document. *)
Definition schema_world : world :=
  mk_world {["films.db" := FSqlite {["films" := films]}]} ∅ ∅
    {[Some "localhost" := {["shop" := {["items" := []; "orders" := [[("sku", VText "a1"); ("qty", VInt 2)]]]}]}]}
    {[0 := OConn (mk_conn KSqlite3 ("films.db", None, None) None true);
      1 := OMongo (Some "localhost") (Some "shop")]} 2 ∅ [] ∅.

Lemma get_column_names_sqlite_witness :
  let '(w', o) := get_column_names (SP:=concrete_parser) "films" 0 schema_world in
  o = Ret (declared_columns {["films" := films]} "films") /\
  w_fs w' = w_fs schema_world /\ w_ui w' = w_ui schema_world.
Proof.
  apply (get_column_names_sqlite (HL:=concrete_parser_laws) schema_world 0 "films.db").
  - apply heap_wfb_sound. vm_compute. reflexivity.
  - reflexivity.
  - reflexivity.
  - reflexivity.
Defined.

Lemma get_column_names_mongo_witness :
  get_column_names (SP:=concrete_parser) "items" 1 schema_world =
    (set_ui (fun u => u ++ [UiError ("Error retrieving column names: " +:+
                                     "'NoneType' object has no attribute 'keys'")]) schema_world,
     Ret []) /\
  get_column_names (SP:=concrete_parser) "orders" 1 schema_world =
    (schema_world, Ret [VText "sku"; VText "qty"]).
Proof.
  split.
  - exact (get_column_names_mongo schema_world 1 "localhost" "shop"
             {["shop" := {["items" := []; "orders" := [[("sku", VText "a1"); ("qty", VInt 2)]]]}]}
             "items" eq_refl eq_refl).
  - exact (get_column_names_mongo schema_world 1 "localhost" "shop"
             {["shop" := {["items" := []; "orders" := [[("sku", VText "a1"); ("qty", VInt 2)]]]}]}
             "orders" eq_refl eq_refl).
Defined.

End Schema.
