(* ===== verification/Selection.v ===== *)
(** * The database selection page and connection.py's [main]

    src/database_selection.py, [main] (lines 88-132): behind a gate on
    [st.session_state["database_selection"]], a form with a database type,
    a connection string and an upload; [Continue] stores the choice in the
    session ([user_db_type], [user_db_connection_string], [user_db_path])
    and reruns the script, or shows why it cannot.

    src/connection.py, [main] (lines 86-104): reads those keys (and
    [database_type], [connection_string], [file_path]) back from the
    session and opens a connection for each type found, announcing success.

    One script run is a [Py] computation; the widget values of the run
    are its input ([sel_input]).  Streamlit stores the value of a widget
    that has a [key] in the session under that key during the run: the
    selectbox, the text area and the uploader write [database_type],
    [connection_string] and [upload_file] ([upload_file] holds the
    uploaded file's name: the model has no file objects in the session).
    [st.set_page_config] has no effect the model observes.

    The theorems: the gate stops the run unless the key is set; a run
    never stores both a connection string and a file path; a valid
    [Continue] stores exactly the choice and reruns; connection.py's
    [main] opens the stored choice and leaves it open. *)

From stdpp Require Import base list gmap strings.
From S2P Require Import Prelude PyStr UrlParse Sql SqlParse World Pandas Broker.
From stdpp Require Import options.

Module Selection.

(** An uploaded file: its name and its bytes. *)
Record upload := mk_upload { up_name : string; up_data : file }.

(** The widget values of one run of the selection page. *)
Record sel_input := mk_sel_input {
  si_type : string;                 (** the selectbox *)
  si_conn : string;                 (** the text area ("" when empty) *)
  si_upload : option upload;        (** the file uploader *)
  si_continue : bool                (** the [Continue] button *)
}.

(** [file_path = f"database_files/{upload_file.name}"];
    [os.makedirs(...)]; [open(file_path, "wb").write(upload_file.read())] *)
Definition save_upload (u : upload) : Py string :=
  let file_path := "database_files/" +:+ up_name u in
  modify (set_fs (insert file_path (up_data u)));;
  mret file_path.

(** The three keys the page stores its choice under. *)
Definition store_choice (db_type : string) (cs path : pyval) : Py unit :=
  session_set "user_db_type" (PStr db_type);;
  session_set "user_db_connection_string" cs;;
  session_set "user_db_path" path.

(** database_selection.py, the [Continue] handler (lines 111-132). *)
Definition on_continue (inp : sel_input) : Py unit :=
  if negb (String.eqb (si_type inp) "Other") then
    if negb (String.eqb (si_conn inp) "") && bool_decide (is_Some (si_upload inp)) then
      st_error "Please choose either a connection string or upload a file, not both."
    else if negb (String.eqb (si_conn inp) "") then
      store_choice (si_type inp) (PStr (si_conn inp)) PNone;;
      st_rerun
    else match si_upload inp with
         | Some u =>
             file_path ← save_upload u;
             store_choice (si_type inp) PNone (PStr file_path);;
             st_rerun
         | None => st_error "Please provide a connection string or upload a database file."
         end
  else st_info "Please select a valid database type.".

(** database_selection.py, [main] *)
Definition selection_main (inp : sel_input) : Py unit :=
  gate ← session_get "database_selection";
  (if truthy gate then mret () else st_info "Please log in first.";; st_stop);;
  st_emit (UiTitle "Database Selection");;
  session_set "database_type" (PStr (si_type inp));;
  session_set "connection_string" (PStr (si_conn inp));;
  session_set "upload_file" (match si_upload inp with Some u => PStr (up_name u) | None => PNone end);;
  if si_continue inp then on_continue inp else mret ().

(** connection.py, [main]: the internal database's keys and the user's. *)
Section ConnMain.
Context {SP : SqlParser}.
Variable mysql_cext : bool.

Definition connection_main : Py unit :=
  db_type ← session_get "database_type";
  connection_string ← session_get "connection_string";
  db_path ← session_get "file_path";
  user_db_type ← session_get "user_db_type";
  user_db_connection_string ← session_get "user_db_connection_string";
  user_db_path ← session_get "user_db_path";
  (if truthy user_db_type then
     user_conn ← Broker.connect_to_database_conn mysql_cext (default "" (opt_of_pyval user_db_type))
                   (opt_of_pyval user_db_connection_string) (opt_of_pyval user_db_path);
     match user_conn with
     | Some _ => st_success ("Successfully connected to user database: " +:+
                             default "" (opt_of_pyval user_db_type))
     | None => mret ()
     end
   else mret ());;
  if truthy db_type then
    conn ← Broker.connect_to_database_conn mysql_cext (default "" (opt_of_pyval db_type))
             (opt_of_pyval connection_string) (opt_of_pyval db_path);
    match conn with
    | Some _ => st_success ("Successfully connected to internal database: " +:+
                            default "" (opt_of_pyval db_type))
    | None => mret ()
    end
  else mret ().

End ConnMain.

(** ** Properties *)

(** [st.session_state.get(key)] *)
Definition sess (w : world) (k : string) : pyval := default PNone (w_session w !! k).

(** The stored choice names at most one source: never both a connection
    string and a file path. *)
Definition one_source (w : world) : bool :=
  negb (truthy (sess w "user_db_connection_string") && truthy (sess w "user_db_path")).

Ltac sel_run := unfold selection_main, on_continue, store_choice, save_upload, sess;
  py_unfold; simpl.

Lemma selection_gate_run inp w :
  truthy (sess w "database_selection") = false ->
  selection_main inp w = (set_ui (fun u => u ++ [UiInfo "Please log in first."]) w, Throw StopException).
Proof. unfold sess. intros Hg. sel_run. by rewrite Hg. Qed.

(** C25: the gate.  Unless [st.session_state["database_selection"]] is
    truthy, a run of the selection page shows [Please log in first.] and
    stops; nothing else changes, whatever the widgets hold. *)
Theorem selection_gate inp w :
  truthy (sess w "database_selection") = false ->
  selection_main inp w = (set_ui (fun u => u ++ [UiInfo "Please log in first."]) w, Throw StopException).
Proof. apply selection_gate_run. Qed.

(** C26: every run of the selection page keeps [one_source]: the
    connection-string branch clears the path and the upload branch clears
    the string, and no other branch writes either key.  The final state
    is the one Streamlit keeps when the run ends by [st.rerun()] or
    [st.stop()]. *)
Theorem selection_one_source inp w :
  one_source w = true -> one_source (exec_state (selection_main inp) w) = true.
Proof.
  unfold one_source, sess, exec_state. intros Hw. sel_run.
  destruct (truthy (default PNone (w_session w !! "database_selection"))); simpl; [|done].
  destruct (si_continue inp); simpl; [|by simplify_map_eq].
  destruct (String.eqb (si_type inp) "Other"); simpl; [by simplify_map_eq|].
  destruct (String.eqb (si_conn inp) ""), (si_upload inp); simpl; simplify_map_eq;
    by rewrite ?andb_false_r.
Qed.

(** C27: a valid [Continue] with a connection string (and no upload)
    stores the type and the string, clears the path and reruns. *)
Theorem selection_stores_string inp w :
  truthy (sess w "database_selection") = true -> si_continue inp = true ->
  si_type inp <> "Other" -> si_conn inp <> "" -> si_upload inp = None ->
  let '(w', o) := selection_main inp w in
  o = Throw (RerunException None) /\
  sess w' "user_db_type" = PStr (si_type inp) /\
  sess w' "user_db_connection_string" = PStr (si_conn inp) /\
  sess w' "user_db_path" = PNone /\ w_fs w' = w_fs w.
Proof.
  unfold sess. intros Hg Hc Ht Hs Hu. sel_run. rewrite Hg, Hc, Hu. simpl.
  rewrite (proj2 (String.eqb_neq _ _) Ht), (proj2 (String.eqb_neq _ _) Hs). simpl.
  by simplify_map_eq.
Qed.

(** C28: connection.py's [main] on the choice the selection page stores
    for an uploaded SQLite file (and no internal database configured)
    opens a sqlite3 connection to that file, announces it, and returns
    with the connection still open: nothing closes it, although the spec
    wants every handle closed at the end of its request. *)
Theorem connection_main_opens_sqlite `{SqlParser} cext w p :
  sess w "user_db_type" = PStr "SQLite" -> sess w "user_db_path" = PStr p -> p <> "" ->
  truthy (sess w "database_type") = false ->
  let '(w', o) := connection_main cext w in
  o = Ret () /\
  w_heap w' !! w_next w = Some (OConn (mk_conn KSqlite3 (p, None, None) None true)) /\
  w_ui w' = w_ui w ++ [UiSuccess ("Successfully connected to user database: " +:+ "SQLite")].
Proof.
  unfold sess. intros Ht Hp Hne Hdb. unfold connection_main.
  unfold Broker.connect_to_database_conn, Broker.dispatch, Broker.sqlite_branch.
  py_unfold. simpl. rewrite Ht, Hp. simpl. rewrite (proj2 (String.eqb_neq _ _) Hne). simpl.
  destruct (w_fs w !! p); simpl; rewrite Hdb; simpl; by simplify_map_eq.
Qed.

(** ** Witnesses *)

Definition shop_upload : upload := mk_upload "shop.db" (FSqlite ∅).

(** A session after login by main.py: [authenticated] is set, the key
    the selection page tests is not. *)
Definition logged_in : world := mk_world ∅ ∅ ∅ ∅ ∅ 0 {["authenticated" := PBool true]} [] ∅.

(** A session that opens the gate. *)
Definition gate_open : world := mk_world ∅ ∅ ∅ ∅ ∅ 0 {["database_selection" := PBool true]} [] ∅.

Lemma selection_gate_witness :
  selection_main (mk_sel_input "SQLite" "" (Some shop_upload) true) logged_in =
    (set_ui (fun u => u ++ [UiInfo "Please log in first."]) logged_in, Throw StopException).
Proof. apply selection_gate. reflexivity. Defined.

Lemma selection_one_source_witness :
  one_source (exec_state (selection_main (mk_sel_input "SQLite" "" (Some shop_upload) true))
                gate_open) = true.
Proof. apply selection_one_source. reflexivity. Defined.

Lemma selection_stores_string_witness :
  let '(w', o) := selection_main (mk_sel_input "MySQL" "mysql://u:p@db/shop" None true) gate_open in
  o = Throw (RerunException None) /\
  sess w' "user_db_type" = PStr "MySQL" /\
  sess w' "user_db_connection_string" = PStr "mysql://u:p@db/shop" /\
  sess w' "user_db_path" = PNone /\ w_fs w' = w_fs gate_open.
Proof.
  apply (selection_stores_string (mk_sel_input "MySQL" "mysql://u:p@db/shop" None true));
    (reflexivity || discriminate).
Defined.

Definition chosen : world :=
  mk_world {["database_files/shop.db" := FSqlite ∅]} ∅ ∅ ∅ ∅ 0
    {["user_db_type" := PStr "SQLite"; "user_db_connection_string" := PNone;
      "user_db_path" := PStr "database_files/shop.db"]} [] ∅.

Lemma connection_main_opens_sqlite_witness :
  let '(w', o) := connection_main (SP:=concrete_parser) false chosen in
  o = Ret () /\
  w_heap w' !! w_next chosen =
    Some (OConn (mk_conn KSqlite3 ("database_files/shop.db", None, None) None true)) /\
  w_ui w' = w_ui chosen ++ [UiSuccess ("Successfully connected to user database: " +:+ "SQLite")].
Proof. apply connection_main_opens_sqlite; (reflexivity || discriminate). Defined.

End Selection.
