(* ===== verification/Frame.v ===== *)
(** * Frame lemmas: which computations leave a session key alone

    [keeps_key k c]: whatever the world, running [c] leaves the value
    of [st.session_state[k]] as it was (absent stays absent).  The
    predicate is closed under the monad's sequencing and exception
    handling, holds for every driver, pandas, pymongo and Streamlit call
    but [session_set k], and so, for the handlers of the four scripts,
    for every key they do not write.  [Pages] uses it to show that no
    run of any page sets the key the selection page tests. *)

From stdpp Require Import base list gmap strings.
From S2P Require Import Prelude PyStr UrlParse Sql SqlParse World Pandas Credentials Executor Schema Broker Selection App.
From stdpp Require Import options.

Module Frame.

Definition keeps_key {A} (k : string) (c : Py A) : Prop :=
  forall w, w_session (fst (c w)) !! k = w_session w !! k.

Create HintDb keeps.

Section Rules.
Variable k : string.

Lemma keeps_ret {A} (a : A) : keeps_key k (mret a).
Proof. done. Qed.

Lemma keeps_throw {A} (e : exc) : keeps_key k (A:=A) (mthrow e).
Proof. done. Qed.

Lemma keeps_bind {A B} (c : Py A) (f : A -> Py B) :
  keeps_key k c -> (forall a, keeps_key k (f a)) -> keeps_key k (c ≫= f).
Proof.
  intros Hc Hf w. unfold mbind, pym_bind. specialize (Hc w).
  destruct (c w) as [w1 [a|e]]; simpl in *; [by rewrite Hf|done].
Qed.

Lemma keeps_try_except {A} (c : Py A) h :
  keeps_key k c -> (forall e c', h e = Some c' -> keeps_key k c') -> keeps_key k (try_except c h).
Proof.
  intros Hc Hh w. unfold try_except. specialize (Hc w).
  destruct (c w) as [w1 [a|e]]; simpl in *; [done|].
  destruct (h e) as [c'|] eqn:E; simpl; [|done]. by rewrite (Hh e c' E).
Qed.

Lemma keeps_try_finally {A} (c : Py A) fin :
  keeps_key k c -> keeps_key k fin -> keeps_key k (try_finally c fin).
Proof.
  intros Hc Hf w. unfold try_finally. specialize (Hc w).
  destruct (c w) as [w1 o]. specialize (Hf w1). destruct (fin w1) as [w2 [?|?]]; simpl in *; congruence.
Qed.

Lemma keeps_gets {A} (f : world -> A) : keeps_key k (gets f).
Proof. done. Qed.

Lemma keeps_modify f :
  (forall w, w_session (f w) !! k = w_session w !! k) -> keeps_key k (modify f).
Proof. done. Qed.

Lemma keeps_session_set k' v : k' <> k -> keeps_key k (session_set k' v).
Proof. intros Hne w. simpl. by rewrite lookup_insert_ne. Qed.

Lemma keeps_st_emit ev : keeps_key k (st_emit ev).
Proof. done. Qed.

Lemma keeps_alloc o : keeps_key k (alloc o).
Proof. done. Qed.

End Rules.

#[export] Hint Resolve keeps_ret keeps_throw keeps_gets keeps_st_emit keeps_alloc : keeps.

(** Case analysis down to the final world of a driver call. *)
Ltac keeps_prim :=
  intro w; do 2 (py_unfold; repeat (case_match; simplify_eq/=)); try done.

(** Sequencing, handlers and branches, down to the calls' lemmas. *)
Ltac keeps_auto :=
  repeat match goal with
  | |- keeps_key _ (mbind _ _) => apply keeps_bind; [|intros ?]
  | |- keeps_key _ (try_except _ _) => apply keeps_try_except; [|intros ? ? ?]
  | |- keeps_key _ (try_finally _ _) => apply keeps_try_finally
  | H : Some _ = Some _ |- _ => simplify_eq
  | H : None = Some _ |- _ => discriminate H
  | H : (if ?b then _ else _) = Some _ |- _ => destruct b
  | |- keeps_key _ _ => solve [eauto with keeps]
  | |- keeps_key _ _ => progress case_match
  end.

Section Drivers.
Context {SP : SqlParser} {MF : MongoFind}.
Variable k : string.

Lemma keeps_sqlite3_connect p : keeps_key k (sqlite3_connect p).
Proof. keeps_prim. Qed.
Lemma keeps_mysql_connect cext h u pw d : keeps_key k (mysql_connect cext h u pw d).
Proof. keeps_prim. Qed.
Lemma keeps_psycopg2_connect h d u pw : keeps_key k (psycopg2_connect h d u pw).
Proof. keeps_prim. Qed.
Lemma keeps_cursor r : keeps_key k (cursor r).
Proof. keeps_prim. Qed.
Lemma keeps_execute cur sql ps : keeps_key k (execute cur sql ps).
Proof. keeps_prim. Qed.
Lemma keeps_fetchone cur : keeps_key k (fetchone cur).
Proof. keeps_prim. Qed.
Lemma keeps_fetchall cur : keeps_key k (fetchall cur).
Proof. keeps_prim. Qed.
Lemma keeps_commit r : keeps_key k (commit r).
Proof. keeps_prim. Qed.
Lemma keeps_rollback r : keeps_key k (rollback r).
Proof. keeps_prim. Qed.
Lemma keeps_close r : keeps_key k (close r).
Proof. keeps_prim. Qed.
Lemma keeps_get_default_database r : keeps_key k (get_default_database r).
Proof. keeps_prim. Qed.
Lemma keeps_find_all r dbn coll q : keeps_key k (find_all r dbn coll q).
Proof. keeps_prim. Qed.
Lemma keeps_mongo_client uri : keeps_key k (mongo_client uri).
Proof. unfold mongo_client. keeps_auto. Qed.
Lemma keeps_mongo_drop r dbn coll : keeps_key k (mongo_drop r dbn coll).
Proof. keeps_prim. Qed.
Lemma keeps_mongo_insert_many r dbn coll ds : keeps_key k (mongo_insert_many r dbn coll ds).
Proof. keeps_prim. Qed.
Lemma keeps_list_collection_names r dbn : keeps_key k (list_collection_names r dbn).
Proof. keeps_prim. Qed.
Lemma keeps_find_one r dbn coll : keeps_key k (find_one r dbn coll).
Proof. keeps_prim. Qed.
Lemma keeps_read_csv path : keeps_key k (Pandas.read_csv path).
Proof. unfold Pandas.read_csv. keeps_prim. Qed.
Lemma keeps_sqlite_has_table r name : keeps_key k (Pandas.sqlite_has_table r name).
Proof. unfold Pandas.sqlite_has_table. keeps_prim. Qed.

End Drivers.

#[export] Hint Resolve keeps_sqlite3_connect keeps_mysql_connect keeps_psycopg2_connect
  keeps_cursor keeps_execute keeps_fetchone keeps_fetchall keeps_commit keeps_rollback
  keeps_close keeps_get_default_database keeps_find_all keeps_mongo_client keeps_mongo_drop
  keeps_mongo_insert_many keeps_list_collection_names keeps_find_one keeps_read_csv
  keeps_sqlite_has_table : keeps.

(** The session keys the scripts write: the widgets with a [key], the
    login flag and the selection page's choice. *)
Definition written_keys : list string :=
  ["authenticated"; "signup_user"; "signup_pass"; "login_user"; "login_pass";
   "database_type"; "connection_string"; "upload_file"; "input";
   "user_db_type"; "user_db_connection_string"; "user_db_path"].

Section Scripts.
Context {SP : SqlParser} {MF : MongoFind} {LM : App.LanguageModel}.
Variable py_eval : string -> Py evalue.
Variable mysql_cext : bool.
Variable k : string.
Hypothesis Hk : k ∉ written_keys.
(** The model and [eval] are not given the session. *)
Hypothesis model_keeps : forall ps, keeps_key k (App.generate_content ps).
Hypothesis eval_keeps : forall s, keeps_key k (py_eval s).

#[local] Hint Extern 2 (keeps_key _ (session_set _ _)) =>
  apply keeps_session_set; let E := fresh in intros E; apply Hk; rewrite <- E;
  unfold written_keys; apply list_elem_of_In; simpl; tauto : keeps.
#[local] Hint Extern 2 (keeps_key _ (modify _)) => apply keeps_modify; intros; done : keeps.
#[local] Hint Resolve model_keeps eval_keeps : keeps.

(** pandas *)
Lemma keeps_pandas_execute r sql ps : keeps_key k (Pandas.pandas_execute r sql ps).
Proof. unfold Pandas.pandas_execute. keeps_auto. Qed.
#[local] Hint Resolve keeps_pandas_execute : keeps.

Lemma keeps_insert_rows cur sql rows : keeps_key k (Pandas.insert_rows cur sql rows).
Proof. induction rows; simpl; keeps_auto. Qed.
#[local] Hint Resolve keeps_insert_rows : keeps.

Lemma keeps_to_sql df name r : keeps_key k (Pandas.to_sql df name r).
Proof. unfold Pandas.to_sql, Pandas.has_table. keeps_auto. Qed.
#[local] Hint Resolve keeps_to_sql : keeps.

(** The broker *)
Lemma keeps_dispatch mysql_csv pg_csv mongo_csv db_type cs path :
  (forall p, keeps_key k (mysql_csv p)) -> (forall p, keeps_key k (pg_csv p)) ->
  (forall p, keeps_key k (mongo_csv p)) ->
  keeps_key k (Broker.dispatch mysql_cext mysql_csv pg_csv mongo_csv db_type cs path).
Proof.
  intros Hm Hp Hg. unfold Broker.dispatch, Broker.sqlite_branch, Broker.mysql_url_branch,
    Broker.pg_url_branch, Broker.py_urlparse. keeps_auto.
Qed.

Ltac keeps_loader :=
  unfold Broker.mysql_csv_app, Broker.pg_csv_app, Broker.mongo_csv_app, Broker.mysql_csv_conn,
    Broker.pg_csv_conn, Broker.mongo_csv_conn, Broker.mongo_csv_load, Broker.replace_csv_table,
    getenv; keeps_auto.

Lemma keeps_connect_app db_type cs path :
  keeps_key k (Broker.connect_to_database_app mysql_cext db_type cs path).
Proof. apply keeps_dispatch; intros; keeps_loader. Qed.

Lemma keeps_connect_conn db_type cs path :
  keeps_key k (Broker.connect_to_database_conn mysql_cext db_type cs path).
Proof. apply keeps_dispatch; intros; keeps_loader. Qed.
#[local] Hint Resolve keeps_connect_app keeps_connect_conn : keeps.

(** main.py *)
Lemma keeps_signup_login_page inp : keeps_key k (Credentials.signup_login_page inp).
Proof using Hk.
  unfold Credentials.signup_login_page, Credentials.add_user, Credentials.login_user,
    Credentials.create_connection, st_success, st_error, st_switch_page. keeps_auto.
Qed.

(** database_selection.py and connection.py *)
Lemma keeps_selection_main inp : keeps_key k (Selection.selection_main inp).
Proof using Hk.
  unfold Selection.selection_main, Selection.on_continue, Selection.store_choice,
    Selection.save_upload, session_get, st_info, st_error, st_stop, st_rerun. keeps_auto.
Qed.

Lemma keeps_connection_main : keeps_key k (Selection.connection_main mysql_cext).
Proof. unfold Selection.connection_main, session_get, st_success. keeps_auto. Qed.

(** pages/app.py *)
Lemma keeps_column_of i rows : keeps_key k (Schema.column_of i rows).
Proof. induction rows; simpl; unfold Schema.row_at; keeps_auto. Qed.
#[local] Hint Resolve keeps_column_of : keeps.

Lemma keeps_get_column_names t conn : keeps_key k (Schema.get_column_names t conn).
Proof.
  unfold Schema.get_column_names, Schema.sql_columns, Schema.mongo_columns, conn_class,
    st_error. keeps_auto.
Qed.
#[local] Hint Resolve keeps_get_column_names : keeps.

Lemma keeps_read_query resp conn t : keeps_key k (Executor.read_query py_eval resp conn t).
Proof using eval_keeps. unfold Executor.read_query, Executor.read_sql_query, conn_class, st_error. keeps_auto. Qed.
#[local] Hint Resolve keeps_read_query : keeps.

Lemma keeps_query_page inp : keeps_key k (App.query_page py_eval mysql_cext inp).
Proof using Hk model_keeps eval_keeps.
  unfold App.query_page, App.on_submit, App.answer, App.get_response, App.join_columns,
    Selection.save_upload. keeps_auto.
Qed.

End Scripts.

End Frame.
