(* ===== verification/Pages.v ===== *)
(** * Sessions of the selection and connection scripts

    src/database_selection.py and src/connection.py are two Streamlit
    scripts that share their session keys: the first stores the user's
    choice ([user_db_type], [user_db_connection_string],
    [user_db_path]), the second opens it.  A browser session is a
    sequence of runs of either script, each with the widget values of
    its run; the world (session, files, servers, objects) carries over
    from one run to the next.  [step] is one run, [reachable] the
    reflexive-transitive closure from a world.

    The theorems: from a fresh session (nothing stored), no run ever
    stores anything, saves a file or opens a connection, because the
    selection page's gate tests the key [database_selection], which no
    script sets; so every run of the selection page stops at the gate,
    whatever the user does.

    The second part adds main.py and pages/app.py: [session_step] runs
    any of the four scripts.  With the frame lemmas of [Frame], no run
    sets [database_selection], so the selection page stays closed even
    after a successful login. *)

From stdpp Require Import base list gmap strings relations.
From S2P Require Import Prelude PyStr UrlParse Sql SqlParse World Pandas Credentials Executor Schema Broker Selection App Frame.
From stdpp Require Import options.

Module Pages.
Import Selection.

(** One run of a script, with its widget values. *)
Inductive script :=
| SelectionRun (inp : sel_input)      (** database_selection.py *)
| ConnectionRun.                      (** connection.py *)

Section Session.
Context {SP : SqlParser}.
Variable mysql_cext : bool.

Definition run_script (s : script) : Py unit :=
  match s with
  | SelectionRun inp => selection_main inp
  | ConnectionRun => connection_main mysql_cext
  end.

(** A run ends normally, by [st.stop()], by [st.rerun()] or by an
    uncaught exception; the session and the world it left carry over. *)
Inductive step : relation world :=
| step_run s w : step w (exec_state (run_script s) w).

Definition reachable (w0 : world) : world -> Prop := rtc step w0.

End Session.

(** ** Sessions of all four scripts

    main.py, pages/app.py, database_selection.py and connection.py run
    in one browser session: any of them may run next (Streamlit's page
    links, [st.switch_page], a new tab), each with its own input. *)
Inductive page_run :=
| MainRun (inp : Credentials.page_input)   (** src/BOT/main.py *)
| AppRun (inp : App.app_input)             (** src/BOT/pages/app.py *)
| SelRun (inp : sel_input)                 (** src/database_selection.py *)
| ConnRun.                                 (** src/connection.py *)

Section AllPages.
Context {SP : SqlParser} {MF : MongoFind} {LM : App.LanguageModel}.
Variable py_eval : string -> Py evalue.
Variable mysql_cext : bool.

Definition run_page (r : page_run) : Py unit :=
  match r with
  | MainRun inp => Credentials.signup_login_page inp
  | AppRun inp => App.query_page py_eval mysql_cext inp
  | SelRun inp => selection_main inp
  | ConnRun => connection_main mysql_cext
  end.

Inductive session_step : relation world :=
| session_step_run r w : session_step w (exec_state (run_page r) w).

End AllPages.

(** ** Properties *)

(** [w] differs from [w0] at most in what the page shows. *)
Definition only_ui_changed (w0 w : world) : Prop := set_ui (fun _ => w_ui w) w0 = w.

Lemma only_ui_changed_refl w : only_ui_changed w w.
Proof. by destruct w. Qed.

Lemma only_ui_changed_ui w0 w f : only_ui_changed w0 w -> only_ui_changed w0 (set_ui f w).
Proof. unfold only_ui_changed. intros <-. done. Qed.

Lemma only_ui_changed_session w0 w : only_ui_changed w0 w -> w_session w = w_session w0.
Proof. unfold only_ui_changed. by intros <-. Qed.

Section SessionProps.
Context {SP : SqlParser}.
Variable mysql_cext : bool.

(** connection.py's [main] on a session with nothing stored does
    nothing. *)
Lemma connection_main_empty w : w_session w = ∅ -> connection_main mysql_cext w = (w, Ret ()).
Proof. intros Hs. unfold connection_main. py_unfold. simpl. by rewrite Hs. Qed.

Lemma selection_main_empty inp w :
  w_session w = ∅ ->
  selection_main inp w = (set_ui (fun u => u ++ [UiInfo "Please log in first."]) w, Throw StopException).
Proof. intros Hs. apply selection_gate_run. unfold sess. by rewrite Hs. Qed.

Lemma reachable_quiet w0 w :
  w_session w0 = ∅ -> reachable mysql_cext w0 w -> only_ui_changed w0 w.
Proof.
  intros H0. revert w. apply rtc_ind_r; [apply only_ui_changed_refl|]. intros w1 w2 _ Hs IH.
  assert (w_session w1 = ∅) as H1 by (rewrite (only_ui_changed_session _ _ IH); done).
  destruct Hs as [[inp|] w1]; unfold exec_state; simpl;
    [rewrite selection_main_empty by done | rewrite connection_main_empty by done];
    simpl; [by apply only_ui_changed_ui | done].
Qed.

(** C32: in a session that starts with nothing stored, no sequence of
    runs of the two scripts, whatever the widgets hold, stores a key,
    saves an upload, opens a connection or touches a server: only the
    page changes.  The selection page's gate tests
    [st.session_state["database_selection"]], which neither script (nor
    main.py, which sets [authenticated]) ever sets. *)
Theorem session_stays_empty w0 w :
  w_session w0 = ∅ -> reachable mysql_cext w0 w ->
  w_session w = ∅ /\ w_fs w = w_fs w0 /\ w_heap w = w_heap w0 /\ w_next w = w_next w0 /\
  w_mysql w = w_mysql w0 /\ w_pg w = w_pg w0 /\ w_mongo w = w_mongo w0.
Proof. intros H0 Hr. destruct (reachable_quiet w0 w H0 Hr). by destruct w0. Qed.


End SessionProps.

Section AllPagesProps.
Context {SP : SqlParser} {MF : MongoFind} {LM : App.LanguageModel}.
Variable py_eval : string -> Py evalue.
Variable mysql_cext : bool.
(** The model and Python's [eval] do not write the session key the
    selection page tests. *)
Hypothesis model_keeps : forall ps, Frame.keeps_key "database_selection" (App.generate_content ps).
Hypothesis eval_keeps : forall s, Frame.keeps_key "database_selection" (py_eval s).

Lemma gate_key_unwritten : "database_selection" ∉ Frame.written_keys.
Proof. unfold Frame.written_keys. rewrite list_elem_of_In. simpl. intuition discriminate. Qed.

Lemma run_page_keeps r : Frame.keeps_key "database_selection" (run_page py_eval mysql_cext r).
Proof using model_keeps eval_keeps.
  pose proof gate_key_unwritten. destruct r; simpl.
  - by apply Frame.keeps_signup_login_page.
  - by apply Frame.keeps_query_page.
  - by apply Frame.keeps_selection_main.
  - apply Frame.keeps_connection_main.
Qed.

(** By induction on the runs: the key stays absent. *)
Lemma gate_key_invariant w0 w :
  w_session w0 !! "database_selection" = None -> rtc (session_step py_eval mysql_cext) w0 w ->
  w_session w !! "database_selection" = None.
Proof using model_keeps eval_keeps.
  intros H0. revert w. apply rtc_ind_r; [done|]. intros w1 w2 _ [r w] IH.
  unfold exec_state. by rewrite run_page_keeps.
Qed.

(** C34: the selection page is closed to everyone.  Whatever the user
    does on the four pages, signing up and logging in included, no run
    sets [st.session_state["database_selection"]] (main.py sets
    [authenticated], the widgets and the selection form set their own
    keys, and the drivers, pandas and pymongo touch no key); so even
    after a successful login, every run of database_selection.py shows
    [Please log in first.] and stops, whatever its input. *)
Theorem selection_gated_after_login w0 w inp :
  w_session w0 !! "database_selection" = None -> rtc (session_step py_eval mysql_cext) w0 w ->
  selection_main inp w = (set_ui (fun u => u ++ [UiInfo "Please log in first."]) w, Throw StopException).
Proof using model_keeps eval_keeps.
  intros H0 Hr. apply selection_gate_run. unfold sess. by rewrite (gate_key_invariant w0 w H0 Hr).
Qed.

End AllPagesProps.

(** ** Witnesses *)

Definition fresh : world := mk_world ∅ ∅ ∅ ∅ ∅ 0 ∅ [] ∅.

Definition try_upload : sel_input :=
  mk_sel_input "SQLite" "" (Some (mk_upload "shop.db" (FSqlite ∅))) true.

(** A session where the user submits the form, then connection.py runs,
    then the user submits again. *)
Definition after_three : world :=
  exec_state (selection_main try_upload)
    (exec_state (connection_main (SP:=concrete_parser) false)
       (exec_state (selection_main try_upload) fresh)).

Lemma after_three_reachable : reachable (SP:=concrete_parser) false fresh after_three.
Proof.
  unfold after_three. eapply rtc_l; [apply (step_run _ (SelectionRun try_upload))|].
  eapply rtc_l; [apply (step_run _ ConnectionRun)|].
  eapply rtc_l; [apply (step_run _ (SelectionRun try_upload))|]. apply rtc_refl.
Qed.

Lemma session_stays_empty_witness :
  w_session after_three = ∅ /\ w_fs after_three = w_fs fresh /\ w_heap after_three = w_heap fresh /\
  w_next after_three = w_next fresh /\ w_mysql after_three = w_mysql fresh /\
  w_pg after_three = w_pg fresh /\ w_mongo after_three = w_mongo fresh.
Proof. apply (session_stays_empty (SP:=concrete_parser) false fresh); [reflexivity | apply after_three_reachable]. Defined.


(** Alice signs up and logs in on main.py (the login succeeds: the
    session holds [authenticated]), then opens the selection page. *)
Definition signup_alice : page_run := MainRun (Credentials.SignupForm "alice" "p1" true).
Definition login_alice : page_run := MainRun (Credentials.LoginForm "alice" "p1" true).

Definition after_login : world :=
  exec_state (run_page (SP:=concrete_parser) (MF:=Executor.eq_find) (LM:=App.canned_model)
                (fun _ => mret (EDict [])) false login_alice)
    (exec_state (run_page (SP:=concrete_parser) (MF:=Executor.eq_find) (LM:=App.canned_model)
                   (fun _ => mret (EDict [])) false signup_alice) Credentials.demo_world).

Lemma after_login_reachable :
  rtc (session_step (SP:=concrete_parser) (MF:=Executor.eq_find) (LM:=App.canned_model)
         (fun _ => mret (EDict [])) false) Credentials.demo_world after_login.
Proof.
  unfold after_login. eapply rtc_l; [apply (session_step_run _ _ signup_alice)|].
  eapply rtc_l; [apply (session_step_run _ _ login_alice)|]. apply rtc_refl.
Qed.

Lemma selection_gated_after_login_witness :
  w_session after_login !! "authenticated" = Some (PBool true) /\
  selection_main try_upload after_login =
    (set_ui (fun u => u ++ [UiInfo "Please log in first."]) after_login, Throw StopException).
Proof.
  split; [vm_compute; reflexivity|].
  apply (selection_gated_after_login (SP:=concrete_parser) (MF:=Executor.eq_find)
           (LM:=App.canned_model) (fun _ => mret (EDict [])) false) with Credentials.demo_world;
    [intros ? ?; reflexivity | intros ? ?; reflexivity | reflexivity | apply after_login_reachable].
Defined.

End Pages.
